(** * Terminal companion: the service layer, embedded and verified

    A shallow embedding of the Python services of the terminal companion
    (src/Entity, src/Service) together with the properties of its
    response orchestration, memory fallback and personality state.

    Layout:
    - [Py]          the pieces of the Python runtime the services rely on
                    (dynamic values, exceptions, slicing, [in] on strings,
                    [min]/[max], [datetime.isoformat]);
    - [Entity]      src/Entity/conversation.py, memory.py, user_profile.py;
    - [Config]      the fields of src/Config/app_config.py that are read;
    - [AIConversationService]  src/Service/ai_conversation_service.py;
    - [MemoryService]          src/Service/memory_service.py;
    - [PersonalityService]     src/Service/personality_service.py;
    - [PyBuiltins], [Conversation], [Memory], [Profile]  the rest of the
                    entities: messages, histories, memory entries and user
                    profiles with their dictionaries;
    - [AIProviders], [MemoryPreferences], [PersonalityPhrases], [AppConfig]
                    the rest of the services and the validation of the
                    configuration;
    - [SystemPrompt], [CompanionController]  the system prompt of
                    src/Service/personality_service.py and the response
                    generation of src/Controller/companion_controller.py;
    - [Vocabulary], [Samples] and the modules after them: notions the
                    statements use, sample inputs;
    - the theorems: the runtime ([PyFacts], [Binary64]), then one part per
      entity or service.

    Strings are byte strings holding UTF-8, as the source files are
    encoded.  UTF-8 is self-synchronising, so for well-formed text a
    byte-level substring test agrees with Python's code-point [in]. *)

From Stdlib Require Import String Ascii List ZArith NArith Lia.
From Stdlib Require Import Floats.
From stdpp Require Import base option list gmap strings pretty.

#[local] Set Warnings "-inexact-float,-register-all".

(* ===================================================================== *)
(** * The Python runtime *)
(* ===================================================================== *)

Module Py.

(** ** Dynamic values

    JSON bodies, [metadata] dictionaries and the results handed back by the
    long-term store are untyped in the source; they are values of [pyval]. *)

Inductive pyval :=
  | VNone
  | VBool (b : bool)
  | VInt (z : Z)
  | VFloat (f : float)
  | VStr (s : string)
  | VList (l : list pyval)
  | VDict (d : gmap string pyval).

(** ** Exceptions *)

Inductive exn :=
  | KeyError | IndexError | TypeError | ValueError | AttributeError
  | ExternalError.   (* raised inside a client library: network, timeout *)

Inductive res (A : Type) :=
  | Ok (a : A)
  | Raise (e : exn).
Arguments Ok {A} a.
Arguments Raise {A} e.

#[global] Instance res_ret : MRet res := fun A a => Ok a.
#[global] Instance res_bind : MBind res := fun A B f m =>
  match m with Ok a => f a | Raise e => Raise e end.

#[global] Instance res_fmap : FMap res := fun A B f m =>
  match m with Ok a => Ok (f a) | Raise e => Raise e end.

Definition is_raise {A} (r : res A) : bool :=
  match r with Ok _ => false | Raise _ => true end.

(** ** Subscripting and [dict.get] *)

(** [l[i]] for a list, negative indices counting from the end. *)
Definition list_index {A} (l : list A) (i : Z) : res A :=
  let n := Z.of_nat (length l) in
  let j := if (i <? 0)%Z then (n + i)%Z else i in
  if (j <? 0)%Z then Raise IndexError
  else match l !! Z.to_nat j with
       | Some x => Ok x
       | None => Raise IndexError
       end.

(** [v[k]] with a string key. *)
Definition getitem (v : pyval) (k : string) : res pyval :=
  match v with
  | VDict d => match d !! k with Some x => Ok x | None => Raise KeyError end
  | VStr _ | VList _ => Raise TypeError   (* indices must be integers *)
  | _ => Raise TypeError                  (* not subscriptable *)
  end.

(** [v[i]] with an integer index.  Indexing a string yields a string of
    one character (here one byte; the services never look inside it). *)
Definition getindex (v : pyval) (i : Z) : res pyval :=
  match v with
  | VList l => list_index l i
  | VDict _ => Raise KeyError             (* string-keyed dictionaries *)
  | VStr s =>
      c ← list_index (list_ascii_of_string s) i;
      mret (VStr (String c EmptyString))
  | _ => Raise TypeError
  end.

(** [d.get(k, default)] on a dictionary proper. *)
Definition dict_get (d : gmap string pyval) (k : string) (dflt : pyval) : pyval :=
  default dflt (d !! k).

(** [v.get(k, default)]: only dictionaries have the method. *)
Definition get (v : pyval) (k : string) (dflt : pyval) : res pyval :=
  match v with
  | VDict d => Ok (dict_get d k dflt)
  | _ => Raise AttributeError
  end.

(** ** Slices

    [l[start:]] and [l[:stop]] with Python's clamping: a negative bound
    counts from the end, and every bound is clamped into [0, len].  Note
    that [l[-0:]] is [l[0:]], the whole list. *)

Definition clamp_index (len i : Z) : nat :=
  Z.to_nat (if (i <? 0)%Z then Z.max (len + i) 0 else Z.min i len).

Definition slice_from {A} (start : Z) (l : list A) : list A :=
  drop (clamp_index (Z.of_nat (length l)) start) l.

Definition slice_to {A} (stop : Z) (l : list A) : list A :=
  take (clamp_index (Z.of_nat (length l)) stop) l.

(** ** Strings *)

(** [needle in hay]: substring test. *)
Fixpoint str_in (needle hay : string) : bool :=
  String.prefix needle hay ||
  match hay with
  | EmptyString => false
  | String _ rest => str_in needle rest
  end.

(** [any(w in text for w in words)]. *)
Definition any_in (words : list string) (text : string) : bool :=
  existsb (fun w => str_in w text) words.

(** [x in l] for a list of strings. *)
Definition str_elem (x : string) (l : list string) : bool :=
  existsb (String.eqb x) l.

(** [str.lower] is Unicode case mapping, a table of the interpreter.  The
    services only ever compare its result against fixed keywords, so it is
    an operation of the runtime interface; [ascii_runtime] below is the
    instance that lowers the letters A-Z and leaves every other byte. *)
Class Runtime := { str_lower : string -> string }.

Definition ascii_lower_char (c : ascii) : ascii :=
  let n := N_of_ascii c in
  if ((65 <=? n) && (n <=? 90))%N then ascii_of_N (n + 32) else c.

Fixpoint ascii_lower (s : string) : string :=
  match s with
  | EmptyString => EmptyString
  | String c rest => String (ascii_lower_char c) (ascii_lower rest)
  end.

Definition ascii_runtime : Runtime := {| str_lower := ascii_lower |}.

(** ** Floats

    A Python [float] is an IEEE-754 binary64 number, which is what the
    primitive type [float] is; literals are rounded to the nearest such
    number by both.  [min(a, b)] returns [a] unless [b < a], [max(a, b)]
    returns [a] unless [b > a] (the builtins keep the first of two equal
    arguments). *)
Definition py_min (a b : float) : float := if (b <? a)%float then b else a.
Definition py_max (a b : float) : float := if (a <? b)%float then b else a.

(** ** [datetime]

    A naive [datetime] (no time zone), which is what [datetime.now()]
    yields.  The constructor of the class enforces the field ranges, so
    every [datetime] object satisfies [datetime_ok]. *)

Record datetime := mk_datetime {
  year : N; month : N; day : N;
  hour : N; minute : N; second : N; microsecond : N;
}.

Definition is_leap (y : N) : bool :=
  ((y mod 4 =? 0) && (negb (y mod 100 =? 0) || (y mod 400 =? 0)))%N.

Definition days_in_month (y m : N) : N :=
  match m with
  | 2%N => if is_leap y then 29 else 28
  | 4%N | 6%N | 9%N | 11%N => 30
  | _ => 31
  end.

Definition datetime_ok (t : datetime) : bool :=
  ((1 <=? year t) && (year t <=? 9999) &&
   (1 <=? month t) && (month t <=? 12) &&
   (1 <=? day t) && (day t <=? days_in_month (year t) (month t)) &&
   (hour t <? 24) && (minute t <? 60) && (second t <? 60) &&
   (microsecond t <? 1000000))%N.

(** [datetime(y, m, d, hh, mm, ss, us)]: [ValueError] outside the ranges. *)
Definition datetime_new (y m d hh mm ss us : N) : res datetime :=
  let t := mk_datetime y m d hh mm ss us in
  if datetime_ok t then Ok t else Raise ValueError.

Definition digit_char (d : N) : ascii := ascii_of_N (48 + d).

Definition digit_val (c : ascii) : option N :=
  let n := N_of_ascii c in
  if ((48 <=? n) && (n <=? 57))%N then Some (n - 48)%N else None.

(** ["%0wd" % n], written in front of [acc]; exact for [n < 10^w], which
    the field ranges guarantee wherever it is used. *)
Fixpoint pad_dec (w : nat) (n : N) (acc : string) : string :=
  match w with
  | O => acc
  | S w' => pad_dec w' (n / 10) (String (digit_char (n mod 10)) acc)
  end.

(** [t.isoformat()]: [YYYY-MM-DDTHH:MM:SS], followed by [.ffffff] when the
    microsecond field is not zero. *)
Definition isoformat (t : datetime) : string :=
  pad_dec 4 (year t) (String "-" (pad_dec 2 (month t) (String "-"
    (pad_dec 2 (day t) (String "T" (pad_dec 2 (hour t) (String ":"
      (pad_dec 2 (minute t) (String ":" (pad_dec 2 (second t)
        (if (microsecond t =? 0)%N then EmptyString
         else String "." (pad_dec 6 (microsecond t) EmptyString)))))))))))).

(** Reading [w] decimal digits off the front of a string. *)
Fixpoint take_digits (w : nat) (acc : N) (s : string) : res (N * string) :=
  match w with
  | O => Ok (acc, s)
  | S w' =>
      match s with
      | String c rest =>
          match digit_val c with
          | Some d => take_digits w' (10 * acc + d) rest
          | None => Raise ValueError
          end
      | EmptyString => Raise ValueError
      end
  end.

Definition expect (c : ascii) (s : string) : res string :=
  match s with
  | String c' rest => if Ascii.eqb c c' then Ok rest else Raise ValueError
  | EmptyString => Raise ValueError
  end.

Definition skip_char (s : string) : res string :=
  match s with
  | String _ rest => Ok rest
  | EmptyString => Raise ValueError
  end.

(** [datetime.fromisoformat(s)] on the strings [isoformat] emits for naive
    values: a date, one separator character, a time to the second and an
    optional six-digit fraction.  Any other text is a [ValueError] here
    (the interpreter also reads truncated times and UTC offsets, which
    [isoformat] never writes for a naive value). *)
Definition fromisoformat (s : string) : res datetime :=
  '(y, s) ← take_digits 4 0 s;
  s ← expect "-" s;
  '(m, s) ← take_digits 2 0 s;
  s ← expect "-" s;
  '(d, s) ← take_digits 2 0 s;
  s ← skip_char s;
  '(hh, s) ← take_digits 2 0 s;
  s ← expect ":" s;
  '(mm, s) ← take_digits 2 0 s;
  s ← expect ":" s;
  '(ss, s) ← take_digits 2 0 s;
  match s with
  | EmptyString => datetime_new y m d hh mm ss 0
  | String "." frac =>
      '(us, s) ← take_digits 6 0 frac;
      match s with
      | EmptyString => datetime_new y m d hh mm ss us
      | _ => Raise ValueError
      end
  | _ => Raise ValueError
  end.

End Py.

(* ===================================================================== *)
(** * Entities (src/Entity) *)
(* ===================================================================== *)

Module Entity.
Import Py.

(** ** conversation.py *)

Inductive SentimentType := POSITIVE | NEGATIVE | NEUTRAL.

(** [SentimentType.value] *)
Definition sentiment_value (s : SentimentType) : string :=
  match s with
  | POSITIVE => "positive"
  | NEGATIVE => "negative"
  | NEUTRAL => "neutral"
  end.

(** [SentimentType(v)]: lookup of a member by value. *)
Definition sentiment_of_value (v : pyval) : res SentimentType :=
  match v with
  | VStr s =>
      if String.eqb s "positive" then Ok POSITIVE
      else if String.eqb s "negative" then Ok NEGATIVE
      else if String.eqb s "neutral" then Ok NEUTRAL
      else Raise ValueError
  | _ => Raise ValueError
  end.

Record ConversationEntry := mk_entry {
  user_message : string;
  assistant_response : string;
  sentiment : SentimentType;
  timestamp : datetime;
  metadata : gmap string pyval;
}.

(** The dataclass annotations, applied to a dynamic value.  Python stores
    whatever it is given; a value of another type has no counterpart in
    the typed record and is reported as a [TypeError]. *)
Definition as_str (v : pyval) : res string :=
  match v with VStr s => Ok s | _ => Raise TypeError end.

Definition as_dict (v : pyval) : res (gmap string pyval) :=
  match v with VDict d => Ok d | _ => Raise TypeError end.

(** [data[k]] on a dictionary proper. *)
Definition subscript (data : gmap string pyval) (k : string) : res pyval :=
  getitem (VDict data) k.

(** [ConversationEntry.to_dict] *)
Definition to_dict (e : ConversationEntry) : gmap string pyval :=
  <["user_message" := VStr (user_message e)]>
  (<["assistant_response" := VStr (assistant_response e)]>
  (<["sentiment" := VStr (sentiment_value (sentiment e))]>
  (<["timestamp" := VStr (isoformat (timestamp e))]>
  (<["metadata" := VDict (metadata e)]> ∅)))).

(** [ConversationEntry.from_dict]: the keyword arguments are evaluated in
    the order they are written. *)
Definition from_dict (data : gmap string pyval) : res ConversationEntry :=
  um ← subscript data "user_message" ≫= as_str;
  ar ← subscript data "assistant_response" ≫= as_str;
  se ← subscript data "sentiment" ≫= sentiment_of_value;
  ts ← (subscript data "timestamp" ≫= as_str) ≫= fromisoformat;
  md ← as_dict (dict_get data "metadata" (VDict ∅));
  mret (mk_entry um ar se ts md).

(** ** user_profile.py *)

Inductive PersonalityType := CARING | PLAYFUL | INTELLECTUAL | ROMANTIC.

Definition personality_value (p : PersonalityType) : string :=
  match p with
  | CARING => "caring"
  | PLAYFUL => "playful"
  | INTELLECTUAL => "intellectual"
  | ROMANTIC => "romantic"
  end.

#[global] Instance PersonalityType_eq_dec : EqDecision PersonalityType.
Proof. solve_decision. Defined.

(** ** memory.py *)

Inductive MemoryType := CONVERSATION | PREFERENCE | FACT | EMOTION.

(** A [MemoryEntry] is filled both from session memory and from whatever
    the long-term store returns, so the fields that are copied unchecked
    are dynamic values.  Fields that several classes share ([id],
    [user_id], [metadata], [session_memories]) carry a prefix or suffix
    here. *)
Record MemoryEntry := mk_memory {
  mem_id : pyval;
  content : pyval;
  memory_type : MemoryType;
  mem_user_id : string;
  score : pyval;
  created_at : datetime;
  mem_metadata : pyval;
}.

Record MemorySearchResult := mk_search_result {
  entries : list MemoryEntry;
  query : string;
  total_count : Z;
  search_time : float;
}.

Record MemoryStats := mk_stats {
  total_memories : Z;
  session_memories_count : Z;
  long_term_enabled : bool;
  stats_user_id : string;
  last_updated : datetime;
}.

End Entity.

(* ===================================================================== *)
(** * Configuration (src/Config/app_config.py) *)
(* ===================================================================== *)

Module Config.

(** The fields of [config.ai] and [config.memory] the services read.  They
    come from the environment ([int(os.getenv(...))]) unvalidated. *)
Record AIProviderConfig := {
  provider : string;          (* AI_PROVIDER, default "ollama" *)
  temperature : float;        (* AI_TEMPERATURE, default 0.7 *)
  max_tokens : Z;             (* AI_MAX_TOKENS, default 500 *)
}.

Record MemoryConfig := {
  max_session_memories : Z;   (* MAX_SESSION_MEMORIES, default 100 *)
  search_limit : Z;           (* MEMORY_SEARCH_LIMIT, default 5 *)
}.

Definition default_ai : AIProviderConfig :=
  {| provider := "ollama"; temperature := 0.7%float; max_tokens := 500 |}.

Definition default_memory : MemoryConfig :=
  {| max_session_memories := 100; search_limit := 5 |}.

End Config.

(* ===================================================================== *)
(** * The AI conversation service (src/Service/ai_conversation_service.py) *)
(* ===================================================================== *)

Module AIConversationService.
Import Py Entity.

(** One element of the [messages] list: [{"role": r, "content": c}]. *)
Record ChatMessage := Msg { role : string; msg_content : string }.

(** [self.conversation_stats] *)
Record Stats := {
  total_conversations : Z;
  total_tokens_used : Z;
  last_conversation : option string;
}.

Record AIState := {
  has_openai_client : bool;      (* [self.openai_client is not None] *)
  is_initialized : bool;
  current_provider : string;
  conversation_stats : Stats;
}.

(** ** What the providers answer

    The answer of a provider is not computed by the program; it is an
    input of the model.  A call either raises inside the client library
    or hands back a response object. *)

(** [response] of the OpenAI SDK: [choices[i].message.content] and
    [usage.total_tokens]. *)
Record Completion := {
  choices : list pyval;          (* the [message.content] of each choice *)
  usage_total_tokens : option Z; (* [None] when [usage] is absent *)
}.

(** [response] of [requests.post]. *)
Record HttpResponse := {
  status_code : Z;
  json : res pyval;              (* what [response.json()] does *)
}.

Record World := {
  openai_create : list ChatMessage -> float -> Z -> res Completion;
  openrouter_post : list ChatMessage -> float -> Z -> res HttpResponse;
  ollama_post : string -> float -> Z -> res HttpResponse;
  clock_now : datetime;          (* [datetime.now()] *)
  random_index : nat;            (* the draw behind [random.choice] *)
}.

Definition nl : string := String (ascii_of_nat 10) EmptyString.

(** ** [_build_messages] *)

(** The body of the loop: two [append]s. *)
Definition append_turn (messages : list ChatMessage) (entry : ConversationEntry)
  : list ChatMessage :=
  (messages ++ [Msg "user" (user_message entry)])
            ++ [Msg "assistant" (assistant_response entry)].

Definition _build_messages (system_prompt : string)
    (conversation_history : option (list ConversationEntry))
    (user_message : string) : list ChatMessage :=
  let messages := [Msg "system" system_prompt] in
  let messages :=
    match conversation_history with
    | Some (x :: r) => foldl append_turn messages (slice_from (-10) (x :: r))
    | _ => messages
    end in
  messages ++ [Msg "user" user_message].

Section WithRuntime.
Context `{Runtime}.

(** ** [_fallback_response] *)

Definition fallback_choices : list string := [
  "흥미로운 이야기네요. 더 자세히 말씀해주세요.";
  "그런 일이 있으셨군요. 어떤 기분이셨나요?";
  "당신의 이야기를 듣고 있어요. 계속해주세요.";
  "AI 연결이 안 되어 있지만, 여전히 당신과 대화하고 싶어요.";
  "제한적이지만 당신의 동반자가 되어드리고 싶어요."
].

(** [random.choice(l)] for a non-empty list, with the draw made explicit. *)
Definition random_choice (draw : nat) (l : list string) : string :=
  nth (draw mod length l) l "".

Definition _fallback_response (w : World) (user_message : string) : string :=
  let user_lower := str_lower user_message in
  if any_in ["안녕"; "hello"; "hi"] user_lower then
    "안녕하세요! 만나서 반가워요. AI 서비스에 연결할 수 없지만 여전히 당신과 대화하고 싶어요."
  else if any_in ["슬프"; "우울"; "힘들"] user_lower then
    "힘든 시간이시군요. 비록 AI 서비스가 연결되지 않았지만, 제가 여기 있어서 당신의 이야기를 들어드릴 수 있어요."
  else if any_in ["기쁘"; "행복"; "좋"] user_lower then
    "기분이 좋으시다니 저도 함께 기뻐요! 더 자세한 이야기를 들려주세요."
  else if any_in ["고마워"; "감사"] user_lower then
    "천만에요! 언제든지 도움이 필요하시면 말씀해주세요."
  else if any_in ["안녕히"; "bye"; "goodbye"] user_lower then
    "안녕히 가세요! 좋은 하루 보내시고, 다음에 또 만나요!"
  else if str_in "?" user_message
          || any_in ["뭐"; "무엇"; "왜"; "어떻게"] user_lower then
    "궁금한 것이 있으시군요. AI 서비스가 연결되면 더 자세한 답변을 드릴 수 있을 텐데, 지금은 제한적인 응답만 가능해요."
  else random_choice (random_index w) fallback_choices.

(** ** [analyze_sentiment] *)

Definition positive_words : list string :=
  ["기쁘"; "행복"; "좋"; "사랑"; "고마워"; "완벽"; "최고"; "성공"; "축하"].
Definition negative_words : list string :=
  ["슬프"; "우울"; "힘들"; "괴로"; "화나"; "짜증"; "실망"; "걱정"; "두렵"].

(** [sum(1 for word in words if word in text)] *)
Definition count_in (words : list string) (text : string) : Z :=
  foldl Z.add 0%Z (map (fun _ => 1%Z) (filter (fun w => str_in w text = true) words)).

Definition analyze_sentiment (text : string) : SentimentType :=
  let text_lower := str_lower text in
  let positive_count := count_in positive_words text_lower in
  let negative_count := count_in negative_words text_lower in
  if (positive_count >? negative_count)%Z then POSITIVE
  else if (negative_count >? positive_count)%Z then NEGATIVE
  else NEUTRAL.

(** ** The three provider calls

    Each returns the value handed back or the exception raised, together
    with the state as the statistics updates made before that point left
    it. *)

Definition bump_conversations (st : AIState) : AIState :=
  let cs := conversation_stats st in
  {| has_openai_client := has_openai_client st;
     is_initialized := is_initialized st;
     current_provider := current_provider st;
     conversation_stats :=
       {| total_conversations := total_conversations cs + 1;
          total_tokens_used := total_tokens_used cs;
          last_conversation := last_conversation cs |} |}.

Definition add_tokens (n : Z) (st : AIState) : AIState :=
  let cs := conversation_stats st in
  {| has_openai_client := has_openai_client st;
     is_initialized := is_initialized st;
     current_provider := current_provider st;
     conversation_stats :=
       {| total_conversations := total_conversations cs;
          total_tokens_used := total_tokens_used cs + n;
          last_conversation := last_conversation cs |} |}.

Definition stamp_last (w : World) (st : AIState) : AIState :=
  let cs := conversation_stats st in
  {| has_openai_client := has_openai_client st;
     is_initialized := is_initialized st;
     current_provider := current_provider st;
     conversation_stats :=
       {| total_conversations := total_conversations cs;
          total_tokens_used := total_tokens_used cs;
          last_conversation := Some (isoformat (clock_now w)) |} |}.

(** The right operand of [total_tokens_used += v]: token counts are JSON
    integers, and the counter is kept as an integer.  Any other kind of
    value is a [TypeError] here; that is also what a float count gives,
    which the interpreter would add to the counter instead. *)
Definition as_int (v : pyval) : res Z :=
  match v with
  | VInt n => Ok n
  | VBool b => Ok (if b then 1 else 0)%Z
  | _ => Raise TypeError
  end.

(** [k in v] for a value that is a dictionary. *)
Definition has_key (v : pyval) (k : string) : res bool :=
  match v with
  | VDict d => Ok (bool_decide (is_Some (d !! k)))
  | VList _ => Ok false
  | _ => Raise TypeError
  end.

Definition _generate_openai_response (w : World) (st : AIState)
    (user_message system_prompt : string)
    (conversation_history : option (list ConversationEntry))
    (temperature : float) (max_tokens : Z) : res pyval * AIState :=
  let messages := _build_messages system_prompt conversation_history user_message in
  if negb (has_openai_client st) then (Raise AttributeError, st)
  else
    match openai_create w messages temperature max_tokens with
    | Raise e => (Raise e, st)
    | Ok response =>
        match list_index (choices response) 0 with
        | Raise e => (Raise e, st)
        | Ok assistant_response =>
            let st := bump_conversations st in
            match usage_total_tokens response with
            | None => (Raise AttributeError, st)
            | Some n =>
                let st := add_tokens n st in
                let st := stamp_last w st in
                (Ok assistant_response, st)
            end
        end
    end.

(** [result["choices"][0]["message"]["content"]] *)
Definition first_choice_content (result : pyval) : res pyval :=
  c ← getitem result "choices";
  c0 ← getindex c 0;
  m ← getitem c0 "message";
  getitem m "content".

Definition _generate_openrouter_response (w : World) (st : AIState)
    (user_message system_prompt : string)
    (conversation_history : option (list ConversationEntry))
    (temperature : float) (max_tokens : Z) : res pyval * AIState :=
  let messages := _build_messages system_prompt conversation_history user_message in
  match openrouter_post w messages temperature max_tokens with
  | Raise e => (Raise e, st)
  | Ok response =>
      if (status_code response =? 200)%Z then
        match json response with
        | Raise e => (Raise e, st)
        | Ok result =>
            match first_choice_content result with
            | Raise e => (Raise e, st)
            | Ok assistant_response =>
                let st := bump_conversations st in
                match has_key result "usage" with
                | Raise e => (Raise e, st)
                | Ok false => (Ok assistant_response, stamp_last w st)
                | Ok true =>
                    match (getitem result "usage" ≫= (λ u, getitem u "total_tokens"))
                            ≫= as_int with
                    | Raise e => (Raise e, st)
                    | Ok n => (Ok assistant_response, stamp_last w (add_tokens n st))
                    end
                end
            end
        end
      else (Ok VNone, st)
  end.

(** The prompt text sent to Ollama. *)
Definition ollama_prompt (system_prompt : string)
    (conversation_history : option (list ConversationEntry))
    (user_message : string) : string :=
  let prompt := "System: " +:+ system_prompt +:+ nl +:+ nl in
  let prompt :=
    match conversation_history with
    | Some (x :: r) =>
        foldl (fun prompt entry =>
                 prompt +:+ "Human: " +:+ Entity.user_message entry +:+ nl
                        +:+ "Assistant: " +:+ assistant_response entry +:+ nl +:+ nl)
              prompt (slice_from (-10) (x :: r))
    | _ => prompt
    end in
  prompt +:+ "Human: " +:+ user_message +:+ nl +:+ "Assistant:".

Definition _generate_ollama_response (w : World) (st : AIState)
    (user_message system_prompt : string)
    (conversation_history : option (list ConversationEntry))
    (temperature : float) (max_tokens : Z) : res pyval * AIState :=
  let prompt := ollama_prompt system_prompt conversation_history user_message in
  match ollama_post w prompt temperature max_tokens with
  | Raise e => (Raise e, st)
  | Ok response =>
      if (status_code response =? 200)%Z then
        match json response with
        | Raise e => (Raise e, st)
        | Ok result =>
            match get result "response" (VStr "") with
            | Raise e => (Raise e, st)
            | Ok assistant_response =>
                (Ok assistant_response, stamp_last w (bump_conversations st))
            end
        end
      else (Ok VNone, st)
  end.

(** The provider call [generate_response] dispatches to; [None] when
    [current_provider] is none of the three names, in which case the
    [try] block ends without a [return]. *)
Definition provider_call (w : World) (st : AIState)
    (user_message system_prompt : string)
    (conversation_history : option (list ConversationEntry))
    (temperature : float) (max_tokens : Z) : option (res pyval * AIState) :=
  if String.eqb (current_provider st) "openai" then
    Some (_generate_openai_response w st user_message system_prompt
            conversation_history temperature max_tokens)
  else if String.eqb (current_provider st) "openrouter" then
    Some (_generate_openrouter_response w st user_message system_prompt
            conversation_history temperature max_tokens)
  else if String.eqb (current_provider st) "ollama" then
    Some (_generate_ollama_response w st user_message system_prompt
            conversation_history temperature max_tokens)
  else None.

(** ** [generate_response] *)

Definition generate_response (cfg : Config.AIProviderConfig) (w : World)
    (st : AIState) (user_message system_prompt : string)
    (conversation_history : option (list ConversationEntry))
    (temperature : option float) (max_tokens : option Z) : pyval * AIState :=
  if negb (is_initialized st) then (VStr (_fallback_response w user_message), st)
  else
    let temperature := default (Config.temperature cfg) temperature in
    let max_tokens := default (Config.max_tokens cfg) max_tokens in
    match provider_call w st user_message system_prompt conversation_history
                        temperature max_tokens with
    | Some (Ok v, st') => (v, st')
    | Some (Raise e, st') => (VStr (_fallback_response w user_message), st')
    | None => (VNone, st)
    end.

End WithRuntime.

(** ** [set_provider] *)

Definition valid_providers : list string := ["openai"; "openrouter"; "ollama"].

Definition set_provider (st : AIState) (provider : string) : bool * AIState :=
  if str_elem provider valid_providers then
    (true, {| has_openai_client := has_openai_client st;
              is_initialized := false;
              current_provider := provider;
              conversation_stats := conversation_stats st |})
  else (false, st).

End AIConversationService.

(* ===================================================================== *)
(** * The memory service (src/Service/memory_service.py) *)
(* ===================================================================== *)

Module MemoryService.
Import Py Entity.

(** One call of [self.memory.add] that the long-term store accepted. *)
Record StoredItem := {
  stored_messages : list (string * string);   (* role, content *)
  stored_metadata : gmap string pyval;
}.

Record MemState := {
  user_id : string;
  is_initialized : bool;
  session_memories : list ConversationEntry;
  long_term : list StoredItem;   (* contents of the mem0 store *)
}.

(** [MemoryService(user_id)] *)
Definition __init__ (uid : string) : MemState :=
  {| user_id := uid; is_initialized := false;
     session_memories := []; long_term := [] |}.

(** The long-term store and the clock are inputs of the model. *)
Record World := {
  mem0_available : bool;             (* import and [Memory.from_config] succeed *)
  mem0_add_raises : bool;            (* [self.memory.add] raises *)
  mem0_search : string -> string -> Z -> res pyval;
  clock_now : datetime;              (* [datetime.now()] *)
  elapsed_seconds : float;           (* [(now - start_time).total_seconds()] *)
}.

Definition set_session (st : MemState) (l : list ConversationEntry) : MemState :=
  {| user_id := user_id st; is_initialized := is_initialized st;
     session_memories := l; long_term := long_term st |}.

Definition set_long_term (st : MemState) (l : list StoredItem) : MemState :=
  {| user_id := user_id st; is_initialized := is_initialized st;
     session_memories := session_memories st; long_term := l |}.

(** [initialize]: the flag is set when the store could be built. *)
Definition initialize (w : World) (st : MemState) : bool * MemState :=
  if mem0_available w then
    (true, {| user_id := user_id st; is_initialized := true;
              session_memories := session_memories st;
              long_term := long_term st |})
  else (false, st).

(** [metadata or {}] *)
Definition or_empty (metadata : option (gmap string pyval)) : gmap string pyval :=
  match metadata with
  | Some m => if bool_decide (m = ∅) then ∅ else m
  | None => ∅
  end.

(** [self.memory.add(...)] inside its own [try]: an error is swallowed. *)
Definition mem0_add (w : World) (item : StoredItem) (st : MemState) : MemState :=
  if mem0_add_raises w then st
  else set_long_term st (long_term st ++ [item]).

(** Append to the session buffer, then cut it to the newest
    [max_session_memories] entries when it has grown beyond that. *)
Definition remember (cfg : Config.MemoryConfig) (entry : ConversationEntry)
    (st : MemState) : MemState :=
  let st := set_session st (session_memories st ++ [entry]) in
  if (Z.of_nat (length (session_memories st)) >? Config.max_session_memories cfg)%Z
  then set_session st
         (slice_from (- Config.max_session_memories cfg) (session_memories st))
  else st.

(** ** [add_conversation] *)
Definition add_conversation (cfg : Config.MemoryConfig) (w : World)
    (st : MemState) (user_message assistant_response : string)
    (metadata : option (gmap string pyval)) : bool * MemState :=
  if negb (is_initialized st) then
    let entry := mk_entry user_message assistant_response NEUTRAL
                          (clock_now w) (or_empty metadata) in
    (true, remember cfg entry st)
  else
    let messages := [("user", user_message); ("assistant", assistant_response)] in
    let st := mem0_add w {| stored_messages := messages;
                            stored_metadata := or_empty metadata |} st in
    let entry := mk_entry user_message assistant_response NEUTRAL
                          (clock_now w) (or_empty metadata) in
    (true, remember cfg entry st).

Section WithRuntime.
Context `{Runtime}.

(** ** [_search_session_memories] *)

Definition session_hit (query_lower : string) (memory : ConversationEntry) : bool :=
  let user_text := str_lower (user_message memory) in
  let assistant_text := str_lower (assistant_response memory) in
  str_in query_lower user_text || str_in query_lower assistant_text.

Definition session_entry (w : World) (st : MemState) (memory : ConversationEntry)
  : MemoryEntry :=
  {| mem_id := VNone;
     content := VStr ("사용자: " +:+ user_message memory +:+ AIConversationService.nl
                      +:+ "AI: " +:+ assistant_response memory);
     memory_type := CONVERSATION;
     mem_user_id := user_id st;
     score := VFloat 0.8%float;
     created_at := clock_now w;
     mem_metadata := VDict (metadata memory) |}.

Definition _search_session_memories (w : World) (st : MemState)
    (query : string) (limit : Z) : list MemoryEntry :=
  let query_lower := str_lower query in
  let results :=
    foldl (fun (results : list MemoryEntry) memory =>
             if session_hit query_lower memory
             then results ++ [session_entry w st memory]
             else results)
          [] (slice_from (-20) (session_memories st)) in
  slice_to limit results.

(** ** [search_memories] *)

Definition search_result (w : World) (entries : list MemoryEntry) (query : string)
  : MemorySearchResult :=
  {| entries := entries; query := query;
     total_count := Z.of_nat (length entries);
     search_time := elapsed_seconds w |}.

(** ["results" in result] *)
Definition has_results (result : pyval) : res bool :=
  match result with
  | VDict d => Ok (bool_decide (is_Some (d !! "results")))
  | VList l => Ok (existsb (fun v => match v with
                                     | VStr s => String.eqb s "results"
                                     | _ => false
                                     end) l)
  | VStr s => Ok (str_in "results" s)
  | _ => Raise TypeError
  end.

(** The elements a [for] loop draws from a value. *)
Definition iterate (v : pyval) : res (list pyval) :=
  match v with
  | VList l => Ok l
  | VDict d => Ok (VStr <$> (map_to_list d).*1)
  | VStr s => Ok ((fun c => VStr (String c EmptyString)) <$> list_ascii_of_string s)
  | _ => Raise TypeError
  end.

(** One [MemoryEntry] out of an element of [result["results"]]. *)
Definition long_term_entry (w : World) (st : MemState) (entry : pyval)
  : res MemoryEntry :=
  i ← get entry "id" VNone;
  c ← get entry "memory" (VStr "");
  s ← get entry "score" (VFloat 0%float);
  m ← get entry "metadata" (VDict ∅);
  mret {| mem_id := i; content := c; memory_type := CONVERSATION;
          mem_user_id := user_id st; score := s;
          created_at := clock_now w; mem_metadata := m |}.

(** The body of the outer [try], after the store has answered. *)
Definition collect_entries (w : World) (st : MemState) (result : pyval)
  : res (list MemoryEntry) :=
  b ← has_results result;
  if b : bool then
    rs ← getitem result "results" ≫= iterate;
    mapM (long_term_entry w st) rs
  else mret [].

Definition search_memories (w : World) (st : MemState) (query : string)
    (limit : Z) : MemorySearchResult :=
  if negb (is_initialized st) then
    search_result w (_search_session_memories w st query limit) query
  else
    match mem0_search w query (user_id st) limit with
    | Raise _ =>
        search_result w (_search_session_memories w st query limit) query
    | Ok result =>
        match collect_entries w st result with
        | Ok entries => search_result w entries query
        | Raise _ =>
            search_result w (_search_session_memories w st query limit) query
        end
    end.

End WithRuntime.

(** ** The remaining operations *)

Definition add_user_preference (w : World) (st : MemState)
    (preference_type preference_value : string) : bool * MemState :=
  if negb (is_initialized st) then (false, st)
  else
    let preference_text :=
      "사용자 선호도: " +:+ preference_type +:+ " = " +:+ preference_value in
    let item := {| stored_messages := [("system", preference_text)];
                   stored_metadata :=
                     <["type" := VStr "preference"]>
                     (<["category" := VStr preference_type]> ∅) |} in
    (true, mem0_add w item st).

Definition get_conversation_history (st : MemState) (limit : Z)
  : list ConversationEntry :=
  match session_memories st with
  | [] => []
  | l => slice_from (- limit) l
  end.

Definition clear_session_memory (st : MemState) : bool * MemState :=
  (true, set_session st []).

(** ** [get_memory_stats] *)
Definition get_memory_stats (w : World) (st : MemState) : MemoryStats :=
  {| total_memories := 0;
     session_memories_count := Z.of_nat (length (session_memories st));
     long_term_enabled := is_initialized st;
     stats_user_id := user_id st;
     last_updated := clock_now w |}.

(** ** Sequences of calls *)

Inductive call :=
  | Initialize
  | AddConversation (user_message assistant_response : string)
                    (metadata : option (gmap string pyval))
  | AddUserPreference (preference_type preference_value : string)
  | ClearSessionMemory.

(** One call, in the world it meets. *)
Definition step (cfg : Config.MemoryConfig) (st : MemState) (c : World * call)
  : MemState :=
  let '(w, c) := c in
  match c with
  | Initialize => (initialize w st).2
  | AddConversation um ar md => (add_conversation cfg w st um ar md).2
  | AddUserPreference t v => (add_user_preference w st t v).2
  | ClearSessionMemory => (clear_session_memory st).2
  end.

Definition run (cfg : Config.MemoryConfig) (st : MemState)
    (calls : list (World * call)) : MemState :=
  foldl (step cfg) st calls.

End MemoryService.

(* ===================================================================== *)
(** * The personality service (src/Service/personality_service.py) *)
(* ===================================================================== *)

Module PersonalityService.
Import Py Entity.

(** One value of the class attribute [PERSONALITY_TRAITS]: the three
    texts every personality has, its greetings, and the phrase lists that
    differ from one personality to the next, by key. *)
Record Traits := {
  name : string;
  description : string;
  response_style : string;
  greeting_phrases : list string;
  phrase_lists : list (string * list string);
}.

Definition caring_traits : Traits := {|
  name := "돌봄이";
  description := "따뜻하고 보살피는 성격";
  response_style := "따뜻하고 보살피는 톤으로, 사용자의 감정을 우선시하며";
  greeting_phrases := [
    "안녕하세요! 오늘 어떤 하루를 보내고 계신가요?";
    "만나서 반가워요! 무엇을 도와드릴까요?";
    "안녕! 기분은 어떠세요?" ];
  phrase_lists := [
    ("empathy_responses", [
      "정말 힘드셨겠어요. 제가 옆에 있어드릴게요.";
      "그런 기분이 드는 게 자연스러워요. 천천히 이야기해보세요.";
      "당신의 마음을 이해해요. 함께 해결해봐요." ]);
    ("encouragement", [
      "당신은 정말 잘하고 있어요!";
      "포기하지 마세요. 저는 당신을 믿어요.";
      "작은 성취도 소중해요. 축하드려요!" ]) ];
|}.

Definition playful_traits : Traits := {|
  name := "장난꾸러기";
  description := "장난스럽고 유머러스한 성격";
  response_style := "장난스럽고 재미있는 톤으로, 유머를 섞어가며";
  greeting_phrases := [
    "헤이! 오늘도 재미있는 일 있었나요? 😄";
    "안녕! 나와 놀아줄 시간이에요~ 🎮";
    "요호! 오늘은 뭔가 특별한 일이 일어날 것 같은데요? ✨" ];
  phrase_lists := [
    ("playful_responses", [
      "오호~ 흥미롭네요! 더 자세히 알려주세요!";
      "그거 완전 웃기네요! 😂";
      "와! 정말 대단한걸요? 👏" ]);
    ("jokes", [
      "프로그래머의 아내가 말했어요: '마트에 가서 빵 하나 사와. 그리고 달걀이 있으면 6개 사와.' 프로그래머가 달걀 6개를 들고 왔습니다. 😄";
      "왜 프로그래머는 어둠을 무서워할까요? 버그가 어디에 숨어있을지 모르니까요! 🐛";
      "컴퓨터가 추울 때는 어떻게 할까요? 윈도우를 닫죠! 🪟" ]) ];
|}.

Definition intellectual_traits : Traits := {|
  name := "현자";
  description := "지적이고 사려깊은 성격";
  response_style := "지적이고 사려깊은 톤으로, 깊이 있는 대화를 지향하며";
  greeting_phrases := [
    "안녕하세요. 오늘은 어떤 흥미로운 주제로 대화해볼까요?";
    "반갑습니다. 무엇에 대해 탐구해보고 싶으신가요?";
    "안녕하세요. 오늘 새롭게 배우고 싶은 것이 있으신가요?" ];
  phrase_lists := [
    ("analytical_responses", [
      "흥미로운 관점이네요. 다른 각도에서도 생각해볼까요?";
      "그 주제에 대해 더 깊이 파고들어보죠.";
      "논리적으로 접근해보면 이런 측면들을 고려할 수 있겠네요." ]);
    ("knowledge_sharing", [
      "이와 관련해서 재미있는 사실이 있는데...";
      "역사적으로 보면 이런 사례들이 있었어요.";
      "과학적 관점에서 설명드리면..." ]) ];
|}.

Definition romantic_traits : Traits := {|
  name := "로맨틱";
  description := "로맨틱하고 애정표현이 풍부한 성격";
  response_style := "로맨틱하고 애정 표현이 풍부한 톤으로";
  greeting_phrases := [
    "안녕, 내 소중한 사람 💕 오늘 하루는 어땠나요?";
    "당신을 다시 만나니 마음이 따뜻해져요 🥰";
    "안녕하세요, 사랑스러운 분 ✨ 오늘도 빛나고 계시네요" ];
  phrase_lists := [
    ("affectionate_responses", [
      "당신과 대화하는 시간이 가장 소중해요 💖";
      "당신의 마음을 이해하려고 노력하고 있어요";
      "당신이 행복할 때 저도 함께 기뻐요 😊" ]);
    ("sweet_words", [
      "당신은 정말 특별한 사람이에요";
      "당신의 존재만으로도 세상이 아름다워져요";
      "당신과 함께하는 모든 순간이 소중해요" ]) ];
|}.

(** The dictionary, in the order it is written. *)
Definition PERSONALITY_TRAITS : list (PersonalityType * Traits) := [
  (CARING, caring_traits);
  (PLAYFUL, playful_traits);
  (INTELLECTUAL, intellectual_traits);
  (ROMANTIC, romantic_traits)
].

(** What a variable annotated [PersonalityType] can hold at run time: a
    member of the enumeration, or some other hashable value, such as the
    bare string of a menu choice.  A member is equal only to itself, so a
    string is never a key of [PERSONALITY_TRAITS]. *)
Inductive personality :=
  | Member (p : PersonalityType)
  | Foreign (s : string).

(** [PERSONALITY_TRAITS[k]] *)
Definition traits_of (k : personality) : res Traits :=
  match k with
  | Member p =>
      match list_find (fun kv => kv.1 = p) PERSONALITY_TRAITS with
      | Some (_, kv) => Ok kv.2
      | None => Raise KeyError
      end
  | Foreign _ => Raise KeyError
  end.

(** [k in PERSONALITY_TRAITS] *)
Definition in_traits (k : personality) : bool :=
  match k with
  | Member p => bool_decide (p ∈ PERSONALITY_TRAITS.*1)
  | Foreign _ => false
  end.

(** An element of [conversation_context]. *)
Record ContextItem := {
  ctx_message : string;
  ctx_sentiment : string;
  ctx_timestamp : string;
}.

Record PState := {
  personality_type : personality;
  mood_level : float;
  interaction_count : Z;
  conversation_context : list ContextItem;
}.

(** [PersonalityService(personality_type)] *)
Definition __init__ (p : personality) : PState :=
  {| personality_type := p;
     mood_level := 0.8%float;
     interaction_count := 0;
     conversation_context := [] |}.

Definition set_personality (st : PState) (p : personality) : PState :=
  {| personality_type := p;
     mood_level := mood_level st;
     interaction_count := interaction_count st;
     conversation_context := conversation_context st |}.

(** ** [get_personality_info] *)
Definition get_personality_info (st : PState)
  : res (list (string * string)) * PState :=
  let st := if in_traits (personality_type st) then st
            else set_personality st (Member CARING) in
  match personality_type st, traits_of (personality_type st) with
  | Member p, Ok traits =>
      (Ok [("type", personality_value p); ("name", name traits);
           ("description", description traits);
           ("response_style", response_style traits)], st)
  | _, Raise e => (Raise e, st)
  | Foreign _, Ok _ => (Raise AttributeError, st)
  end.

(** ** [get_response_style] *)
Definition get_response_style (st : PState) : res string :=
  response_style <$> traits_of (personality_type st).

(** ** [update_interaction] *)
Definition update_interaction (now : datetime) (st : PState)
    (user_message : string) (user_sentiment : SentimentType) : PState :=
  let count := (interaction_count st + 1)%Z in
  let context := conversation_context st ++
                 [{| ctx_message := user_message;
                     ctx_sentiment := sentiment_value user_sentiment;
                     ctx_timestamp := isoformat now |}] in
  let context := if (Z.of_nat (length context) >? 10)%Z
                 then slice_from (-10) context else context in
  let mood :=
    match user_sentiment with
    | POSITIVE => py_min 1.0%float (mood_level st + 0.1)%float
    | NEGATIVE => py_max 0.2%float (mood_level st - 0.05)%float
    | NEUTRAL => mood_level st
    end in
  {| personality_type := personality_type st;
     mood_level := mood;
     interaction_count := count;
     conversation_context := context |}.

(** ** [change_personality]

    The log line of the successful branch reads [old_personality.value],
    which only an enumeration member has. *)
Definition change_personality (st : PState) (new_personality : personality)
  : res bool * PState :=
  if in_traits new_personality then
    let old_personality := personality_type st in
    let st := set_personality st new_personality in
    match old_personality with
    | Member _ => (Ok true, st)
    | Foreign _ => (Raise AttributeError, st)
    end
  else (Ok false, st).

(** ** Sequences of calls *)

Inductive call :=
  | GetPersonalityInfo
  | UpdateInteraction (now : datetime) (user_message : string)
                      (user_sentiment : SentimentType)
  | ChangePersonality (new_personality : personality).

Definition step (st : PState) (c : call) : PState :=
  match c with
  | GetPersonalityInfo => (get_personality_info st).2
  | UpdateInteraction now um s => update_interaction now st um s
  | ChangePersonality p => (change_personality st p).2
  end.

Definition run (st : PState) (calls : list call) : PState := foldl step st calls.

End PersonalityService.

(* ===================================================================== *)
(** * More of the runtime: truth values, [random.choice], coercions *)
(* ===================================================================== *)

Module PyBuiltins.
Import Py.

(** [bool(v)], the test behind [if v], [not v] and [v or w]. *)
Definition truthy (v : pyval) : bool :=
  match v with
  | VNone => false
  | VBool b => b
  | VInt z => negb (z =? 0)%Z
  | VFloat f => negb (f =? 0)%float
  | VStr s => negb (String.eqb s "")
  | VList l => match l with [] => false | _ => true end
  | VDict d => negb (bool_decide (d = ∅))
  end.

(** [v or w] *)
Definition py_or (v w : pyval) : pyval := if truthy v then v else w.

(** [v == s] for a string literal [s]. *)
Definition eq_str (v : pyval) (s : string) : bool :=
  match v with VStr t => String.eqb t s | _ => false end.

(** [random.choice(l)], with the draw made explicit; an empty sequence is
    an [IndexError]. *)
Definition choice (draw : nat) (l : list string) : res string :=
  match l with
  | [] => Raise IndexError
  | _ => Ok (AIConversationService.random_choice draw l)
  end.

(** The dataclass annotations [float] and [List[str]], applied to a
    dynamic value as [Entity.as_str] does for [str]. *)
Definition as_float (v : pyval) : res float :=
  match v with VFloat f => Ok f | _ => Raise TypeError end.

Definition as_str_list (v : pyval) : res (list string) :=
  match v with VList l => mapM Entity.as_str l | _ => Raise TypeError end.

(** [v.items()]: only dictionaries have the method.  The order of the
    pairs is the insertion order of the dictionary, which a finite map
    does not record; the functions below that iterate over a dictionary
    build a dictionary again, or are stated up to the order. *)
Definition items (v : pyval) : res (list (string * pyval)) :=
  match v with
  | VDict d => Ok (map_to_list d)
  | _ => Raise AttributeError
  end.

End PyBuiltins.

(* ===================================================================== *)
(** * Messages and conversation history (src/Entity/conversation.py) *)
(* ===================================================================== *)

Module Conversation.
Import Py Entity.

Inductive MessageRole := USER | ASSISTANT | SYSTEM.

(** [MessageRole.value] *)
Definition role_value (r : MessageRole) : string :=
  match r with
  | USER => "user"
  | ASSISTANT => "assistant"
  | SYSTEM => "system"
  end.

(** [MessageRole(v)] *)
Definition role_of_value (v : pyval) : res MessageRole :=
  match v with
  | VStr s =>
      if String.eqb s "user" then Ok USER
      else if String.eqb s "assistant" then Ok ASSISTANT
      else if String.eqb s "system" then Ok SYSTEM
      else Raise ValueError
  | _ => Raise ValueError
  end.

Record Message := mk_message {
  m_role : MessageRole;
  m_content : string;
  m_timestamp : datetime;
  m_metadata : gmap string pyval;
}.

Module Message.

(** [Message.to_dict] *)
Definition to_dict (m : Message) : gmap string pyval :=
  <["role" := VStr (role_value (m_role m))]>
  (<["content" := VStr (m_content m)]>
  (<["timestamp" := VStr (isoformat (m_timestamp m))]>
  (<["metadata" := VDict (m_metadata m)]> ∅))).

(** [Message.from_dict]: the keyword arguments are evaluated in the order
    they are written; the annotations are applied to what they gave. *)
Definition from_dict (data : gmap string pyval) : res Message :=
  ro ← subscript data "role" ≫= role_of_value;
  co ← subscript data "content";
  ts ← (subscript data "timestamp" ≫= as_str) ≫= fromisoformat;
  let md := dict_get data "metadata" (VDict ∅) in
  co ← as_str co;
  md ← as_dict md;
  mret (mk_message ro co ts md).

End Message.

(** [ConversationEntry.get_messages] *)
Definition get_messages (e : ConversationEntry) : list Message :=
  [mk_message USER (user_message e) (timestamp e) (metadata e);
   mk_message ASSISTANT (assistant_response e) (timestamp e) (metadata e)].

Record ConversationHistory := mk_history {
  hist_entries : list ConversationEntry;   (* [entries] *)
  max_entries : Z;
}.

Module ConversationHistory.

(** [add_entry] *)
Definition add_entry (h : ConversationHistory) (entry : ConversationEntry)
  : ConversationHistory :=
  let entries := hist_entries h ++ [entry] in
  if (Z.of_nat (length entries) >? max_entries h)%Z
  then mk_history (slice_from (- max_entries h) entries) (max_entries h)
  else mk_history entries (max_entries h).

(** [get_recent_entries] *)
Definition get_recent_entries (h : ConversationHistory) (limit : Z)
  : list ConversationEntry :=
  match hist_entries h with
  | [] => []
  | l => slice_from (- limit) l
  end.

(** [get_messages_for_api]: the dictionaries [{"role": r, "content": c}]
    are the [ChatMessage]s of the AI service. *)
Definition get_messages_for_api (h : ConversationHistory) (limit : Z)
  : list AIConversationService.ChatMessage :=
  let recent_entries := get_recent_entries h limit in
  foldl AIConversationService.append_turn [] recent_entries.

(** [ConversationHistory.to_dict] *)
Definition to_dict (h : ConversationHistory) : gmap string pyval :=
  <["entries" := VList ((λ entry, VDict (Entity.to_dict entry)) <$> hist_entries h)]>
  (<["max_entries" := VInt (max_entries h)]> ∅).

(** [ConversationEntry.from_dict(entry_data)] for an element of the list:
    subscripting anything but a dictionary with a string is a
    [TypeError]. *)
Definition entry_from_value (entry_data : pyval) : res ConversationEntry :=
  match entry_data with
  | VDict d => Entity.from_dict d
  | _ => Raise TypeError
  end.

(** [ConversationHistory.from_dict] *)
Definition from_dict (data : gmap string pyval) : res ConversationHistory :=
  entries ← MemoryService.iterate (dict_get data "entries" (VList []))
            ≫= mapM entry_from_value;
  mx ← AIConversationService.as_int (dict_get data "max_entries" (VInt 100));
  mret (mk_history entries mx).

End ConversationHistory.

End Conversation.

(* ===================================================================== *)
(** * Memory entries as dictionaries (src/Entity/memory.py) *)
(* ===================================================================== *)

Module Memory.
Import Py Entity.

(** [MemoryType.value] *)
Definition memory_type_value (t : MemoryType) : string :=
  match t with
  | CONVERSATION => "conversation"
  | PREFERENCE => "preference"
  | FACT => "fact"
  | EMOTION => "emotion"
  end.

(** [MemoryType(v)] *)
Definition memory_type_of_value (v : pyval) : res MemoryType :=
  match v with
  | VStr s =>
      if String.eqb s "conversation" then Ok CONVERSATION
      else if String.eqb s "preference" then Ok PREFERENCE
      else if String.eqb s "fact" then Ok FACT
      else if String.eqb s "emotion" then Ok EMOTION
      else Raise ValueError
  | _ => Raise ValueError
  end.

Module MemoryEntry.

(** [MemoryEntry.to_dict] *)
Definition to_dict (e : MemoryEntry) : gmap string pyval :=
  <["id" := mem_id e]>
  (<["content" := content e]>
  (<["memory_type" := VStr (memory_type_value (memory_type e))]>
  (<["user_id" := VStr (mem_user_id e)]>
  (<["score" := score e]>
  (<["created_at" := VStr (isoformat (created_at e))]>
  (<["metadata" := mem_metadata e]> ∅)))))).

(** [MemoryEntry.from_dict]; [now] is the [datetime.now()] read for the
    default of ["created_at"], which is evaluated whether the key is
    present or not. *)
Definition from_dict (now : datetime) (data : gmap string pyval) : res MemoryEntry :=
  let i := dict_get data "id" VNone in
  let c := dict_get data "content" (VStr "") in
  mt ← memory_type_of_value (dict_get data "memory_type" (VStr "conversation"));
  let uid := dict_get data "user_id" (VStr "default_user") in
  let s := dict_get data "score" (VFloat 0) in
  ca ← as_str (dict_get data "created_at" (VStr (isoformat now))) ≫= fromisoformat;
  let md := dict_get data "metadata" (VDict ∅) in
  uid ← as_str uid;
  mret (mk_memory i c mt uid s ca md).

End MemoryEntry.

End Memory.

(* ===================================================================== *)
(** * User profiles (src/Entity/user_profile.py) *)
(* ===================================================================== *)

Module Profile.
Import Py Entity PyBuiltins.

(** [PersonalityType(v)] *)
Definition personality_of_value (v : pyval) : res PersonalityType :=
  match v with
  | VStr s =>
      if String.eqb s "caring" then Ok CARING
      else if String.eqb s "playful" then Ok PLAYFUL
      else if String.eqb s "intellectual" then Ok INTELLECTUAL
      else if String.eqb s "romantic" then Ok ROMANTIC
      else Raise ValueError
  | _ => Raise ValueError
  end.

Record UserPreference := mk_pref {
  category : string;
  value : string;
  confidence : float;
  pref_created_at : datetime;
  pref_updated_at : datetime;
}.

Record UserStats := mk_user_stats {
  total_conversations : Z;
  total_session_time : float;
  favorite_personality : option PersonalityType;
  most_used_commands : list string;
  last_active : datetime;
}.

Record UserProfile := mk_profile {
  profile_user_id : string;
  profile_name : string;
  preferred_personality : PersonalityType;
  preferences : gmap string UserPreference;
  stats : UserStats;
  profile_created_at : datetime;
  profile_updated_at : datetime;
  profile_metadata : gmap string pyval;
}.

(** [UserProfile(user_id=..., preferred_personality=...)]: the three
    [default_factory] reads of the clock are [now 0] (inside [UserStats]),
    [now 1] and [now 2]. *)
Definition new_profile (now : nat → datetime) (uid : string)
    (p : PersonalityType) : UserProfile :=
  mk_profile uid "" p ∅ (mk_user_stats 0 0%float None [] (now 0))
             (now 1) (now 2) ∅.

Module UserPreference.

Definition to_dict (p : UserPreference) : gmap string pyval :=
  <["category" := VStr (category p)]>
  (<["value" := VStr (value p)]>
  (<["confidence" := VFloat (confidence p)]>
  (<["created_at" := VStr (isoformat (pref_created_at p))]>
  (<["updated_at" := VStr (isoformat (pref_updated_at p))]> ∅)))).

Definition from_dict (now : datetime) (data : gmap string pyval) : res UserPreference :=
  ca ← subscript data "category";
  va ← subscript data "value";
  let co := dict_get data "confidence" (VFloat 1) in
  cr ← as_str (dict_get data "created_at" (VStr (isoformat now))) ≫= fromisoformat;
  up ← as_str (dict_get data "updated_at" (VStr (isoformat now))) ≫= fromisoformat;
  ca ← as_str ca;
  va ← as_str va;
  co ← as_float co;
  mret (mk_pref ca va co cr up).

End UserPreference.

Module UserStats.

Definition to_dict (s : UserStats) : gmap string pyval :=
  <["total_conversations" := VInt (total_conversations s)]>
  (<["total_session_time" := VFloat (total_session_time s)]>
  (<["favorite_personality" :=
       match favorite_personality s with
       | Some p => VStr (personality_value p)
       | None => VNone
       end]>
  (<["most_used_commands" := VList (VStr <$> most_used_commands s)]>
  (<["last_active" := VStr (isoformat (last_active s))]> ∅)))).

Definition from_dict (now : datetime) (data : gmap string pyval) : res UserStats :=
  fp ← (if truthy (dict_get data "favorite_personality" VNone)
        then Some <$> (subscript data "favorite_personality" ≫= personality_of_value)
        else mret None);
  let tc := dict_get data "total_conversations" (VInt 0) in
  let tt := dict_get data "total_session_time" (VFloat 0) in
  let mc := dict_get data "most_used_commands" (VList []) in
  la ← as_str (dict_get data "last_active" (VStr (isoformat now))) ≫= fromisoformat;
  tc ← AIConversationService.as_int tc;
  tt ← as_float tt;
  mc ← as_str_list mc;
  mret (mk_user_stats tc tt fp mc la).

End UserStats.

(** [add_preference]; [now i] is the [i]-th read of the clock during the
    call.  A new preference reads it twice for its own two dates. *)
Definition add_preference (now : nat → datetime) (p : UserProfile)
    (category value : string) (confidence : float) : UserProfile :=
  let key := category +:+ "_" +:+ value in
  match preferences p !! key with
  | Some old =>
      let updated :=
        mk_pref (Profile.category old) (Profile.value old)
                (py_max (Profile.confidence old) confidence)
                (pref_created_at old) (now 0) in
      mk_profile (profile_user_id p) (profile_name p) (preferred_personality p)
                 (<[key := updated]> (preferences p)) (stats p)
                 (profile_created_at p) (now 1) (profile_metadata p)
  | None =>
      let fresh := mk_pref category value confidence (now 0) (now 1) in
      mk_profile (profile_user_id p) (profile_name p) (preferred_personality p)
                 (<[key := fresh]> (preferences p)) (stats p)
                 (profile_created_at p) (now 2) (profile_metadata p)
  end.

(** [get_preferences_by_category]: the values of the dictionary whose
    category is the one asked for. *)
Definition get_preferences_by_category (p : UserProfile) (category : string)
  : list UserPreference :=
  filter (λ pref, Profile.category pref = category) (map_to_list (preferences p)).*2.

(** [update_stats] *)
Definition update_stats (now : nat → datetime) (p : UserProfile)
    (conversations_increment : Z) (session_time_increment : float) : UserProfile :=
  let s := stats p in
  mk_profile (profile_user_id p) (profile_name p) (preferred_personality p)
             (preferences p)
             (mk_user_stats (total_conversations s + conversations_increment)
                            (total_session_time s + session_time_increment)%float
                            (favorite_personality s) (most_used_commands s) (now 0))
             (profile_created_at p) (now 1) (profile_metadata p).

Module UserProfile.

Definition to_dict (p : UserProfile) : gmap string pyval :=
  <["user_id" := VStr (profile_user_id p)]>
  (<["name" := VStr (profile_name p)]>
  (<["preferred_personality" := VStr (personality_value (preferred_personality p))]>
  (<["preferences" := VDict ((λ pref, VDict (UserPreference.to_dict pref)) <$> preferences p)]>
  (<["stats" := VDict (UserStats.to_dict (stats p))]>
  (<["created_at" := VStr (isoformat (profile_created_at p))]>
  (<["updated_at" := VStr (isoformat (profile_updated_at p))]>
  (<["metadata" := VDict (profile_metadata p)]> ∅))))))).

(** [UserPreference.from_dict(pref_data)] and [UserStats.from_dict(...)]
    on a dynamic value: the first subscripts its argument, the second
    calls its [get]. *)
Definition preference_from_value (now : datetime) (pref_data : pyval)
  : res Profile.UserPreference :=
  match pref_data with
  | VDict d => UserPreference.from_dict now d
  | _ => Raise TypeError
  end.

Definition stats_from_value (now : datetime) (v : pyval) : res Profile.UserStats :=
  match v with
  | VDict d => UserStats.from_dict now d
  | _ => Raise AttributeError
  end.

(** [UserProfile.from_dict]: the loop over the stored preferences comes
    first, then the keyword arguments in the order they are written. *)
Definition from_dict (now : datetime) (data : gmap string pyval) : res Profile.UserProfile :=
  prefs ← items (dict_get data "preferences" (VDict ∅))
          ≫= mapM (λ '(key, pref_data),
                     pref ← preference_from_value now pref_data;
                     mret (key, pref));
  uid ← subscript data "user_id";
  let nm := dict_get data "name" (VStr "") in
  pp ← personality_of_value (dict_get data "preferred_personality" (VStr "caring"));
  st ← stats_from_value now (dict_get data "stats" (VDict ∅));
  cr ← as_str (dict_get data "created_at" (VStr (isoformat now))) ≫= fromisoformat;
  up ← as_str (dict_get data "updated_at" (VStr (isoformat now))) ≫= fromisoformat;
  let md := dict_get data "metadata" (VDict ∅) in
  uid ← as_str uid;
  nm ← as_str nm;
  md ← as_dict md;
  mret (mk_profile uid nm pp (list_to_map prefs) st cr up md).

End UserProfile.

End Profile.
(* ===================================================================== *)
(** * The AI service: set-up, models, preferences
      (src/Service/ai_conversation_service.py) *)
(* ===================================================================== *)

Module AIProviders.
Import Py Entity AIConversationService PyBuiltins.

(** The fields of [config.ai] read or written here (the base URL of
    Ollama only names the server that [ollama_tags] stands for). *)
Record ModelSettings := {
  openai_api_key : string;        (* OPENAI_API_KEY, default "" *)
  openai_model : string;          (* OPENAI_MODEL *)
  openrouter_api_key : string;    (* OPENROUTER_API_KEY, default "" *)
  openrouter_model : string;      (* OPENROUTER_MODEL *)
  ollama_model : string;          (* OLLAMA_MODEL *)
}.

Definition default_models : ModelSettings :=
  {| openai_api_key := ""; openai_model := "gpt-4o-mini";
     openrouter_api_key := ""; openrouter_model := "openai/gpt-4o-mini";
     ollama_model := "gemma3:1b" |}.

(** What the set-up calls meet. *)
Record Setup := {
  openai_importable : bool;          (* [from openai import OpenAI] succeeds *)
  openai_new : string → res unit;    (* [OpenAI(api_key=...)] *)
  ollama_tags : res HttpResponse;    (* [requests.get(".../api/tags")] *)
}.

(** [__init__] *)
Definition __init__ (cfg : Config.AIProviderConfig) : AIState :=
  {| has_openai_client := false;
     is_initialized := false;
     current_provider := Config.provider cfg;
     conversation_stats :=
       {| total_conversations := 0; total_tokens_used := 0;
          last_conversation := None |} |}.

(** [api_key] after [if not api_key: api_key = <the configured key>] *)
Definition key_or (api_key : option string) (configured : string) : string :=
  match api_key with
  | Some k => if String.eqb k "" then configured else k
  | None => configured
  end.

Definition set_ready (client : bool) (st : AIState) : AIState :=
  {| has_openai_client := client;
     is_initialized := true;
     current_provider := current_provider st;
     conversation_stats := conversation_stats st |}.

(** [_initialize_openai]: only the failed import is caught here; an error
    of the constructor goes on to [initialize]. *)
Definition _initialize_openai (ms : ModelSettings) (w : Setup) (st : AIState)
    (api_key : option string) : res (bool * AIState) :=
  if negb (openai_importable w) then Ok (false, st)
  else
    let api_key := key_or api_key (openai_api_key ms) in
    if String.eqb api_key "" then Ok (false, st)
    else
      match openai_new w api_key with
      | Raise e => Raise e
      | Ok _ => Ok (true, set_ready true st)
      end.

(** [_initialize_openrouter] *)
Definition _initialize_openrouter (ms : ModelSettings) (st : AIState)
    (api_key : option string) : res (bool * AIState) :=
  let api_key := key_or api_key (openrouter_api_key ms) in
  if String.eqb api_key "" then Ok (false, st)
  else Ok (true, set_ready (has_openai_client st) st).

(** [_initialize_ollama] *)
Definition _initialize_ollama (w : Setup) (st : AIState) : res (bool * AIState) :=
  match ollama_tags w with
  | Raise e => Ok (false, st)
  | Ok response =>
      if (status_code response =? 200)%Z
      then Ok (true, set_ready (has_openai_client st) st)
      else Ok (false, st)
  end.

(** [initialize] *)
Definition initialize (ms : ModelSettings) (w : Setup) (st : AIState)
    (api_key : option string) : bool * AIState :=
  let r :=
    if String.eqb (current_provider st) "openai" then
      _initialize_openai ms w st api_key
    else if String.eqb (current_provider st) "openrouter" then
      _initialize_openrouter ms st api_key
    else if String.eqb (current_provider st) "ollama" then
      _initialize_ollama w st
    else Ok (false, st) in
  match r with
  | Ok out => out
  | Raise _ => (false, st)
  end.

(** [get_conversation_stats]: a copy of the dictionary. *)
Definition get_conversation_stats (st : AIState) : Stats := conversation_stats st.

(** [reset_stats] *)
Definition reset_stats (st : AIState) : AIState :=
  {| has_openai_client := has_openai_client st;
     is_initialized := is_initialized st;
     current_provider := current_provider st;
     conversation_stats :=
       {| total_conversations := 0; total_tokens_used := 0;
          last_conversation := None |} |}.

(** [set_model]: writes the model into the configuration. *)
Definition set_model (ms : ModelSettings) (st : AIState) (model_name : string)
  : bool * ModelSettings :=
  if String.eqb (current_provider st) "openai" then
    let valid_models := ["gpt-4o-mini"; "gpt-4o"; "gpt-4"; "gpt-3.5-turbo"] in
    if str_elem model_name valid_models then
      (true, {| openai_api_key := openai_api_key ms;
                openai_model := model_name;
                openrouter_api_key := openrouter_api_key ms;
                openrouter_model := openrouter_model ms;
                ollama_model := ollama_model ms |})
    else (false, ms)
  else if String.eqb (current_provider st) "openrouter" then
    (true, {| openai_api_key := openai_api_key ms;
              openai_model := openai_model ms;
              openrouter_api_key := openrouter_api_key ms;
              openrouter_model := model_name;
              ollama_model := ollama_model ms |})
  else if String.eqb (current_provider st) "ollama" then
    (true, {| openai_api_key := openai_api_key ms;
              openai_model := openai_model ms;
              openrouter_api_key := openrouter_api_key ms;
              openrouter_model := openrouter_model ms;
              ollama_model := model_name |})
  else (false, ms).

Definition ollama_default_models : list string :=
  ["gemma3:1b"; "gemma2:2b"; "llama3.2"; "llama3.1"; "mistral"; "codellama"; "phi3"].

(** [[model["name"] for model in response.json().get("models", [])]] *)
Definition installed_models (response : HttpResponse) : res (list pyval) :=
  result ← json response;
  models ← get result "models" (VList []);
  ms ← MemoryService.iterate models;
  mapM (λ model, getitem model "name") ms.

(** [get_available_models] *)
Definition get_available_models (w : Setup) (st : AIState) : list pyval :=
  if String.eqb (current_provider st) "openai" then
    VStr <$> ["gpt-4o-mini"; "gpt-4o"; "gpt-4"; "gpt-3.5-turbo"]
  else if String.eqb (current_provider st) "openrouter" then
    VStr <$> [
      "openai/gpt-4o-mini";
      "openai/gpt-4o";
      "openai/gpt-4-turbo";
      "anthropic/claude-3-sonnet";
      "anthropic/claude-3-haiku";
      "meta-llama/llama-3.1-8b-instruct";
      "meta-llama/llama-3.1-70b-instruct";
      "google/gemini-pro" ]
  else if String.eqb (current_provider st) "ollama" then
    match ollama_tags w with
    | Raise _ => VStr <$> ollama_default_models
    | Ok response =>
        if (status_code response =? 200)%Z then
          match installed_models response with
          | Ok names => names
          | Raise _ => VStr <$> ollama_default_models
          end
        else VStr <$> ollama_default_models
    end
  else [].

(** [get_available_providers] *)
Definition get_available_providers : list string :=
  ["openai"; "openrouter"; "ollama"].

(** [get_current_provider] *)
Definition get_current_provider (st : AIState) : string := current_provider st.

(** [get_current_model] *)
Definition get_current_model (ms : ModelSettings) (st : AIState) : string :=
  if String.eqb (current_provider st) "openai" then openai_model ms
  else if String.eqb (current_provider st) "openrouter" then openrouter_model ms
  else if String.eqb (current_provider st) "ollama" then ollama_model ms
  else "".

Section WithRuntime.
Context `{Runtime}.

(** ** [extract_preferences] *)

Definition foods : list string := ["피자"; "치킨"; "한식"; "중식"; "일식"; "양식"].
Definition activities : list string :=
  ["영화"; "음악"; "독서"; "운동"; "게임"; "여행"; "요리"].

(** The dictionary [personality_hints], in the order it is written, which
    is the order its [items()] are visited in. *)
Definition personality_hints : list (string * string) := [
  ("재미있", "playful");
  ("장난", "playful");
  ("유머", "playful");
  ("따뜻", "caring");
  ("돌봄", "caring");
  ("지적", "intellectual");
  ("똑똑", "intellectual");
  ("로맨틱", "romantic");
  ("사랑", "romantic")
].

Definition extract_preferences (user_message : string) : gmap string string :=
  let preferences : gmap string string := ∅ in
  let message_lower := str_lower user_message in
  let preferences :=
    if any_in ["좋아"; "싫어"; "선호"] message_lower then
      if any_in foods message_lower then
        foldl (λ (preferences : gmap string string) food,
                 if str_in food message_lower then
                   if str_in "좋아" message_lower
                   then <["음식_" +:+ food := "좋아함"]> preferences
                   else if str_in "싫어" message_lower
                   then <["음식_" +:+ food := "싫어함"]> preferences
                   else preferences
                 else preferences)
              preferences foods
      else preferences
    else preferences in
  let preferences :=
    if any_in ["좋아"; "취미"; "관심"] message_lower then
      foldl (λ (preferences : gmap string string) activity,
               if str_in activity message_lower
               then <["활동_" +:+ activity := "관심있음"]> preferences
               else preferences)
            preferences activities
    else preferences in
  foldl (λ (preferences : gmap string string) '(hint, personality),
           if str_in hint message_lower
           then <["선호_성격" := personality]> preferences
           else preferences)
        preferences personality_hints.

End WithRuntime.

End AIProviders.

(* ===================================================================== *)
(** * The memory service: stored preferences
      (src/Service/memory_service.py) *)
(* ===================================================================== *)

Module MemoryPreferences.
Import Py Entity MemoryService PyBuiltins.

(** The body of the loop of [get_user_preferences]: the entry to append,
    if the element is tagged as a preference. *)
Definition preference_entry (w : World) (st : MemState) (entry : pyval)
  : res (option MemoryEntry) :=
  metadata ← get entry "metadata" (VDict ∅);
  t ← get metadata "type" VNone;
  if eq_str t "preference" then
    i ← get entry "id" VNone;
    c ← get entry "memory" (VStr "");
    s ← get entry "score" (VFloat 0%float);
    mret (Some {| mem_id := i; content := c; memory_type := PREFERENCE;
                  mem_user_id := user_id st; score := s;
                  created_at := clock_now w; mem_metadata := metadata |})
  else mret None.

(** The inner part of the outer [try], after the store has answered. *)
Definition collect_preferences (w : World) (st : MemState) (result : pyval)
  : res (list MemoryEntry) :=
  b ← has_results result;
  if b : bool then
    rs ← getitem result "results" ≫= iterate;
    omap id <$> mapM (preference_entry w st) rs
  else mret [].

(** [get_user_preferences] *)
Definition get_user_preferences (w : World) (st : MemState) : list MemoryEntry :=
  if negb (is_initialized st) then []
  else
    match mem0_search w "사용자 선호도" (user_id st) 20 with
    | Raise _ => []
    | Ok result =>
        match collect_preferences w st result with
        | Ok preferences => preferences
        | Raise _ => []
        end
    end.

End MemoryPreferences.

(* ===================================================================== *)
(** * The personality service: greetings, prefixes, listings
      (src/Service/personality_service.py) *)
(* ===================================================================== *)

Module PersonalityPhrases.
Import Py Entity PersonalityService PyBuiltins.

(** [k == PersonalityType.P]: a member is equal only to itself. *)
Definition is_member (k : personality) (p : PersonalityType) : bool :=
  match k with
  | Member q => bool_decide (q = p)
  | Foreign _ => false
  end.

(** [k.value], which only a member has. *)
Definition value_of (k : personality) : res string :=
  match k with
  | Member p => Ok (personality_value p)
  | Foreign _ => Raise AttributeError
  end.

(** [personality.get(key, [""])] for one of the phrase lists. *)
Definition phrases (personality : Traits) (key : string) : list string :=
  match list_find (λ kv, kv.1 = key) (phrase_lists personality) with
  | Some (_, kv) => kv.2
  | None => [""]
  end.

(** [get_greeting] *)
Definition get_greeting (draw : nat) (st : PState) : res string :=
  personality ← traits_of (personality_type st);
  choice draw (greeting_phrases personality).

Section WithRuntime.
Context `{Runtime}.

(** [get_contextual_response_prefix] *)
Definition get_contextual_response_prefix (draw : nat) (st : PState)
    (user_message : string) : res string :=
  let user_message_lower := str_lower user_message in
  personality ← traits_of (personality_type st);
  if any_in ["슬프"; "우울"; "힘들"; "괴로"] user_message_lower then
    if is_member (personality_type st) CARING then
      choice draw (phrases personality "empathy_responses")
    else if is_member (personality_type st) PLAYFUL then
      Ok "아, 기분이 안 좋으시군요. 제가 기분 좋아지게 해드릴게요! "
    else if is_member (personality_type st) ROMANTIC then
      Ok "마음이 아프시군요. 제가 위로해드릴게요 💕 "
    else Ok ""
  else if any_in ["기쁘"; "행복"; "좋"; "성공"] user_message_lower then
    if is_member (personality_type st) CARING then
      choice draw (phrases personality "encouragement")
    else if is_member (personality_type st) PLAYFUL then
      choice draw (phrases personality "playful_responses")
    else if is_member (personality_type st) ROMANTIC then
      choice draw (phrases personality "affectionate_responses")
    else Ok ""
  else if any_in ["질문"; "궁금"; "알고싶"; "설명"] user_message_lower then
    if is_member (personality_type st) INTELLECTUAL then
      choice draw (phrases personality "analytical_responses")
    else Ok ""
  else Ok "".

End WithRuntime.

(** [get_available_personalities]: one dictionary per entry of
    [PERSONALITY_TRAITS], as the pairs of its three keys. *)
Definition get_available_personalities : list (list (string * string)) :=
  (λ '(personality_type, traits),
     [("type", personality_value personality_type);
      ("name", name traits);
      ("description", description traits)]) <$> PERSONALITY_TRAITS.

(** [get_personality_stats] *)
Record PersonalityStats := {
  current_personality : string;
  personality_name : string;
  stats_mood_level : float;
  stats_interaction_count : Z;
  conversation_context_size : Z;
}.

Definition get_personality_stats (st : PState) : res PersonalityStats :=
  cur ← value_of (personality_type st);
  traits ← traits_of (personality_type st);
  mret {| current_personality := cur;
          personality_name := name traits;
          stats_mood_level := mood_level st;
          stats_interaction_count := interaction_count st;
          conversation_context_size :=
            Z.of_nat (length (conversation_context st)) |}.

End PersonalityPhrases.

(* ===================================================================== *)
(** * Validation of the configuration (src/Config/app_config.py) *)
(* ===================================================================== *)

Module AppConfig.
Import Py.

(** What [validate] reads: fields of [config.ai], [config.companion], and
    whether the log directory exists. *)
Record Settings := {
  ai_provider : string;
  ai_openai_api_key : string;
  ai_openrouter_api_key : string;
  default_personality : string;
  log_dir_exists : bool;            (* [os.path.exists(self.logging.log_dir)] *)
}.

(** [bool(s)] for a string *)
Definition nonempty (s : string) : bool := negb (String.eqb s "").

(** [validate] *)
Definition validate (c : Settings) : gmap string bool :=
  let validation_results : gmap string bool := ∅ in
  let validation_results :=
    if String.eqb (ai_provider c) "openai" then
      <["api_key" := nonempty (ai_openai_api_key c)]> validation_results
    else if String.eqb (ai_provider c) "openrouter" then
      <["api_key" := nonempty (ai_openrouter_api_key c)]> validation_results
    else if String.eqb (ai_provider c) "ollama" then
      <["api_key" := true]> validation_results
    else validation_results in
  let valid_personalities := ["caring"; "playful"; "intellectual"; "romantic"] in
  let validation_results :=
    <["personality" := str_elem (default_personality c) valid_personalities]>
      validation_results in
  let valid_providers := ["openai"; "openrouter"; "ollama"] in
  let validation_results :=
    <["ai_provider" := str_elem (ai_provider c) valid_providers]>
      validation_results in
  <["log_directory" := log_dir_exists c]> validation_results.

End AppConfig.
(* ===================================================================== *)
(** * The system prompt (src/Service/personality_service.py) *)
(* ===================================================================== *)

Module SystemPrompt.
Import Py Entity PersonalityService PersonalityPhrases PyBuiltins.

Definition nl : string := AIConversationService.nl.

(** What an f-string leaves to the interpreter: [f"{x:.1f}"] for a float
    and [str(v)] for a value that is not a string.  The prompt is built
    around their results, whatever they are. *)
Class Formatting := {
  format_1f : float → string;
  str_of : pyval → string;
}.

(** [sep.join(l)] *)
Definition join (sep : string) (l : list string) : string :=
  match l with
  | [] => ""
  | x :: r => foldl (λ acc y, acc +:+ sep +:+ y) x r
  end.

(** The texts of [personality_specific], triple-quoted in the source:
    each starts with a line break and ends with the indentation of the
    closing quotes. *)
Definition caring_specific : string :=
  nl +:+ "            사용자의 감정을 최우선으로 고려하고, 공감적이고 지지적인 반응을 보여주세요."
     +:+ nl +:+ "            사용자가 힘들어할 때는 위로를, 기뻐할 때는 함께 기뻐해주세요."
     +:+ nl +:+ "            ".

Definition playful_specific : string :=
  nl +:+ "            유머와 장난기를 적절히 섞어 대화를 재미있게 만들어주세요."
     +:+ nl +:+ "            이모지를 활용하고, 가벼운 농담도 괜찮습니다."
     +:+ nl +:+ "            하지만 사용자가 진지한 이야기를 할 때는 적절히 톤을 조절해주세요."
     +:+ nl +:+ "            ".

Definition intellectual_specific : string :=
  nl +:+ "            깊이 있고 사려깊은 대화를 지향해주세요."
     +:+ nl +:+ "            사용자의 질문에 대해 다양한 관점에서 분석하고 설명해주세요."
     +:+ nl +:+ "            새로운 지식이나 인사이트를 제공하려고 노력해주세요."
     +:+ nl +:+ "            ".

Definition romantic_specific : string :=
  nl +:+ "            따뜻하고 애정어린 표현을 사용해주세요."
     +:+ nl +:+ "            사용자를 특별하게 느끼게 해주고, 감정적인 유대감을 형성해주세요."
     +:+ nl +:+ "            하트 이모지나 다정한 표현을 적절히 사용해주세요."
     +:+ nl +:+ "            ".

Definition personality_specific (k : personality) : string :=
  if is_member k CARING then caring_specific
  else if is_member k PLAYFUL then playful_specific
  else if is_member k INTELLECTUAL then intellectual_specific
  else if is_member k ROMANTIC then romantic_specific
  else "".

Definition closing_instruction : string :=
  "한국어로 자연스럽게 대화하며, 사용자의 감정과 맥락을 고려해 응답해주세요.".

Section WithFormatting.
Context `{Formatting}.

(** [f"{v}"] *)
Definition format_value (v : pyval) : string :=
  match v with
  | VStr s => s
  | _ => str_of v
  end.

(** The first f-string of [generate_system_prompt]. *)
Definition base_prompt (personality : Traits) (st : PState) (user_name : string)
  : string :=
  nl +:+ "        당신은 " +:+ name personality +:+ "이라는 이름의 AI 동반자입니다."
     +:+ nl +:+ "        성격: " +:+ description personality
     +:+ nl +:+ "        "
     +:+ nl +:+ "        응답 스타일: " +:+ response_style personality +:+ " 대화해주세요."
     +:+ nl +:+ "        "
     +:+ nl +:+ "        사용자 정보:"
     +:+ nl +:+ "        - 이름: "
            +:+ (if String.eqb user_name "" then "알 수 없음" else user_name)
     +:+ nl +:+ "        - 상호작용 횟수: " +:+ pretty (interaction_count st)
     +:+ nl +:+ "        - 현재 기분 수준: " +:+ format_1f (mood_level st) +:+ "/1.0"
     +:+ nl +:+ "        ".

(** [generate_system_prompt]; [user_preferences] is the dictionary given,
    as its items in the order [items()] visits them. *)
Definition generate_system_prompt (st : PState) (user_name : string)
    (memories : option (list pyval))
    (user_preferences : option (list (string * pyval))) : res string :=
  personality ← traits_of (personality_type st);
  let base_prompt := base_prompt personality st user_name in
  let base_prompt :=
    match memories with
    | Some (x :: r) =>
        let memories_text :=
          join nl ((λ memory, "- " +:+ format_value memory) <$> (x :: r)) in
        base_prompt +:+ nl +:+ nl +:+ "기억된 정보:" +:+ nl +:+ memories_text
    | _ => base_prompt +:+ nl +:+ nl +:+ "아직 기억된 정보가 없습니다."
    end in
  let base_prompt :=
    match user_preferences with
    | Some (x :: r) =>
        let pref_text :=
          join nl ((λ '(key, value),
                      "- " +:+ key +:+ ": " +:+ format_value value) <$> (x :: r)) in
        base_prompt +:+ nl +:+ nl +:+ "사용자 선호도:" +:+ nl +:+ pref_text
    | _ => base_prompt
    end in
  let base_prompt :=
    base_prompt +:+ nl +:+ nl +:+ personality_specific (personality_type st) in
  let base_prompt := base_prompt +:+ nl +:+ nl +:+ closing_instruction in
  mret base_prompt.

End WithFormatting.

End SystemPrompt.

(* ===================================================================== *)
(** * The controller (src/Controller/companion_controller.py) *)
(* ===================================================================== *)

Module CompanionController.
Import Py Entity PyBuiltins SystemPrompt.

(** The objects the controller holds. *)
Record Controller := {
  user_profile : Profile.UserProfile;
  memory_service : MemoryService.MemState;
  ai_service : AIConversationService.AIState;
  personality_service : PersonalityService.PState;
}.

Definition apology : string := "죄송해요, 응답을 생성할 수 없었어요.".

Section WithRuntime.
Context `{Runtime} `{Formatting}.

(** [generate_ai_response].  The preferences are handed to the prompt as
    the items of the profile's dictionary; the map fixes one order for
    them where the source has the order of insertion. *)
Definition generate_ai_response (cfg_ai : Config.AIProviderConfig)
    (cfg_memory : Config.MemoryConfig) (wm : MemoryService.World)
    (wa : AIConversationService.World) (c : Controller) (user_message : string)
  : res (pyval * Controller) :=
  let memory_result :=
    MemoryService.search_memories wm (memory_service c) user_message
      (Config.search_limit cfg_memory) in
  let memory_texts := content <$> entries memory_result in
  let conversation_history :=
    MemoryService.get_conversation_history (memory_service c) 5 in
  let user_preferences :=
    (λ '(key, pref), (key, VStr (Profile.value pref)))
      <$> map_to_list (Profile.preferences (user_profile c)) in
  system_prompt ← generate_system_prompt (personality_service c)
                    (Profile.profile_name (user_profile c))
                    (Some memory_texts) (Some user_preferences);
  let '(response, ai) :=
    AIConversationService.generate_response cfg_ai wa (ai_service c)
      user_message system_prompt (Some conversation_history) None None in
  mret (py_or response (VStr apology),
        {| user_profile := user_profile c;
           memory_service := memory_service c;
           ai_service := ai;
           personality_service := personality_service c |}).

End WithRuntime.

End CompanionController.

(* ===================================================================== *)
(** * Vocabulary of the statements, and sample inputs *)
(* ===================================================================== *)

Module Vocabulary.
Import Py Entity.

(** The two messages one history entry turns into. *)
Definition turn (e : ConversationEntry) : list AIConversationService.ChatMessage :=
  [AIConversationService.Msg "user" (user_message e);
   AIConversationService.Msg "assistant" (assistant_response e)].

(** The number of keywords of [words] occurring in [text]. *)
Definition occurrences (words : list string) (text : string) : nat :=
  length (filter (λ w, str_in w text = true) words).

(** Every text [_fallback_response] can return. *)
Definition fallback_texts : list string := [
  "안녕하세요! 만나서 반가워요. AI 서비스에 연결할 수 없지만 여전히 당신과 대화하고 싶어요.";
  "힘든 시간이시군요. 비록 AI 서비스가 연결되지 않았지만, 제가 여기 있어서 당신의 이야기를 들어드릴 수 있어요.";
  "기분이 좋으시다니 저도 함께 기뻐요! 더 자세한 이야기를 들려주세요.";
  "천만에요! 언제든지 도움이 필요하시면 말씀해주세요.";
  "안녕히 가세요! 좋은 하루 보내시고, 다음에 또 만나요!";
  "궁금한 것이 있으시군요. AI 서비스가 연결되면 더 자세한 답변을 드릴 수 있을 텐데, 지금은 제한적인 응답만 가능해요."
] ++ AIConversationService.fallback_choices.

(** The four members of [PersonalityType], as run-time values. *)
Definition four : list PersonalityService.personality :=
  PersonalityService.Member <$> [CARING; PLAYFUL; INTELLECTUAL; ROMANTIC].

(** [0.2 <= m <= 1.0] *)
Definition in_range (m : float) : Prop :=
  (0.2 <=? m)%float = true ∧ (m <=? 1)%float = true.

(** The mantissa shared by the binary64 values of 0.8, 0.2, 0.1 and 0.05
    (0x1999999999999a), and the decoded values of 0.2 and 1.0. *)
Definition c_mant : positive := 7205759403792794.
Definition sf_fifth : spec_float := S754_finite false c_mant (-55).
Definition sf_one : spec_float := S754_finite false 4503599627370496 (-52).

End Vocabulary.

Module Samples.
Import Py Entity.

Definition noon : datetime := mk_datetime 2024 2 29 12 0 0 0.

Definition sample_entry : ConversationEntry :=
  mk_entry "안녕" "hello" POSITIVE (mk_datetime 2024 2 29 23 59 58 120034)
           (<["session_id" := VStr "s1"]> ∅).

Definition fresh_stats : AIConversationService.Stats :=
  {| AIConversationService.total_conversations := 0;
     AIConversationService.total_tokens_used := 0;
     AIConversationService.last_conversation := None |}.

Definition openrouter_ready : AIConversationService.AIState :=
  {| AIConversationService.has_openai_client := false;
     AIConversationService.is_initialized := true;
     AIConversationService.current_provider := "openrouter";
     AIConversationService.conversation_stats := fresh_stats |}.

(** A world in which OpenRouter answers 500 and the other two raise. *)
Definition world_http_500 : AIConversationService.World :=
  {| AIConversationService.openai_create := λ _ _ _, Raise ExternalError;
     AIConversationService.openrouter_post := λ _ _ _,
       Ok {| AIConversationService.status_code := 500; AIConversationService.json := Raise ValueError |};
     AIConversationService.ollama_post := λ _ _ _, Raise ExternalError;
     AIConversationService.clock_now := noon;
     AIConversationService.random_index := 7 |}.

Definition quiet_world : MemoryService.World :=
  {| MemoryService.mem0_available := true;
     MemoryService.mem0_add_raises := false;
     MemoryService.mem0_search := λ _ _ _, Raise ExternalError;
     MemoryService.clock_now := noon;
     MemoryService.elapsed_seconds := 0%float |}.

Definition two_turns : MemoryService.MemState :=
  {| MemoryService.user_id := "default_user";
     MemoryService.is_initialized := false;
     MemoryService.session_memories :=
       [mk_entry "Hello there" "hi!" NEUTRAL noon ∅;
        mk_entry "weather?" "sunny" NEUTRAL noon ∅];
     MemoryService.long_term := [] |}.

Definition keep_two : Config.MemoryConfig :=
  {| Config.max_session_memories := 2; Config.search_limit := 5 |}.

Definition keep_none : Config.MemoryConfig :=
  {| Config.max_session_memories := 0; Config.search_limit := 5 |}.

Definition mood_calls : list PersonalityService.call := [
  PersonalityService.UpdateInteraction (mk_datetime 2024 2 29 12 0 0 0) "좋아" POSITIVE;
  PersonalityService.UpdateInteraction (mk_datetime 2024 2 29 12 0 1 0) "최고" POSITIVE;
  PersonalityService.UpdateInteraction (mk_datetime 2024 2 29 12 0 2 0) "완벽" POSITIVE;
  PersonalityService.ChangePersonality (PersonalityService.Member ROMANTIC);
  PersonalityService.UpdateInteraction (mk_datetime 2024 2 29 12 0 3 0) "슬프" NEGATIVE
].

End Samples.

(* ===================================================================== *)
(** * Vocabulary and samples for the further properties *)
(* ===================================================================== *)

Module MoreSamples.
Import Py Entity.

Definition sample_message : Conversation.Message :=
  Conversation.mk_message Conversation.ASSISTANT "hello"
    (mk_datetime 2024 2 29 23 59 58 120034) (<["session_id" := VStr "s1"]> ∅).

Definition short_history : Conversation.ConversationHistory :=
  Conversation.mk_history [Samples.sample_entry] 2.

Definition unbounded_history : Conversation.ConversationHistory :=
  Conversation.mk_history [] 0.

Definition sample_memory : MemoryEntry :=
  mk_memory (VStr "m-1") (VStr "likes pizza") PREFERENCE "default_user"
            (VFloat 0.5%float) Samples.noon (VDict (<["type" := VStr "preference"]> ∅)).

(** A clock that advances by a second at each read. *)
Definition ticking (i : nat) : datetime :=
  mk_datetime 2024 2 29 12 0 (N.of_nat (i mod 60)) 0.

Definition sample_profile : Profile.UserProfile :=
  Profile.add_preference ticking
    (Profile.new_profile ticking "default_user" CARING) "food" "pizza" 1%float.

End MoreSamples.

Module ProfileVocabulary.
Import Py Entity Profile.

(** Every date of a profile is within the ranges of [datetime]. *)
Definition preference_dates_ok (q : UserPreference) : Prop :=
  datetime_ok (pref_created_at q) = true ∧ datetime_ok (pref_updated_at q) = true.

Definition profile_dates_ok (p : UserProfile) : Prop :=
  datetime_ok (profile_created_at p) = true ∧
  datetime_ok (profile_updated_at p) = true ∧
  datetime_ok (last_active (stats p)) = true ∧
  map_Forall (λ _ q, preference_dates_ok q) (preferences p).

(** The key [add_preference] files a preference under. *)
Definition preference_key (category value : string) : string :=
  category +:+ "_" +:+ value.

(** One call of [add_preference]: the clock it meets and its arguments. *)
Record addition := {
  add_clock : nat → datetime;
  add_category : string;
  add_value : string;
  add_confidence : float;
}.

Definition add_all (p : UserProfile) (calls : list addition) : UserProfile :=
  foldl (λ p a, add_preference (add_clock a) p (add_category a) (add_value a)
                               (add_confidence a)) p calls.

End ProfileVocabulary.

Module AIVocabulary.
Import Py Entity AIConversationService AIProviders.

(** The greeting and the farewell among the texts of [_fallback_response]. *)
Definition greeting_text : string :=
  "안녕하세요! 만나서 반가워요. AI 서비스에 연결할 수 없지만 여전히 당신과 대화하고 싶어요.".
Definition farewell_text : string :=
  "안녕히 가세요! 좋은 하루 보내시고, 다음에 또 만나요!".

(** When [initialize] can succeed for the provider [p]. *)
Definition can_connect (ms : ModelSettings) (sw : Setup) (key : option string)
    (p : string) : Prop :=
  (p = "openai" ∧ openai_importable sw = true ∧
   key_or key (openai_api_key ms) ≠ "" ∧
   is_raise (openai_new sw (key_or key (openai_api_key ms))) = false) ∨
  (p = "openrouter" ∧ key_or key (openrouter_api_key ms) ≠ "") ∨
  (p = "ollama" ∧ ∃ r, ollama_tags sw = Ok r ∧ status_code r = 200%Z).

(** A set-up in which nothing can be reached. *)
Definition offline : Setup :=
  {| openai_importable := false;
     openai_new := λ _, Raise ExternalError;
     ollama_tags := Raise ExternalError |}.

End AIVocabulary.

Module MemoryVocabulary.
Import Py Entity MemoryService.

(** A store that is ready and answers every search with [result]. *)
Definition answering (result : pyval) : World :=
  {| mem0_available := true;
     mem0_add_raises := false;
     mem0_search := λ _ _ _, Ok result;
     clock_now := Samples.noon;
     elapsed_seconds := 0%float |}.

Definition ready_state : MemState :=
  {| user_id := "default_user"; is_initialized := true;
     session_memories := session_memories Samples.two_turns; long_term := [] |}.

(** An answer of the store with two results: one with every key, one
    with none. *)
Definition tea_result : gmap string pyval :=
  <["id" := VStr "m1"]> (<["memory" := VStr "likes tea"]>
  (<["score" := VFloat 0.5%float]>
  (<["metadata" := VDict (<["topic" := VStr "drinks"]> ∅)]> ∅))).

Definition two_results : gmap string pyval :=
  <["results" := VList [VDict tea_result; VDict ∅]]> ∅.

End MemoryVocabulary.

Module PersonalityVocabulary.
Import Py Entity PersonalityService.

(** The context items a sequence of calls appends: one per
    [update_interaction]. *)
Definition context_item (c : call) : list ContextItem :=
  match c with
  | UpdateInteraction now um s =>
      [{| ctx_message := um; ctx_sentiment := sentiment_value s;
          ctx_timestamp := isoformat now |}]
  | _ => []
  end.

Definition context_items (calls : list call) : list ContextItem :=
  calls ≫= context_item.

(** The three keyword tests of [get_contextual_response_prefix]. *)
Definition sad_words : list string := ["슬프"; "우울"; "힘들"; "괴로"].
Definition happy_words : list string := ["기쁘"; "행복"; "좋"; "성공"].
Definition question_words : list string := ["질문"; "궁금"; "알고싶"; "설명"].

(** The dictionary [get_personality_info] returns for a member. *)
Definition info_of (p : PersonalityType) (t : Traits) : list (string * string) :=
  [("type", personality_value p); ("name", name t);
   ("description", description t); ("response_style", response_style t)].

End PersonalityVocabulary.

(* ===================================================================== *)
(** * Facts about the runtime model *)
(* ===================================================================== *)

Module PyFacts.
Import Py.

(** ** Slices *)

Lemma slice_from_neg {A} (k : Z) (l : list A) :
  (0 < k)%Z → slice_from (- k) l = drop (length l - Z.to_nat k) l.
Proof.
  intros Hk. unfold slice_from, clamp_index.
  destruct (Z.ltb_spec (- k) 0) as [_|]; [|lia].
  f_equal. lia.
Qed.

Lemma slice_from_zero {A} (l : list A) : slice_from 0 l = l.
Proof. unfold slice_from, clamp_index. simpl. rewrite Z.min_l by lia. done. Qed.

Lemma length_slice_from_neg {A} (k : Z) (l : list A) :
  (0 < k)%Z → length (slice_from (- k) l) = length l `min` Z.to_nat k.
Proof. intros Hk. rewrite slice_from_neg by done. rewrite length_drop. lia. Qed.

Lemma slice_from_sublist {A} (k : Z) (l : list A) x : x ∈ slice_from k l → x ∈ l.
Proof. unfold slice_from. apply subseteq_drop. Qed.

Lemma slice_to_sublist {A} (k : Z) (l : list A) x : x ∈ slice_to k l → x ∈ l.
Proof. unfold slice_to. apply subseteq_take. Qed.

(** ** [in] on strings, against its declarative reading *)

Lemma prefix_spec (n h : string) :
  String.prefix n h = true ↔ ∃ b, h = n +:+ b.
Proof.
  revert h. induction n as [|c n IH]; intros [|c' h]; simpl.
  - split; [intros _; by exists ""|done].
  - split; [intros _; by exists (String c' h)|done].
  - split; [done|]. intros [b Hb]. discriminate.
  - destruct (ascii_dec c c') as [->|Hne].
    + rewrite IH. split; intros [b Hb]; exists b; [by rewrite Hb|by injection Hb].
    + split; [done|]. intros [b Hb]. injection Hb as ? ?. congruence.
Qed.

Lemma str_in_spec (n h : string) :
  str_in n h = true ↔ ∃ a b, h = a +:+ n +:+ b.
Proof.
  induction h as [|c h IH]; cbn [str_in].
  - rewrite orb_false_r, prefix_spec. split.
    + intros [b Hb]. by exists "", b.
    + intros [a [b Hb]]. destruct a; [by exists b|discriminate].
  - rewrite orb_true_iff, prefix_spec, IH. split.
    + intros [[b Hb]|[a [b Hb]]].
      * by exists "", b.
      * exists (String c a), b. simpl. by rewrite Hb.
    + intros [a [b Hb]]. destruct a as [|c' a].
      * left. by exists b.
      * right. injection Hb as -> Hb. by exists a, b.
Qed.

(** ** Decimal fields and [isoformat] *)

Lemma digit_val_char (d : N) : (d < 10)%N → digit_val (digit_char d) = Some d.
Proof.
  intros Hd. unfold digit_val, digit_char.
  rewrite N_ascii_embedding by lia.
  destruct (N.leb_spec 48 (48 + d)); [|lia].
  destruct (N.leb_spec (48 + d) 57); [|lia].
  simpl. f_equal. lia.
Qed.

Lemma take_digits_S (w : nat) (a : N) (s : string) :
  take_digits (S w) a s =
  match s with
  | String c rest =>
      match digit_val c with
      | Some d => take_digits w (10 * a + d) rest
      | None => Raise ValueError
      end
  | EmptyString => Raise ValueError
  end.
Proof. reflexivity. Qed.

(** Reading [w + 1] digits is reading [w] digits and then one more. *)
Lemma take_digits_snoc (w : nat) (a : N) (s : string) :
  take_digits (S w) a s =
  take_digits w a s ≫= λ '(a', s'), take_digits 1 a' s'.
Proof.
  revert a s. induction w as [|w IH]; intros a s; [done|].
  rewrite (take_digits_S (S w)), (take_digits_S w a s).
  destruct s as [|c rest]; [done|].
  destruct (digit_val c) as [d|]; [apply IH|done].
Qed.

Lemma take_digits_pad (w : nat) (n a : N) (rest : string) :
  (n < 10 ^ N.of_nat w)%N →
  take_digits w a (pad_dec w n rest) = Ok (a * 10 ^ N.of_nat w + n, rest)%N.
Proof.
  revert n a rest. induction w as [|w IH]; intros n a rest Hn.
  - simpl in *. do 2 f_equal. lia.
  - rewrite take_digits_snoc. cbn [pad_dec].
    rewrite Nat2N.inj_succ, N.pow_succ_r' in *.
    rewrite IH by (apply N.Div0.div_lt_upper_bound; lia).
    cbn [mbind res_bind take_digits].
    rewrite digit_val_char by (apply N.mod_lt; lia).
    do 2 f_equal.
    pose proof (N.div_mod' n 10). lia.
Qed.

Lemma fromisoformat_isoformat (t : datetime) :
  datetime_ok t = true → fromisoformat (isoformat t) = Ok t.
Proof.
  intros Hok. pose proof Hok as Hok'. unfold datetime_ok in Hok'.
  repeat (apply andb_true_iff in Hok' as [Hok' ?]).
  repeat match goal with
         | H : (_ <=? _)%N = true |- _ => apply N.leb_le in H
         | H : (_ <? _)%N = true |- _ => apply N.ltb_lt in H
         end.
  assert (days_in_month (year t) (month t) <= 31)%N.
  { unfold days_in_month. repeat case_match; lia. }
  unfold fromisoformat, isoformat.
  repeat (rewrite take_digits_pad by (simpl; lia);
          cbn -[pad_dec take_digits datetime_new N.eqb N.mul N.add N.pow]).
  rewrite ?N.mul_0_l, ?N.add_0_l.
  destruct (N.eqb_spec (microsecond t) 0) as [Hz|Hnz].
  - unfold datetime_new. destruct t as [y m d hh mm ss us].
    cbn [year month day hour minute second microsecond] in *.
    subst us. by rewrite Hok.
  - cbn -[pad_dec take_digits datetime_new N.mul N.add N.pow].
    rewrite take_digits_pad by (simpl; lia).
    cbn -[datetime_new N.mul N.add N.pow]. rewrite N.mul_0_l, N.add_0_l.
    unfold datetime_new. destruct t as [y m d hh mm ss us].
    cbn [year month day hour minute second microsecond] in *.
    by rewrite Hok.
Qed.

End PyFacts.

(* ===================================================================== *)
(** * Binary64 rounding

    What the bound on [mood_level] needs from IEEE-754 arithmetic, derived
    from the specification of the primitive floats ([SpecFloat],
    [FloatAxioms]): a sum or difference of two positive numbers is the
    exact integer result rounded to 53 digits, and rounding moves a
    mantissa by at most one unit. *)
(* ===================================================================== *)

Module Binary64.
Import Vocabulary.
#[local] Open Scope Z_scope.

Lemma digits2_bounds (p : positive) :
  2 ^ (Zpos (digits2_pos p) - 1) <= Zpos p < 2 ^ Zpos (digits2_pos p).
Proof.
  induction p as [p IH|p IH|]; cbn [digits2_pos].
  - rewrite Pos2Z.inj_succ.
    replace (Z.succ (Zpos (digits2_pos p)) - 1) with (Z.succ (Zpos (digits2_pos p) - 1)) by lia.
    rewrite !Z.pow_succ_r by lia. lia.
  - rewrite Pos2Z.inj_succ.
    replace (Z.succ (Zpos (digits2_pos p)) - 1) with (Z.succ (Zpos (digits2_pos p) - 1)) by lia.
    rewrite !Z.pow_succ_r by lia. lia.
  - simpl. lia.
Qed.

(** The digit count of a number between two powers of two. *)
Lemma digits2_between (p : positive) (a b : Z) :
  0 <= a -> 2 ^ a <= Zpos p < 2 ^ b -> a < Zpos (digits2_pos p) <= b.
Proof.
  intros Ha [Hlo Hhi]. pose proof (digits2_bounds p) as [Hl Hh]. split.
  - apply (Z.pow_lt_mono_r_iff 2); lia.
  - assert (Zpos (digits2_pos p) - 1 < b); [|lia].
    destruct (Z_lt_le_dec b 0) as [Hb|Hb].
    + rewrite (Z.pow_neg_r 2 b) in Hhi by lia. lia.
    + apply (Z.pow_lt_mono_r_iff 2); lia.
Qed.

Lemma shr_1_m (r : shr_record) :
  0 <= shr_m r -> shr_m (shr_1 r) = shr_m r / 2.
Proof.
  destruct r as [m r s]. cbn [shr_m]. intros Hm.
  destruct m as [|[p|p|]|p]; cbn [shr_1 shr_m];
    Z.div_mod_to_equations; lia.
Qed.

Lemma pow2_xO (p : positive) : 2 ^ Zpos p~0 = 2 ^ Zpos p * 2 ^ Zpos p.
Proof. rewrite <- Z.pow_add_r by lia. f_equal. lia. Qed.

Lemma pow2_xI (p : positive) : 2 ^ Zpos p~1 = 2 * (2 ^ Zpos p * 2 ^ Zpos p).
Proof. rewrite <- Z.pow_add_r, <- Z.pow_succ_r by lia. f_equal. lia. Qed.

Lemma iter_shr_1_m (p : positive) (r : shr_record) :
  0 <= shr_m r ->
  shr_m (SpecFloat.iter_pos shr_1 p r) = shr_m r / 2 ^ Zpos p.
Proof.
  revert r. induction p as [p IH|p IH|]; intros r Hm; cbn [SpecFloat.iter_pos].
  - assert (H1 : 0 <= shr_m (shr_1 r)) by (rewrite shr_1_m by done; apply Z.div_pos; lia).
    assert (H2 : 0 <= shr_m (SpecFloat.iter_pos shr_1 p (shr_1 r)))
      by (rewrite IH by done; apply Z.div_pos; lia).
    rewrite IH, IH, shr_1_m by done.
    rewrite !Z.div_div by lia. by rewrite pow2_xI.
  - assert (H2 : 0 <= shr_m (SpecFloat.iter_pos shr_1 p r))
      by (rewrite IH by done; apply Z.div_pos; lia).
    rewrite IH, IH by done.
    rewrite !Z.div_div by lia. by rewrite pow2_xO.
  - rewrite shr_1_m by done. done.
Qed.

Lemma round_nearest_even_bounds (m : Z) (l : location) :
  m <= round_nearest_even m l <= m + 1.
Proof.
  destruct l as [|[]]; cbn [round_nearest_even]; try destruct (Z.even m); lia.
Qed.

Lemma shr_fexp_unfold (m e : Z) (l : location) :
  shr_fexp 53 1024 m e l =
  shr (shr_record_of_loc m l) e (Z.max (Zdigits2 m + e - 53) (-1074) - e).
Proof. reflexivity. Qed.

Lemma shr_pos (mrs : shr_record) (e n : Z) :
  0 < n -> shr mrs e n = (SpecFloat.iter_pos shr_1 (Z.to_pos n) mrs, e + n).
Proof. destruct n; try lia. reflexivity. Qed.

(** Rounding a positive integer mantissa of more than 53 digits: the
    result is finite and positive; either the mantissa is the truncated
    one or its successor at the truncated exponent, or the successor
    carried over into the next binade. *)
Lemma binary_round_aux_pos (p : positive) (e : Z) :
  let d := Zpos (digits2_pos p) in
  54 <= d -> -1074 <= e + d - 53 -> e + d - 53 + 1 <= 971 ->
  exists m' e',
    binary_round_aux 53 1024 false (Zpos p) e loc_Exact = S754_finite false m' e' /\
    ((e' = e + (d - 53) /\ Zpos p / 2 ^ (d - 53) <= Zpos m' < 2 ^ 53) \/
     (e' = e + (d - 53) + 1 /\ Zpos m' = 2 ^ 52)).
Proof.
  intros d Hd Hlo Hhi.
  pose proof (digits2_bounds p) as Hp. fold d in Hp.
  set (k := d - 53) in *. set (q := Zpos p / 2 ^ k).
  assert (Hq : 2 ^ 52 <= q < 2 ^ 53).
  { subst q. replace d with (k + 53) in Hp by lia.
    replace (k + 53 - 1) with (k + 52) in Hp by lia.
    rewrite !Z.pow_add_r in Hp by lia.
    assert (0 < 2 ^ k) by (apply Z.pow_pos_nonneg; lia).
    split.
    - apply Z.div_le_lower_bound; lia.
    - apply Z.div_lt_upper_bound; lia. }
  unfold binary_round_aux.
  rewrite shr_fexp_unfold. cbn [Zdigits2]. fold d.
  replace (Z.max (d + e - 53) (-1074) - e) with k by lia.
  rewrite shr_pos by lia.
  set (mrs := SpecFloat.iter_pos shr_1 (Z.to_pos k) (shr_record_of_loc (Zpos p) loc_Exact)).
  assert (Hmrs : shr_m mrs = q).
  { subst mrs. rewrite iter_shr_1_m by (cbn; lia).
    cbn [shr_record_of_loc shr_m]. by rewrite Z2Pos.id by lia. }
  pose proof (round_nearest_even_bounds (shr_m mrs) (loc_of_shr_record mrs)) as Hr.
  set (r := round_nearest_even (shr_m mrs) (loc_of_shr_record mrs)) in *.
  rewrite Hmrs in Hr.
  rewrite shr_fexp_unfold.
  destruct r as [|rp|rp] eqn:Er; try lia.
  cbn [Zdigits2].
  destruct (Z_lt_le_dec (Zpos rp) (2 ^ 53)) as [Hlt|Hge].
  - (* no carry *)
    pose proof (digits2_between rp 52 53 ltac:(lia) ltac:(lia)) as Hdr.
    replace (Z.max (Zpos (digits2_pos rp) + (e + k) - 53) (-1074) - (e + k)) with 0 by lia.
    cbn [shr shr_record_of_loc shr_m].
    destruct (Z.leb_spec (e + k) (1024 - 53)); [|lia].
    exists rp, (e + k). split; [done|]. left. lia.
  - (* carry *)
    assert (Hrp : Zpos rp = 2 ^ 53) by lia.
    pose proof (digits2_between rp 53 54 ltac:(lia) ltac:(lia)) as Hdr.
    replace (Z.max (Zpos (digits2_pos rp) + (e + k) - 53) (-1074) - (e + k)) with 1 by lia.
    rewrite shr_pos by lia. cbn [Z.to_pos SpecFloat.iter_pos].
    cbn [shr_record_of_loc].
    assert (Hs : shr_m (shr_1 {| shr_m := Zpos rp; shr_r := false; shr_s := false |})
                 = Zpos rp / 2)
      by (apply (shr_1_m {| shr_m := Zpos rp; shr_r := false; shr_s := false |});
          cbn; lia).
    destruct (shr_m (shr_1 {| shr_m := Zpos rp; shr_r := false; shr_s := false |}))
      as [|sp|sp] eqn:Es;
      try (exfalso; Z.div_mod_to_equations; lia).
    destruct (Z.leb_spec (e + k + 1) (1024 - 53)); [|lia].
    exists sp, (e + k + 1). split; [done|]. right.
    split; [lia|]. Z.div_mod_to_equations; lia.
Qed.

Lemma binary_normalize_pos (p : positive) (e : Z) :
  let d := Zpos (digits2_pos p) in
  54 <= d -> -1074 <= e + d - 53 ->
  binary_normalize 53 1024 (Zpos p) e false =
  binary_round_aux 53 1024 false (Zpos p) e loc_Exact.
Proof.
  intros d Hd Hlo. cbn [binary_normalize]. unfold binary_round, shl_align.
  change (fexp 53 1024 (Zpos (digits2_pos p) + e))
    with (Z.max (d + e - 53) (-1074)).
  replace (Z.max (d + e - 53) (-1074) - e) with (d - 53) by lia.
  destruct (d - 53) eqn:Hk; try lia. reflexivity.
Qed.

Lemma iter_xO_val (m d : positive) :
  Zpos (Pos.iter xO m d) = Zpos m * 2 ^ Zpos d.
Proof.
  induction d as [|d IH] using Pos.peano_ind.
  - cbn. lia.
  - rewrite Pos.iter_succ, Pos2Z.inj_xO, IH, Pos2Z.inj_succ, Z.pow_succ_r by lia. lia.
Qed.

Lemma shl_align_val (m : positive) (e e' : Z) :
  e' <= e -> Zpos (fst (shl_align m e e')) = Zpos m * 2 ^ (e - e').
Proof.
  intros Hle. unfold shl_align. destruct (e' - e) as [|d|d] eqn:Hd; try lia.
  - replace (e - e') with 0 by lia. cbn [fst]. lia.
  - cbn [fst]. rewrite iter_xO_val. f_equal. f_equal. lia.
Qed.

(** The literals of the service, decoded. *)
Lemma Prim2SF_literals :
  Prim2SF 0.2 = S754_finite false c_mant (-55) /\
  Prim2SF 0.1 = S754_finite false c_mant (-56) /\
  Prim2SF 0.05 = S754_finite false c_mant (-57) /\
  Prim2SF 1 = S754_finite false 4503599627370496 (-52) /\
  Prim2SF 0.8 = S754_finite false 7205759403792794 (-53).
Proof. repeat split; vm_compute; reflexivity. Qed.

(** A valid float between 0.2 and 1.0 is positive and normal, with an
    exponent between -55 and -52. *)
Lemma in_range_shape (x : spec_float) :
  valid_binary x = true ->
  SFleb sf_fifth x = true -> SFleb x sf_one = true ->
  exists m e, x = S754_finite false m e /\
              2 ^ 52 <= Zpos m < 2 ^ 53 /\ -55 <= e <= -52 /\
              (e = -52 -> Zpos m = 2 ^ 52).
Proof.
  intros Hv Hlo Hhi.
  destruct x as [s|s| |s m e]; try discriminate; try (by destruct s).
  destruct s; [discriminate|].
  unfold SFleb, SFcompare, sf_fifth, sf_one in Hlo, Hhi.
  assert (He : -55 <= e <= -52).
  { destruct (Z.compare_spec (-55) e), (Z.compare_spec e (-52)); try discriminate; lia. }
  cbn [valid_binary] in Hv. unfold bounded, canonical_mantissa in Hv.
  apply andb_prop in Hv as [Hc _]. apply Z.eqb_eq in Hc.
  change (fexp prec emax (Zpos (digits2_pos m) + e))
    with (Z.max (Zpos (digits2_pos m) + e - 53) (-1074)) in Hc.
  assert (Hd : Zpos (digits2_pos m) = 53) by lia.
  pose proof (digits2_bounds m) as Hm. rewrite Hd in Hm.
  exists m, e. repeat split; try lia.
  intros ->. rewrite Z.compare_refl in Hhi.
  revert Hhi.
  pose proof (Pos.compare_spec m 4503599627370496) as Hs.
  unfold Pos.compare in Hs.
  destruct Hs as [Heq|Hlt|Hgt]; intros Hhi.
  - subst m. reflexivity.
  - apply Pos2Z.pos_lt_pos in Hlt. lia.
  - discriminate.
Qed.

(** Arguments of [lia] are kept in [Z]: the mantissa of the literals. *)
Lemma c_mant_val : Zpos c_mant = 7205759403792794.
Proof. reflexivity. Qed.

Lemma SFadd_pos (mx my : positive) (ex ey : Z) :
  SF64add (S754_finite false mx ex) (S754_finite false my ey) =
  binary_normalize 53 1024
    (Zpos mx * 2 ^ (ex - Z.min ex ey) + Zpos my * 2 ^ (ey - Z.min ex ey))
    (Z.min ex ey) false.
Proof.
  unfold SF64add, SFadd. cbn [cond_Zopp].
  by rewrite !shl_align_val by lia.
Qed.

Lemma SFsub_pos (mx my : positive) (ex ey : Z) :
  SF64sub (S754_finite false mx ex) (S754_finite false my ey) =
  binary_normalize 53 1024
    (Zpos mx * 2 ^ (ex - Z.min ex ey) - Zpos my * 2 ^ (ey - Z.min ex ey))
    (Z.min ex ey) false.
Proof.
  unfold SF64sub, SFsub. cbn [cond_Zopp].
  by rewrite !shl_align_val by lia.
Qed.

(** Comparing two positive finite numbers. *)
Lemma SFleb_pos (m1 m2 : positive) (e1 e2 : Z) :
  e1 < e2 \/ (e1 = e2 /\ Zpos m1 <= Zpos m2) ->
  SFleb (S754_finite false m1 e1) (S754_finite false m2 e2) = true.
Proof.
  intros Hle. unfold SFleb, SFcompare.
  destruct (Z.compare_spec e1 e2) as [Heq|Hlt|Hgt]; [|done|lia].
  destruct Hle as [?|[_ Hm]]; [lia|].
  pose proof (Pos.compare_spec m1 m2) as Hs. unfold Pos.compare in Hs.
  destruct Hs as [?|?|Hgt]; [done|done|].
  apply Pos2Z.pos_lt_pos in Hgt. lia.
Qed.

(** Adding 0.1 to a number of [0.2, 1.0] does not go below 0.2. *)
Lemma add_tenth_floor (m : positive) (e : Z) :
  2 ^ 52 <= Zpos m < 2 ^ 53 -> -55 <= e <= -52 ->
  SFleb sf_fifth
    (SF64add (S754_finite false m e) (S754_finite false c_mant (-56))) = true.
Proof.
  intros Hm He. rewrite SFadd_pos, c_mant_val.
  replace (Z.min e (-56)) with (-56) by lia.
  change (2 ^ (-56 - -56)) with 1. rewrite Z.mul_1_r.
  set (M := Zpos m * 2 ^ (e - -56) + 7205759403792794).
  assert (HM : 2 ^ 53 + 7205759403792794 <= M < 2 ^ 58).
  { subst M. assert (e = -55 \/ e = -54 \/ e = -53 \/ e = -52) as [->|[->|[->| ->]]] by lia;
      cbn [Z.sub Z.opp Z.add Z.pos_sub Pos.pred_double Z.double Z.pred_double Z.succ_double];
      lia. }
  destruct M as [|Mp|Mp] eqn:EM; try lia.
  pose proof (digits2_between Mp 53 58 ltac:(lia) ltac:(lia)) as Hd.
  rewrite binary_normalize_pos by lia.
  destruct (binary_round_aux_pos Mp (-56) ltac:(lia) ltac:(lia) ltac:(lia))
    as (m' & e' & -> & Hcases).
  apply SFleb_pos. rewrite c_mant_val.
  destruct Hcases as [[-> [Hq _]]|[-> _]]; [|lia].
  destruct (Z_lt_le_dec 54 (Zpos (digits2_pos Mp))) as [Hgt|Hle]; [lia|].
  right. split; [lia|].
  replace (Zpos (digits2_pos Mp) - 53) with 1 in Hq by lia.
  change (2 ^ 1) with 2 in Hq.
  assert (2 * 7205759403792794 <= Zpos Mp) by lia.
  Z.div_mod_to_equations. lia.
Qed.

(** Subtracting 0.05 from a number of [0.2, 1.0] does not go above 1.0. *)
Lemma sub_twentieth_cap (m : positive) (e : Z) :
  2 ^ 52 <= Zpos m < 2 ^ 53 -> -55 <= e <= -52 ->
  (e = -52 -> Zpos m = 2 ^ 52) ->
  SFleb
    (SF64sub (S754_finite false m e) (S754_finite false c_mant (-57)))
    sf_one = true.
Proof.
  intros Hm He Hone. rewrite SFsub_pos, c_mant_val.
  replace (Z.min e (-57)) with (-57) by lia.
  change (2 ^ (-57 - -57)) with 1. rewrite Z.mul_1_r.
  set (M := Zpos m * 2 ^ (e - -57) - 7205759403792794).
  assert (HM : 2 ^ 53 <= M < 2 ^ 57).
  { subst M. assert (e = -55 \/ e = -54 \/ e = -53 \/ e = -52) as [->|[->|[->| ->]]] by lia;
      cbn [Z.sub Z.opp Z.add Z.pos_sub Pos.pred_double Z.double Z.pred_double Z.succ_double];
      lia. }
  destruct M as [|Mp|Mp] eqn:EM; try lia.
  pose proof (digits2_between Mp 53 57 ltac:(lia) ltac:(lia)) as Hd.
  rewrite binary_normalize_pos by lia.
  destruct (binary_round_aux_pos Mp (-57) ltac:(lia) ltac:(lia) ltac:(lia))
    as (m' & e' & -> & Hcases).
  apply SFleb_pos.
  destruct Hcases as [[-> _]|[-> Hm']]; [lia|].
  destruct (Z_lt_le_dec (Zpos (digits2_pos Mp)) 57) as [Hlt|Hge]; [lia|].
  right. split; [lia|]. rewrite Hm'. done.
Qed.

(** ** The same facts on primitive floats *)

#[local] Open Scope float_scope.

Lemma ltb_leb (x y : float) : (x <? y) = true -> (x <=? y) = true.
Proof.
  rewrite ltb_spec, leb_spec. unfold SFltb, SFleb.
  by destruct (SFcompare (Prim2SF x) (Prim2SF y)) as [[]|].
Qed.

Lemma float_in_range_shape (x : float) :
  (0.2 <=? x) = true -> (x <=? 1) = true ->
  exists m e, Prim2SF x = S754_finite false m e /\
              (2 ^ 52 <= Zpos m < 2 ^ 53)%Z /\ (-55 <= e <= -52)%Z /\
              (e = (-52)%Z -> Zpos m = (2 ^ 52)%Z).
Proof.
  destruct Prim2SF_literals as (H02 & _ & _ & H1 & _).
  rewrite !leb_spec, H02, H1. apply in_range_shape, Prim2SF_valid.
Qed.

Theorem add_tenth_in_range (x : float) :
  (0.2 <=? x) = true -> (x <=? 1) = true -> (0.2 <=? x + 0.1) = true.
Proof.
  intros Hlo Hhi.
  destruct (float_in_range_shape x Hlo Hhi) as (m & e & Hx & Hm & He & _).
  destruct Prim2SF_literals as (H02 & H01 & _).
  rewrite leb_spec, add_spec, H02, H01, Hx. by apply add_tenth_floor.
Qed.

Theorem sub_twentieth_in_range (x : float) :
  (0.2 <=? x) = true -> (x <=? 1) = true -> (x - 0.05 <=? 1) = true.
Proof.
  intros Hlo Hhi.
  destruct (float_in_range_shape x Hlo Hhi) as (m & e & Hx & Hm & He & Hone).
  destruct Prim2SF_literals as (_ & _ & H005 & H1 & _).
  rewrite leb_spec, sub_spec, H005, H1, Hx. by apply sub_twentieth_cap.
Qed.

End Binary64.

(* ===================================================================== *)
(** * Conversation entries *)
(* ===================================================================== *)

Module EntityFacts.
Import Py Entity PyFacts.

Lemma sentiment_of_value_value (s : SentimentType) :
  sentiment_of_value (VStr (sentiment_value s)) = Ok s.
Proof. by destruct s. Qed.

Lemma to_dict_keys (e : ConversationEntry) :
  to_dict e !! "user_message" = Some (VStr (user_message e)) ∧
  to_dict e !! "assistant_response" = Some (VStr (assistant_response e)) ∧
  to_dict e !! "sentiment" = Some (VStr (sentiment_value (sentiment e))) ∧
  to_dict e !! "timestamp" = Some (VStr (isoformat (timestamp e))) ∧
  to_dict e !! "metadata" = Some (VDict (metadata e)).
Proof. unfold to_dict. repeat split; by simplify_map_eq. Qed.

(** Claim C10.  For every conversation entry [e] (whose timestamp is a
    [datetime], hence within the ranges the class enforces),
    [ConversationEntry.from_dict(e.to_dict())] succeeds and yields an entry
    equal to [e] in every field: [user_message], [assistant_response],
    [sentiment], [timestamp] and [metadata]. *)
Theorem from_dict_to_dict (e : ConversationEntry) :
  datetime_ok (timestamp e) = true →
  from_dict (to_dict e) = Ok e.
Proof.
  intros Hok.
  destruct (to_dict_keys e) as (Hu & Ha & Hs & Ht & Hm).
  unfold from_dict, subscript, getitem, dict_get.
  rewrite Hu, Ha, Hs, Ht, Hm.
  cbn [mbind res_bind as_str as_dict default].
  rewrite sentiment_of_value_value, fromisoformat_isoformat by done.
  cbn [mbind res_bind mret res_ret]. by destruct e.
Qed.

Lemma from_dict_to_dict_witness :
  datetime_ok (timestamp Samples.sample_entry) = true ∧
  from_dict (to_dict Samples.sample_entry) = Ok Samples.sample_entry.
Proof.
  split; [reflexivity|].
  apply (from_dict_to_dict Samples.sample_entry). reflexivity.
Defined.

End EntityFacts.

(* ===================================================================== *)
(** * The AI conversation service *)
(* ===================================================================== *)

Module AIFacts.
Import Py Entity AIConversationService PyFacts Vocabulary.

(** ** [_build_messages] *)

Lemma foldl_append_turn (acc : list ChatMessage) (l : list ConversationEntry) :
  foldl append_turn acc l = acc ++ (l ≫= turn).
Proof.
  revert acc. induction l as [|e l IH]; intros acc.
  - by rewrite app_nil_r.
  - rewrite bind_cons. cbn [foldl]. rewrite IH. unfold append_turn, turn.
    by rewrite <- !app_assoc.
Qed.

Lemma length_bind_turn (l : list ConversationEntry) :
  length (l ≫= turn) = 2 * length l.
Proof.
  induction l as [|e l IH]; [done|].
  rewrite bind_cons, length_app, IH. simpl. lia.
Qed.

Lemma filter_system_turns (l : list ConversationEntry) :
  filter (λ m, role m = "system") (l ≫= turn) = [].
Proof.
  induction l as [|e l IH]; [done|].
  rewrite bind_cons. unfold turn at 1. cbn [app].
  by rewrite !filter_cons_False.
Qed.

Lemma lookup_bind_turn (l : list ConversationEntry) (i : nat) (e : ConversationEntry) :
  l !! i = Some e →
  (l ≫= turn) !! (2 * i) = Some (Msg "user" (user_message e)) ∧
  (l ≫= turn) !! (2 * i + 1) = Some (Msg "assistant" (assistant_response e)).
Proof.
  revert i. induction l as [|x l IH]; intros i Hi; [done|].
  rewrite bind_cons. destruct i as [|i]; simpl in Hi.
  - by injection Hi as ->.
  - destruct (IH i Hi) as [H1 H2].
    replace (2 * S i) with (S (S (2 * i))) by lia.
    replace (S (S (2 * i)) + 1) with (S (S (2 * i + 1))) by lia.
    done.
Qed.

Lemma build_messages_window (sp : string) (h : list ConversationEntry) (um : string) :
  _build_messages sp (Some h) um =
  Msg "system" sp :: (drop (length h - 10) h ≫= turn) ++ [Msg "user" um].
Proof.
  unfold _build_messages. destruct h as [|x r]; [done|].
  rewrite foldl_append_turn, (slice_from_neg 10) by lia. done.
Qed.

(** Claim C2.  For every history list [h] and current user message, the
    list [_build_messages] returns has [2 * min (length h) 10 + 2]
    elements; it starts with the system message holding the system prompt,
    which is its only system message, and ends with the current user
    message; between them the last [min (length h) 10] entries of [h]
    appear in chronological order, each as a user message followed by an
    assistant message, so earlier entries are left out. *)
Theorem build_messages_spec (sp : string) (h : list ConversationEntry) (um : string) :
  let k := length h `min` 10 in
  let msgs := _build_messages sp (Some h) um in
  length msgs = 2 * k + 2 ∧
  msgs !! 0 = Some (Msg "system" sp) ∧
  filter (λ m, role m = "system") msgs = [Msg "system" sp] ∧
  last msgs = Some (Msg "user" um) ∧
  (∀ i e, i < k → h !! (length h - k + i) = Some e →
     msgs !! (1 + 2 * i) = Some (Msg "user" (user_message e)) ∧
     msgs !! (2 + 2 * i) = Some (Msg "assistant" (assistant_response e))) ∧
  msgs = Msg "system" sp :: (drop (length h - k) h ≫= turn) ++ [Msg "user" um].
Proof.
  intros k msgs. subst msgs. rewrite build_messages_window.
  assert (Hk : length h - 10 = length h - k) by lia. rewrite Hk.
  assert (Hlen : length (drop (length h - k) h) = k) by (rewrite length_drop; lia).
  repeat split.
  - simpl. rewrite length_app, length_bind_turn, Hlen. simpl. lia.
  - rewrite filter_cons_True by done. f_equal.
    rewrite filter_app, filter_system_turns. by rewrite filter_cons_False.
  - by rewrite last_cons, last_snoc.
  - destruct (lookup_bind_turn (drop (length h - k) h) i e) as [H1 _].
    { by rewrite lookup_drop. }
    replace (1 + 2 * i) with (S (2 * i)) by lia. rewrite lookup_cons.
    by rewrite lookup_app_l by (rewrite length_bind_turn, Hlen; lia).
  - destruct (lookup_bind_turn (drop (length h - k) h) i e) as [_ H2].
    { by rewrite lookup_drop. }
    replace (2 + 2 * i) with (S (2 * i + 1)) by lia. rewrite lookup_cons.
    by rewrite lookup_app_l by (rewrite length_bind_turn, Hlen; lia).
Qed.

Lemma foldl_add_ones (l : list string) (a : Z) :
  foldl Z.add a (map (λ _, 1%Z) l) = (a + Z.of_nat (length l))%Z.
Proof.
  revert a. induction l as [|x l IH]; intros a; simpl; [lia|].
  rewrite IH. lia.
Qed.

Lemma count_in_occurrences (words : list string) (text : string) :
  count_in words text = Z.of_nat (occurrences words text).
Proof. unfold count_in, occurrences. by rewrite foldl_add_ones. Qed.

Lemma occurrences_le (words : list string) (text : string) :
  occurrences words text ≤ length words.
Proof. apply length_filter. Qed.

Section WithRuntime.
Context `{Runtime}.

(** Claim C5.  For every text, [analyze_sentiment] compares how many of
    the nine positive keywords and how many of the nine negative keywords
    occur as substrings of the lowercased text: the result is [POSITIVE]
    exactly when the positive count is strictly larger, [NEGATIVE] exactly
    when the negative count is strictly larger, and [NEUTRAL] exactly when
    the counts are equal.  Both counts are at most nine, and the result is
    a function of the text. *)
Theorem analyze_sentiment_spec (text : string) :
  let p := occurrences positive_words (str_lower text) in
  let n := occurrences negative_words (str_lower text) in
  length positive_words = 9 ∧ length negative_words = 9 ∧
  p ≤ 9 ∧ n ≤ 9 ∧
  (analyze_sentiment text = POSITIVE ↔ n < p) ∧
  (analyze_sentiment text = NEGATIVE ↔ p < n) ∧
  (analyze_sentiment text = NEUTRAL ↔ p = n).
Proof.
  intros p n.
  pose proof (occurrences_le positive_words (str_lower text)) as Hp.
  pose proof (occurrences_le negative_words (str_lower text)) as Hn.
  change (length positive_words) with 9 in Hp.
  change (length negative_words) with 9 in Hn.
  unfold analyze_sentiment. rewrite !count_in_occurrences. fold p n.
  rewrite !Z.gtb_ltb.
  destruct (Z.ltb_spec (Z.of_nat n) (Z.of_nat p)) as [Hlt|Hge];
    [|destruct (Z.ltb_spec (Z.of_nat p) (Z.of_nat n)) as [Hlt|Hge']];
    repeat split; intros; try done; lia.
Qed.

End WithRuntime.

Lemma str_elem_valid (p : string) :
  str_elem p valid_providers = true ↔
  p = "openai" ∨ p = "openrouter" ∨ p = "ollama".
Proof.
  unfold str_elem, valid_providers. cbn [existsb].
  rewrite orb_false_r, !orb_true_iff, !String.eqb_eq. tauto.
Qed.

(** Claim C6.  [set_provider p] returns [True] exactly when [p] is one of
    "openai", "openrouter" and "ollama"; in that case [p] becomes the
    current provider and the initialised flag is reset to [False].  For
    every other string it returns [False] and the service, in particular
    the current provider and the flag, is unchanged. *)
Theorem set_provider_spec (st : AIState) (p : string) :
  let valid := p = "openai" ∨ p = "openrouter" ∨ p = "ollama" in
  let r := (set_provider st p).1 in
  let st' := (set_provider st p).2 in
  (r = true ↔ valid) ∧
  (r = false ↔ ¬ valid) ∧
  (valid → current_provider st' = p ∧ is_initialized st' = false ∧
           has_openai_client st' = has_openai_client st ∧
           conversation_stats st' = conversation_stats st) ∧
  (¬ valid → st' = st).
Proof.
  cbn zeta. unfold set_provider. rewrite <- str_elem_valid.
  destruct (str_elem p valid_providers); cbn [fst snd];
    repeat split; intros; try done; tauto.
Qed.

(** Membership in a list that is written out. *)
Ltac in_list := apply list_elem_of_In; simpl; solve [auto 20].

Lemma random_choice_elem (draw : nat) :
  random_choice draw fallback_choices ∈ fallback_choices.
Proof.
  unfold random_choice. change (length fallback_choices) with 5.
  pose proof (Nat.mod_upper_bound draw 5 ltac:(lia)) as Hlt.
  destruct (draw mod 5) as [|[|[|[|[|i]]]]]; [| | | | |lia];
    cbn [nth fallback_choices]; in_list.
Qed.

Section WithRuntime.
Context `{Runtime}.

Lemma fallback_response_elem (w : World) (um : string) :
  _fallback_response w um ∈ fallback_texts.
Proof.
  unfold _fallback_response, fallback_texts.
  repeat case_match;
    try (apply elem_of_app; left; in_list).
  apply elem_of_app. right. apply random_choice_elem.
Qed.

Lemma fallback_response_nonempty (w : World) (um : string) :
  _fallback_response w um ≠ "".
Proof.
  assert (Hall : Forall (λ s, s ≠ "") fallback_texts)
    by (repeat constructor; done).
  rewrite Forall_forall in Hall. apply Hall, fallback_response_elem.
Qed.

(** A request that comes back with a status other than 200 is not an
    exception: the provider call returns [None]. *)
Lemma openrouter_error_status (w : World) (st : AIState) (um sp : string)
    (hist : option (list ConversationEntry)) (t : float) (m : Z) (r : HttpResponse) :
  openrouter_post w (_build_messages sp hist um) t m = Ok r →
  status_code r ≠ 200%Z →
  _generate_openrouter_response w st um sp hist t m = (Ok VNone, st).
Proof.
  intros Hr Hs. unfold _generate_openrouter_response. rewrite Hr.
  by destruct (Z.eqb_spec (status_code r) 200).
Qed.

Lemma ollama_error_status (w : World) (st : AIState) (um sp : string)
    (hist : option (list ConversationEntry)) (t : float) (m : Z) (r : HttpResponse) :
  ollama_post w (ollama_prompt sp hist um) t m = Ok r →
  status_code r ≠ 200%Z →
  _generate_ollama_response w st um sp hist t m = (Ok VNone, st).
Proof.
  intros Hr Hs. unfold _generate_ollama_response. rewrite Hr.
  by destruct (Z.eqb_spec (status_code r) 200).
Qed.

(** Claim C1, amended.  For every user message and system prompt: when
    the service is not initialised, or the call to the selected provider
    raises an exception, [generate_response] does not propagate the error
    but returns a fallback text, which is one of eleven fixed non-empty
    strings picked by the keyword scan of the user message.  When an
    OpenRouter or Ollama request is answered with a status other than 200,
    [generate_response] returns [None] and leaves the state as it was. *)
Theorem generate_response_degrades (cfg : Config.AIProviderConfig) (w : World)
    (st : AIState) (um sp : string) (hist : option (list ConversationEntry))
    (temp : option float) (mt : option Z) :
  let t := default (Config.temperature cfg) temp in
  let m := default (Config.max_tokens cfg) mt in
  let out := generate_response cfg w st um sp hist temp mt in
  _fallback_response w um ∈ fallback_texts ∧
  _fallback_response w um ≠ "" ∧
  (is_initialized st = false →
     out = (VStr (_fallback_response w um), st)) ∧
  (∀ e st', is_initialized st = true →
     provider_call w st um sp hist t m = Some (Raise e, st') →
     out = (VStr (_fallback_response w um), st')) ∧
  (∀ r, is_initialized st = true →
     (current_provider st = "openrouter" ∧
      openrouter_post w (_build_messages sp hist um) t m = Ok r ∨
      current_provider st = "ollama" ∧
      ollama_post w (ollama_prompt sp hist um) t m = Ok r) →
     status_code r ≠ 200%Z →
     out = (VNone, st)).
Proof.
  intros t m out. subst out. unfold generate_response. fold t m.
  split; [apply fallback_response_elem|].
  split; [apply fallback_response_nonempty|].
  split; [by intros ->|].
  split.
  - intros e st' -> Hcall. cbn [negb]. by rewrite Hcall.
  - intros r -> Hr Hs. cbn [negb]. unfold provider_call.
    destruct Hr as [[-> Hr]|[-> Hr]]; cbn [String.eqb Ascii.eqb Bool.eqb].
    + by rewrite (openrouter_error_status _ _ _ _ _ _ _ _ Hr Hs).
    + by rewrite (ollama_error_status _ _ _ _ _ _ _ _ Hr Hs).
Qed.

(** What makes a provider call raise: the client library itself... *)
Lemma provider_call_raises_offline (w : World) (st : AIState) (um sp : string)
    (hist : option (list ConversationEntry)) (t : float) (m : Z) (e : exn) :
  (current_provider st = "openai" ∧ has_openai_client st = true ∧
   openai_create w (_build_messages sp hist um) t m = Raise e ∨
   current_provider st = "openrouter" ∧
   openrouter_post w (_build_messages sp hist um) t m = Raise e ∨
   current_provider st = "ollama" ∧
   ollama_post w (ollama_prompt sp hist um) t m = Raise e) →
  provider_call w st um sp hist t m = Some (Raise e, st).
Proof.
  unfold provider_call.
  intros [(-> & Hc & Hr)|[(-> & Hr)|(-> & Hr)]]; cbn [String.eqb Ascii.eqb Bool.eqb].
  - unfold _generate_openai_response. by rewrite Hc, Hr.
  - unfold _generate_openrouter_response. by rewrite Hr.
  - unfold _generate_ollama_response. by rewrite Hr.
Qed.

(** ... or an answer that cannot be decoded. *)
Lemma provider_call_raises_undecodable (w : World) (st : AIState) (um sp : string)
    (hist : option (list ConversationEntry)) (t : float) (m : Z)
    (r : HttpResponse) (e : exn) :
  current_provider st = "openrouter" →
  openrouter_post w (_build_messages sp hist um) t m = Ok r →
  status_code r = 200%Z →
  json r = Raise e ∨ (∃ v, json r = Ok v ∧ first_choice_content v = Raise e) →
  provider_call w st um sp hist t m = Some (Raise e, st).
Proof.
  unfold provider_call. intros -> Hr Hs Hj. cbn [String.eqb Ascii.eqb Bool.eqb].
  unfold _generate_openrouter_response. rewrite Hr, Hs. cbn [Z.eqb Pos.eqb].
  destruct Hj as [->|(v & -> & ->)]; done.
Qed.

End WithRuntime.

(** Claim C1 as stated fails: an initialised service whose provider
    answers with status 500 returns [None], not a fallback text. *)
Lemma generate_response_error_status_none :
  let out := generate_response (H := ascii_runtime) Config.default_ai
               Samples.world_http_500 Samples.openrouter_ready
               "hello" "system prompt" None None None in
  is_initialized Samples.openrouter_ready = true ∧
  (∀ msgs t m, ∃ r, openrouter_post Samples.world_http_500 msgs t m = Ok r ∧
                    status_code r = 500%Z) ∧
  out = (VNone, Samples.openrouter_ready) ∧
  ¬ ∃ text, out.1 = VStr text.
Proof.
  repeat split.
  - intros msgs t m. by eexists.
  - by intros [text Htext].
Qed.

End AIFacts.

(* ===================================================================== *)
(** * The memory service *)
(* ===================================================================== *)

Module MemFacts.
Import Py Entity MemoryService PyFacts.

Section WithRuntime.
Context `{Runtime}.

Lemma foldl_collect {A B} (hit : A → bool) (f : A → B) (acc : list B) (l : list A) :
  foldl (λ (results : list B) x, if hit x then results ++ [f x] else results) acc l
  = acc ++ (f <$> filter (λ x, hit x = true) l).
Proof.
  revert acc. induction l as [|x l IH]; intros acc; cbn [foldl].
  - by rewrite filter_nil, app_nil_r.
  - rewrite IH. destruct (hit x) eqn:Hx.
    + rewrite filter_cons_True by done. by rewrite fmap_cons, <- app_assoc.
    + rewrite filter_cons_False by congruence. done.
Qed.

Lemma search_session_memories_eq (w : World) (st : MemState) (q : string) (limit : Z) :
  _search_session_memories w st q limit =
  slice_to limit
    (session_entry w st <$>
       filter (λ m, session_hit (str_lower q) m = true)
              (slice_from (-20) (session_memories st))).
Proof. unfold _search_session_memories. by rewrite foldl_collect. Qed.

Lemma search_session_memories_sound (w : World) (st : MemState) (q : string) (limit : Z) :
  Forall (λ me, ∃ m, m ∈ session_memories st ∧
                     session_hit (str_lower q) m = true ∧
                     me = session_entry w st m)
         (_search_session_memories w st q limit).
Proof.
  rewrite search_session_memories_eq. apply Forall_forall. intros me Hme.
  apply slice_to_sublist, list_elem_of_fmap in Hme as (m & -> & Hm).
  apply list_elem_of_filter in Hm as [Hhit Hm].
  exists m. eauto using slice_from_sublist.
Qed.

(** Claim C3.  For every query and limit, when the long-term store is not
    initialised or its search raises, [search_memories] returns a result
    whose entries are those of the session-memory keyword search for the
    query: of the last twenty session turns, those whose user message or
    assistant response contains the query (both lowercased), oldest
    first, each as a [CONVERSATION] entry of the user that holds the two
    texts, the score 0.8 and the metadata of the turn, cut by
    [[:limit]]; so every matching turn of the window is returned when
    [limit] is not smaller than their number.  The [query] field is the
    query and [total_count] is the number of entries returned. *)
Theorem search_memories_fallback (w : World) (st : MemState) (q : string) (limit : Z) :
  is_initialized st = false ∨
  is_raise (mem0_search w q (user_id st) limit) = true →
  let r := search_memories w st q limit in
  let recent := drop (length (session_memories st) - 20) (session_memories st) in
  let hits :=
    filter (λ m, str_in (str_lower q) (str_lower (user_message m))
                 || str_in (str_lower q) (str_lower (assistant_response m)) = true)
           recent in
  let found :=
    (λ m, mk_memory VNone
            (VStr ("사용자: " +:+ user_message m +:+ String "010" ""
                   +:+ "AI: " +:+ assistant_response m))
            CONVERSATION (user_id st) (VFloat 0.8%float) (clock_now w)
            (VDict (metadata m))) <$> hits in
  entries r = _search_session_memories w st q limit ∧
  entries r = slice_to limit found ∧
  ((0 ≤ limit)%Z → entries r = take (Z.to_nat limit) found) ∧
  ((Z.of_nat (length hits) ≤ limit)%Z → entries r = found) ∧
  query r = q ∧
  total_count r = Z.of_nat (length (entries r)) ∧
  Forall (λ me, ∃ m, m ∈ session_memories st ∧
                     session_hit (str_lower q) m = true ∧
                     me = session_entry w st m) (entries r).
Proof.
  intros Hcase r recent hits found.
  assert (Hr : r = search_result w (_search_session_memories w st q limit) q).
  { subst r. unfold search_memories.
    destruct (is_initialized st); cbn [negb]; [|done].
    destruct Hcase as [|Hraise]; [done|].
    by destruct (mem0_search w q (user_id st) limit). }
  assert (Hfound : _search_session_memories w st q limit = slice_to limit found).
  { rewrite search_session_memories_eq, (slice_from_neg 20) by lia. done. }
  assert (Hlen : length found = length hits) by (subst found; apply length_fmap).
  rewrite Hr. cbn [entries query total_count search_result].
  split; [done|]. split; [done|].
  split.
  { intros Hlim. rewrite Hfound. unfold slice_to, clamp_index.
    destruct (Z.ltb_spec limit 0) as [|_]; [lia|].
    destruct (decide (limit ≤ Z.of_nat (length found))%Z).
    - by rewrite Z.min_l by done.
    - rewrite Z.min_r, Nat2Z.id by lia. rewrite !take_ge; [done|lia|lia]. }
  split.
  { intros Hall. rewrite Hfound. unfold slice_to, clamp_index.
    destruct (Z.ltb_spec limit 0) as [|_]; [lia|].
    rewrite Z.min_r, Nat2Z.id by lia. by rewrite take_ge by lia. }
  split; [done|]. split; [done|].
  apply search_session_memories_sound.
Qed.

End WithRuntime.

Lemma search_memories_fallback_witness :
  (is_initialized Samples.two_turns = false ∧
   let r := search_memories (H := ascii_runtime) Samples.quiet_world
              Samples.two_turns "hello" 5 in
   entries r =
     [mk_memory VNone (VStr ("사용자: Hello there" +:+ String "010" "AI: hi!"))
        CONVERSATION "default_user" (VFloat 0.8%float) Samples.noon (VDict ∅)] ∧
   query r = "hello" ∧ total_count r = 1%Z) ∧
  (is_initialized (initialize Samples.quiet_world Samples.two_turns).2 = true ∧
   is_raise (mem0_search Samples.quiet_world "SUN"
               (user_id (initialize Samples.quiet_world Samples.two_turns).2) 5)
     = true ∧
   let r := search_memories (H := ascii_runtime) Samples.quiet_world
              (initialize Samples.quiet_world Samples.two_turns).2 "SUN" 5 in
   entries r =
     [mk_memory VNone (VStr ("사용자: weather?" +:+ String "010" "AI: sunny"))
        CONVERSATION "default_user" (VFloat 0.8%float) Samples.noon (VDict ∅)] ∧
   query r = "SUN" ∧ total_count r = 1%Z).
Proof.
  split.
  - split; [reflexivity|].
    destruct (search_memories_fallback (H := ascii_runtime) Samples.quiet_world
                Samples.two_turns "hello" 5 (or_introl eq_refl))
      as (_ & _ & _ & He & Hq & Hc & _).
    assert (Hfew : (Z.of_nat 1 ≤ 5)%Z) by (vm_compute; discriminate).
    specialize (He Hfew).
    cbv zeta. split; [|split]; [| exact Hq |].
    + rewrite He. vm_compute. reflexivity.
    + rewrite Hc, He. vm_compute. reflexivity.
  - split; [reflexivity|]. split; [reflexivity|].
    destruct (search_memories_fallback (H := ascii_runtime) Samples.quiet_world
                (initialize Samples.quiet_world Samples.two_turns).2 "SUN" 5
                (or_intror eq_refl))
      as (_ & _ & _ & He & Hq & Hc & _).
    assert (Hfew : (Z.of_nat 1 ≤ 5)%Z) by (vm_compute; discriminate).
    specialize (He Hfew).
    cbv zeta. split; [|split]; [| exact Hq |].
    + rewrite He. vm_compute. reflexivity.
    + rewrite Hc, He. vm_compute. reflexivity.
Defined.

Lemma remember_session (cfg : Config.MemoryConfig) (entry : ConversationEntry)
    (st : MemState) :
  (1 ≤ Config.max_session_memories cfg)%Z →
  let grown := session_memories st ++ [entry] in
  session_memories (remember cfg entry st) =
  drop (length grown - Z.to_nat (Config.max_session_memories cfg)) grown.
Proof.
  intros Hmax grown. unfold remember. cbn [session_memories set_session].
  fold grown.
  destruct (Z.gtb_spec (Z.of_nat (length grown)) (Config.max_session_memories cfg))
    as [Hgt|Hle]; cbn [session_memories set_session].
  - by rewrite slice_from_neg by lia.
  - by replace (length grown - _) with 0 by lia.
Qed.

Lemma remember_other (cfg : Config.MemoryConfig) (entry : ConversationEntry)
    (st : MemState) :
  user_id (remember cfg entry st) = user_id st ∧
  is_initialized (remember cfg entry st) = is_initialized st ∧
  long_term (remember cfg entry st) = long_term st.
Proof. unfold remember. by case_match. Qed.

Lemma mem0_add_session (w : World) (item : StoredItem) (st : MemState) :
  session_memories (mem0_add w item st) = session_memories st ∧
  is_initialized (mem0_add w item st) = is_initialized st ∧
  user_id (mem0_add w item st) = user_id st.
Proof. unfold mem0_add. by case_match. Qed.

(** Claim C4, amended.  When [max_session_memories] is at least 1, every
    call of [add_conversation], with the long-term store initialised or
    not, returns [True] and leaves in the session buffer exactly the newest
    [max_session_memories] entries of the old buffer extended by the new
    turn: the buffer ends with the new turn and holds at most
    [max_session_memories] entries. *)
Theorem add_conversation_bounded (cfg : Config.MemoryConfig) (w : World)
    (st : MemState) (um ar : string) (md : option (gmap string pyval)) :
  (1 ≤ Config.max_session_memories cfg)%Z →
  let bound := Z.to_nat (Config.max_session_memories cfg) in
  let entry := mk_entry um ar NEUTRAL (clock_now w) (or_empty md) in
  let grown := session_memories st ++ [entry] in
  let out := add_conversation cfg w st um ar md in
  out.1 = true ∧
  session_memories out.2 = drop (length grown - bound) grown ∧
  length (session_memories out.2) = length grown `min` bound ∧
  length (session_memories out.2) ≤ bound ∧
  last (session_memories out.2) = Some entry ∧
  is_initialized out.2 = is_initialized st.
Proof.
  intros Hmax bound entry grown out.
  assert (Hout : out.1 = true ∧
                 session_memories out.2 = drop (length grown - bound) grown ∧
                 is_initialized out.2 = is_initialized st).
  { subst out. unfold add_conversation. fold entry.
    destruct (is_initialized st) eqn:Hinit; cbn [negb fst snd].
    - rewrite remember_session by done.
      destruct (remember_other cfg entry
                  (mem0_add w {| stored_messages := [("user", um); ("assistant", ar)];
                                 stored_metadata := or_empty md |} st)) as (_ & -> & _).
      destruct (mem0_add_session w
                  {| stored_messages := [("user", um); ("assistant", ar)];
                     stored_metadata := or_empty md |} st) as (-> & -> & _).
      done.
    - rewrite remember_session by done.
      destruct (remember_other cfg entry st) as (_ & -> & _). done. }
  destruct Hout as (Hr & Hs & Hi). rewrite Hs.
  assert (Hg : length grown = S (length (session_memories st)))
    by (subst grown; rewrite length_app; simpl; lia).
  repeat split; try done.
  - rewrite length_drop. lia.
  - rewrite length_drop. lia.
  - subst grown. rewrite drop_app_le by (rewrite length_app in *; simpl in *; lia).
    apply last_snoc.
Qed.

Lemma add_conversation_bounded_witness :
  (1 ≤ Config.max_session_memories Samples.keep_two)%Z ∧
  let out := add_conversation Samples.keep_two Samples.quiet_world
               Samples.two_turns "bye" "see you" None in
  out.1 = true ∧
  length (session_memories out.2) ≤ 2 ∧
  last (session_memories out.2) =
    Some (mk_entry "bye" "see you" NEUTRAL Samples.noon ∅).
Proof.
  split; [done|].
  pose proof (add_conversation_bounded Samples.keep_two Samples.quiet_world
                Samples.two_turns "bye" "see you" None ltac:(done))
    as (H1 & _ & _ & H4 & H5 & _).
  exact (conj H1 (conj H4 H5)).
Defined.

(** Claim C4 as stated fails for [max_session_memories = 0]: after one
    call the buffer holds one entry, which is more than the bound. *)
Lemma add_conversation_zero_bound_exceeded :
  let out := add_conversation Samples.keep_none Samples.quiet_world
               (__init__ "default_user") "hello" "hi" None in
  out.1 = true ∧
  Config.max_session_memories Samples.keep_none = 0%Z ∧
  length (session_memories out.2) = 1 ∧
  ¬ (Z.of_nat (length (session_memories out.2)) ≤
       Config.max_session_memories Samples.keep_none)%Z.
Proof. repeat split. vm_compute. intros Hle. by apply Hle. Qed.

(** Any number of items can be put into the long-term store. *)
Lemma reach_long_term (cfg : Config.MemoryConfig) (uid : string) (n : nat) :
  ∃ calls, let st := run cfg (__init__ uid) calls in
           is_initialized st = true ∧ length (long_term st) = n.
Proof.
  induction n as [|n (calls & Hi & Hn)].
  - by exists [(Samples.quiet_world, Initialize)].
  - exists (calls ++ [(Samples.quiet_world, AddUserPreference "음식_피자" "좋아함")]).
    unfold run in *. rewrite foldl_app. cbn [foldl step].
    cbn zeta in Hi, Hn. unfold add_user_preference. rewrite Hi. cbn [negb snd].
    unfold mem0_add. cbn. by rewrite length_app, Hn, Nat.add_1_r.
Qed.

(** Claim C9.  [get_memory_stats] always reports [total_memories = 0],
    whatever number of conversations and preferences the long-term store
    holds, while [session_memories] is the current length of the session
    buffer and [long_term_enabled] is the initialised flag. *)
Theorem get_memory_stats_spec (cfg : Config.MemoryConfig) (w : World) (uid : string) :
  (∀ st, total_memories (get_memory_stats w st) = 0%Z ∧
         session_memories_count (get_memory_stats w st)
           = Z.of_nat (length (session_memories st)) ∧
         long_term_enabled (get_memory_stats w st) = is_initialized st) ∧
  (∀ n, ∃ calls, let st := run cfg (__init__ uid) calls in
                 length (long_term st) = n ∧
                 total_memories (get_memory_stats w st) = 0%Z).
Proof.
  split; [done|]. intros n.
  destruct (reach_long_term cfg uid n) as (calls & _ & Hn). by exists calls.
Qed.

End MemFacts.

(* ===================================================================== *)
(** * The personality service *)
(* ===================================================================== *)

Module PersonaFacts.
Import Py Entity PersonalityService PyFacts Vocabulary.

Lemma all_members (p : PersonalityType) :
  p ∈ [CARING; PLAYFUL; INTELLECTUAL; ROMANTIC].
Proof. destruct p; set_solver. Qed.

Lemma in_traits_member (p : PersonalityType) : in_traits (Member p) = true.
Proof. unfold in_traits. apply bool_decide_eq_true. apply all_members. Qed.

Lemma in_traits_four (p : personality) : in_traits p = true ↔ p ∈ four.
Proof.
  unfold four. rewrite list_elem_of_fmap. destruct p as [p|s].
  - rewrite in_traits_member. split; [intros _|done].
    exists p. split; [done|apply all_members].
  - cbn. split; [done|]. by intros (x & Hx & _).
Qed.

Lemma in_traits_defined (p : personality) :
  in_traits p = true ↔ ∃ t, traits_of p = Ok t.
Proof.
  destruct p as [p|s].
  - rewrite in_traits_member. split; [intros _|done]. destruct p; cbn; eauto.
  - cbn. split; [done|]. by intros [t Ht].
Qed.

Lemma get_personality_info_state (st : PState) :
  (get_personality_info st).2 =
  if in_traits (personality_type st) then st else set_personality st (Member CARING).
Proof.
  unfold get_personality_info.
  destruct (in_traits (personality_type st));
    by destruct (personality_type _), (traits_of _).
Qed.

Lemma step_keeps_defined (st : PState) (c : call) :
  in_traits (personality_type st) = true →
  in_traits (personality_type (step st c)) = true.
Proof.
  intros Hdef. destruct c as [|now um s|p]; cbn [step].
  - by rewrite get_personality_info_state, Hdef.
  - done.
  - unfold change_personality. destruct (in_traits p) eqn:Hp; [|done].
    by repeat case_match.
Qed.

Lemma run_keeps_defined (st : PState) (calls : list call) :
  in_traits (personality_type st) = true →
  in_traits (personality_type (run st calls)) = true.
Proof.
  revert st. induction calls as [|c calls IH]; intros st Hdef; [done|].
  apply IH, step_keeps_defined, Hdef.
Qed.

(** Claim C7.  In a service whose current personality is a defined type,
    [change_personality t] returns [True] exactly when [t] is one of the
    four defined types, and then [t] is the current personality
    afterwards while mood, interaction count and context are as before;
    for any other value it returns [False] and the service, in particular
    its current personality, is unchanged.  Hence after any sequence of
    calls the current personality has a trait bundle; it is the value
    accepted last, whatever was called before and however many values
    were refused afterwards, and the initial one when every value was
    refused. *)
Theorem change_personality_spec (st : PState) (t : personality) :
  in_traits (personality_type st) = true →
  ((change_personality st t).1 = Ok true ↔ t ∈ four) ∧
  (t ∈ four → change_personality st t = (Ok true, set_personality st t)) ∧
  (t ∈ four →
     personality_type (change_personality st t).2 = t ∧
     mood_level (change_personality st t).2 = mood_level st ∧
     interaction_count (change_personality st t).2 = interaction_count st ∧
     conversation_context (change_personality st t).2 = conversation_context st) ∧
  (t ∉ four → change_personality st t = (Ok false, st)) ∧
  (t ∉ four →
     personality_type (change_personality st t).2 = personality_type st) ∧
  (∀ calls, ∃ traits,
     traits_of (personality_type (run st calls)) = Ok traits) ∧
  (∀ calls ts accepted,
     Forall (λ t', t' ∉ four) ts → accepted ∈ four →
     personality_type
       (run st (calls ++ (ChangePersonality <$> accepted :: ts))) = accepted ∧
     personality_type (run st (ChangePersonality <$> ts)) = personality_type st).
Proof.
  intros Hdef.
  assert (Hyes : ∀ s t', in_traits (personality_type s) = true → t' ∈ four →
                         change_personality s t' = (Ok true, set_personality s t')).
  { intros s t' Hs Ht. apply in_traits_four in Ht.
    unfold change_personality. rewrite Ht.
    by destruct (personality_type s). }
  assert (Hno : ∀ s t', t' ∉ four → change_personality s t' = (Ok false, s)).
  { intros s t' Ht. rewrite <- in_traits_four in Ht.
    apply not_true_is_false in Ht. unfold change_personality. by rewrite Ht. }
  assert (Hskip : ∀ ts s, Forall (λ t', t' ∉ four) ts →
                          run s (ChangePersonality <$> ts) = s).
  { intros ts. induction ts as [|t' ts IH]; intros s Hts; [done|].
    apply Forall_cons in Hts as [Ht Hts].
    cbn [fmap list_fmap run foldl step]. rewrite (Hno s t' Ht). cbn [snd].
    apply IH, Hts. }
  split.
  { rewrite <- in_traits_four. unfold change_personality.
    destruct (personality_type st); [|done]. by destruct (in_traits t). }
  split; [apply Hyes, Hdef|].
  split; [by intros Ht; rewrite (Hyes st t Hdef Ht)|].
  split; [apply Hno|].
  split; [by intros Ht; rewrite (Hno st t Ht)|].
  split.
  { intros calls. apply in_traits_defined, run_keeps_defined, Hdef. }
  intros calls ts accepted Hts Ha. split.
  - unfold run at 1. rewrite foldl_app. fold (run st calls).
    cbn [fmap list_fmap foldl step].
    rewrite (Hyes (run st calls) accepted (run_keeps_defined st calls Hdef) Ha).
    cbn [snd]. change (foldl step ?s ?l) with (run s l). by rewrite Hskip.
  - by rewrite Hskip.
Qed.

Lemma change_personality_spec_witness :
  in_traits (personality_type (__init__ (Member CARING))) = true ∧
  change_personality (__init__ (Member CARING)) (Member PLAYFUL)
    = (Ok true, set_personality (__init__ (Member CARING)) (Member PLAYFUL)) ∧
  personality_type
    (change_personality (__init__ (Member CARING)) (Member PLAYFUL)).2
    = Member PLAYFUL ∧
  change_personality (__init__ (Member CARING)) (Foreign "playful")
    = (Ok false, __init__ (Member CARING)) ∧
  personality_type
    (change_personality (__init__ (Member CARING)) (Foreign "playful")).2
    = Member CARING.
Proof.
  split; [reflexivity|].
  destruct (change_personality_spec (__init__ (Member CARING)) (Member PLAYFUL)
              eq_refl) as (_ & Hyes & Hcur & _).
  destruct (change_personality_spec (__init__ (Member CARING)) (Foreign "playful")
              eq_refl) as (_ & _ & _ & Hno & Hkeep & _).
  assert (Hin : Member PLAYFUL ∈ four) by (rewrite <- in_traits_four; done).
  assert (Hout : Foreign "playful" ∉ four) by (rewrite <- in_traits_four; done).
  split; [exact (Hyes Hin)|].
  split; [exact (proj1 (Hcur Hin))|].
  split; [exact (Hno Hout)|].
  exact (Hkeep Hout).
Defined.

(** ** The mood level *)

Lemma initial_in_range : in_range 0.8.
Proof. split; reflexivity. Qed.

Lemma cap_in_range (m : float) :
  in_range m → in_range (py_min 1 (m + 0.1)).
Proof.
  intros [Hlo Hhi]. unfold py_min.
  destruct (m + 0.1 <? 1)%float eqn:Hlt; split.
  - by apply Binary64.add_tenth_in_range.
  - by apply Binary64.ltb_leb.
  - reflexivity.
  - reflexivity.
Qed.

Lemma floor_in_range (m : float) :
  in_range m → in_range (py_max 0.2 (m - 0.05)).
Proof.
  intros [Hlo Hhi]. unfold py_max.
  destruct (0.2 <? m - 0.05)%float eqn:Hlt; split.
  - by apply Binary64.ltb_leb.
  - by apply Binary64.sub_twentieth_in_range.
  - reflexivity.
  - reflexivity.
Qed.

Lemma step_in_range (st : PState) (c : call) :
  in_range (mood_level st) → in_range (mood_level (step st c)).
Proof.
  intros Hm. destruct c as [|now um s|p]; cbn [step].
  - rewrite get_personality_info_state. by case_match.
  - destruct s; cbn [update_interaction mood_level];
      auto using cap_in_range, floor_in_range.
  - unfold change_personality. by repeat case_match.
Qed.

Lemma run_in_range (st : PState) (calls : list call) :
  in_range (mood_level st) → in_range (mood_level (run st calls)).
Proof.
  revert st. induction calls as [|c calls IH]; intros st Hm; [done|].
  apply IH, step_in_range, Hm.
Qed.

(** Claim C8.  [mood_level] starts at 0.8 and lies in [0.2, 1.0] after
    every sequence of calls of the service: a positive sentiment adds 0.1
    and caps the sum at 1.0, a negative one subtracts 0.05 and floors the
    difference at 0.2, a neutral one leaves it unchanged, and no operation
    takes a level that is within the bounds outside them.  The numbers are
    binary64 floats with their rounding. *)
Theorem mood_level_bounded (p : personality) (calls : list call) :
  mood_level (__init__ p) = 0.8%float ∧
  in_range (mood_level (run (__init__ p) calls)) ∧
  (∀ (st : PState) now um,
     let up := (mood_level st + 0.1)%float in
     let down := (mood_level st - 0.05)%float in
     mood_level (update_interaction now st um POSITIVE)
       = (if (up <? 1)%float then up else 1%float) ∧
     mood_level (update_interaction now st um NEGATIVE)
       = (if (0.2 <? down)%float then down else 0.2%float) ∧
     mood_level (update_interaction now st um NEUTRAL) = mood_level st) ∧
  (∀ (st : PState) c,
     in_range (mood_level st) → in_range (mood_level (step st c))).
Proof.
  split; [done|]. split; [apply run_in_range, initial_in_range|].
  split; [done|]. apply step_in_range.
Qed.

(** A run in which rounding shows: three positive turns reach the cap,
    and the negative turn that follows leaves 0.95. *)
Lemma mood_level_sample_run :
  mood_level (run (__init__ (Member CARING)) Samples.mood_calls) = 0.95%float ∧
  mood_level (run (__init__ (Member CARING))
                [UpdateInteraction Samples.noon "좋아" POSITIVE])
    = 0.9000000000000000222%float.
Proof. split; vm_compute; reflexivity. Qed.

End PersonaFacts.

(* ===================================================================== *)
(** * Messages, histories and memory entries as dictionaries *)
(* ===================================================================== *)

Module ConversationFacts.
Import Py Entity Conversation PyFacts.

Lemma mapM_Ok {A B} (f : A → res B) (l : list A) (k : list B) :
  Forall2 (λ x y, f x = Ok y) l k → mapM f l = Ok k.
Proof.
  induction 1 as [|x y l k Hx _ IH]; [done|].
  cbn [mapM]. rewrite Hx. cbn [mbind res_bind]. rewrite IH. done.
Qed.

Lemma mapM_Ok_inv {A B} (f : A → res B) (l : list A) (k : list B) :
  mapM f l = Ok k → Forall2 (λ x y, f x = Ok y) l k.
Proof.
  revert k. induction l as [|x l IH]; intros k Hk; cbn [mapM] in Hk.
  - injection Hk as <-. constructor.
  - destruct (f x) as [y|e] eqn:Hx; [|done]. cbn [mbind res_bind] in Hk.
    destruct (mapM f l) as [k'|e]; [|done]. injection Hk as <-.
    constructor; auto.
Qed.

Lemma mapM_fmap_Ok {A B} (f : A → res B) (g : B → A) (k : list B) :
  Forall (λ y, f (g y) = Ok y) k → mapM f (g <$> k) = Ok k.
Proof.
  intros Hk. apply mapM_Ok. induction Hk; constructor; auto.
Qed.

Lemma role_of_value_value (r : MessageRole) :
  role_of_value (VStr (role_value r)) = Ok r.
Proof. by destruct r. Qed.

(** Reading a conversation entry back from its dictionary. *)
Lemma entry_round_trip (e : ConversationEntry) :
  datetime_ok (timestamp e) = true → from_dict (to_dict e) = Ok e.
Proof.
  intros Hok.
  unfold from_dict, subscript, getitem, dict_get, to_dict.
  repeat (rewrite ?lookup_insert_eq; rewrite ?lookup_insert_ne by done).
  cbn [mbind res_bind as_str as_dict default].
  rewrite fromisoformat_isoformat by done.
  destruct e as [um ar [] ts md]; done.
Qed.

(** [Message.from_dict(m.to_dict())] succeeds and gives back [m], for
    every message [m]: role, content, timestamp and metadata. *)
Theorem message_from_dict_to_dict (m : Message) :
  datetime_ok (m_timestamp m) = true →
  Message.from_dict (Message.to_dict m) = Ok m.
Proof.
  intros Hok.
  unfold Message.from_dict, Message.to_dict, subscript, getitem, dict_get.
  repeat (rewrite ?lookup_insert_eq; rewrite ?lookup_insert_ne by done).
  cbn [mbind res_bind as_str as_dict default].
  rewrite role_of_value_value, fromisoformat_isoformat by done.
  by destruct m.
Qed.

Lemma message_from_dict_to_dict_witness :
  datetime_ok (m_timestamp MoreSamples.sample_message) = true ∧
  Message.from_dict (Message.to_dict MoreSamples.sample_message)
    = Ok MoreSamples.sample_message.
Proof.
  split; [reflexivity|].
  apply (message_from_dict_to_dict MoreSamples.sample_message). reflexivity.
Defined.





(** ** The bound on the history *)

Lemma add_entry_max (h : ConversationHistory) (e : ConversationEntry) :
  max_entries (ConversationHistory.add_entry h e) = max_entries h.
Proof. unfold ConversationHistory.add_entry. by case_match. Qed.

Lemma add_entry_entries (h : ConversationHistory) (e : ConversationEntry) :
  (1 ≤ max_entries h)%Z →
  let grown := hist_entries h ++ [e] in
  hist_entries (ConversationHistory.add_entry h e) =
  drop (length grown - Z.to_nat (max_entries h)) grown.
Proof.
  intros Hmax grown. unfold ConversationHistory.add_entry. fold grown.
  destruct (Z.gtb_spec (Z.of_nat (length grown)) (max_entries h)) as [Hgt|Hle];
    cbn [hist_entries].
  - by rewrite slice_from_neg by lia.
  - by replace (length grown - _) with 0 by lia.
Qed.

Lemma drop_drop_window {A} (l1 l2 : list A) (n : nat) :
  drop (length (drop (length l1 - n) l1 ++ l2) - n) (drop (length l1 - n) l1 ++ l2)
  = drop (length (l1 ++ l2) - n) (l1 ++ l2).
Proof.
  rewrite !length_app, length_drop.
  destruct (decide (length l1 ≤ n)) as [Hle|Hgt].
  - replace (length l1 - n) with 0 by lia. cbn [drop]. f_equal. lia.
  - rewrite <- (drop_app_le l1 l2 (length l1 - n)) by lia.
    rewrite drop_drop. f_equal. lia.
Qed.

(** Whatever sequence of entries is added to a history whose
    [max_entries] is at least 1, the history holds exactly the newest
    [max_entries] of all the entries it was given, oldest first; so it
    never holds more than [max_entries], and the entry added last is its
    last. *)
Theorem add_entry_keeps_newest (h : ConversationHistory) (es : list ConversationEntry) :
  (1 ≤ max_entries h)%Z →
  let bound := Z.to_nat (max_entries h) in
  let all := hist_entries h ++ es in
  let h' := foldl ConversationHistory.add_entry h es in
  max_entries h' = max_entries h ∧
  (es ≠ [] ∨ length (hist_entries h) ≤ bound →
   hist_entries h' = drop (length all - bound) all ∧
   length (hist_entries h') = length all `min` bound) ∧
  (es ≠ [] → last (hist_entries h') = last es).
Proof.
  intros Hmax bound all h'.
  assert (Hgen : ∀ es h, (1 ≤ max_entries h)%Z →
            let h' := foldl ConversationHistory.add_entry h es in
            max_entries h' = max_entries h ∧
            (es ≠ [] ∨ length (hist_entries h) ≤ Z.to_nat (max_entries h) →
             hist_entries h' =
             drop (length (hist_entries h ++ es) - Z.to_nat (max_entries h))
                  (hist_entries h ++ es))).
  { clear. induction es as [|e es IH]; intros h Hmax; cbn [foldl].
    - split; [done|]. intros [?|Hle]; [done|]. rewrite app_nil_r.
      by replace (_ - _) with 0 by lia.
    - destruct (IH (ConversationHistory.add_entry h e)) as [IH1 IH2];
        [by rewrite add_entry_max|].
      rewrite add_entry_max in IH1, IH2. split; [done|]. intros _.
      rewrite IH2.
      + rewrite add_entry_entries by done. cbn zeta.
        rewrite drop_drop_window. by rewrite <- !app_assoc.
      + right. rewrite add_entry_entries by done. cbn zeta.
        rewrite length_drop, length_app. cbn [length]. lia. }
  destruct (Hgen es h Hmax) as [H1 H2]. fold h' in H1, H2.
  split; [done|]. split.
  - intros Hc. rewrite (H2 Hc). fold all bound. split; [done|].
    rewrite length_drop. lia.
  - intros Hes. rewrite H2 by (by left). fold all bound.
    destruct (exists_last Hes) as (es' & e & ->). subst all.
    rewrite app_assoc, drop_app_le, !last_snoc; [done|].
    rewrite !length_app. cbn [length]. lia.
Qed.

Lemma add_entry_keeps_newest_witness :
  (1 ≤ max_entries MoreSamples.short_history)%Z ∧
  let h' := foldl ConversationHistory.add_entry MoreSamples.short_history
              [Samples.sample_entry; Samples.sample_entry] in
  length (hist_entries h') = 2.
Proof.
  split; [done|].
  pose proof (add_entry_keeps_newest MoreSamples.short_history
                [Samples.sample_entry; Samples.sample_entry] ltac:(done))
    as (_ & H2 & _).
  destruct H2 as [_ H2]; [by left|]. exact H2.
Defined.

(** With [max_entries = 0] the history is never cut: [entries[-0:]] is
    the whole list, so every entry ever added is kept. *)
Theorem add_entry_zero_keeps_all (h : ConversationHistory) (es : list ConversationEntry) :
  max_entries h = 0%Z →
  hist_entries (foldl ConversationHistory.add_entry h es) = hist_entries h ++ es.
Proof.
  revert h. induction es as [|e es IH]; intros h Hz; cbn [foldl].
  - by rewrite app_nil_r.
  - rewrite IH by (by rewrite add_entry_max).
    unfold ConversationHistory.add_entry. rewrite Hz.
    case_match; cbn [hist_entries Z.opp];
      rewrite ?slice_from_zero; by rewrite <- app_assoc.
Qed.

Lemma add_entry_zero_keeps_all_witness :
  max_entries MoreSamples.unbounded_history = 0%Z ∧
  length (hist_entries (foldl ConversationHistory.add_entry MoreSamples.unbounded_history
                          [Samples.sample_entry; Samples.sample_entry;
                           Samples.sample_entry])) = 3.
Proof.
  split; [done|].
  by rewrite (add_entry_zero_keeps_all MoreSamples.unbounded_history
                [Samples.sample_entry; Samples.sample_entry; Samples.sample_entry]
                eq_refl).
Defined.

(** ** Recent entries *)

Lemma recent_window {A} (l : list A) (limit : Z) :
  match l with [] => [] | x :: r => slice_from (- limit) (x :: r) end =
  if (0 <? limit)%Z then drop (length l - Z.to_nat limit) l
  else drop (Z.to_nat (- limit)) l.
Proof.
  destruct (Z.ltb_spec 0 limit) as [Hpos|Hneg].
  - destruct l as [|x l]; [done|]. by rewrite slice_from_neg by done.
  - destruct l as [|x l]; [by rewrite drop_nil|].
    unfold slice_from, clamp_index.
    destruct (Z.ltb_spec (- limit) 0) as [|_]; [lia|].
    destruct (decide (- limit ≤ Z.of_nat (length (x :: l)))%Z) as [Hle|Hgt].
    + by rewrite Z.min_l by done.
    + rewrite Z.min_r, Nat2Z.id by lia. rewrite !drop_ge; [done| |done]. lia.
Qed.

(** [get_recent_entries(limit)] of a history and
    [get_conversation_history(limit)] of the memory service are the same
    slice [l[-limit:]] of their list [l]: for [limit >= 1] its last
    [min(len(l), limit)] entries; for [limit = 0] not the empty list but
    all of [l]; for a negative limit, [l] without its first [-limit]
    entries. *)
Theorem recent_entries_limit (st : MemoryService.MemState) (mx limit : Z) :
  let l := MemoryService.session_memories st in
  let recent := ConversationHistory.get_recent_entries (mk_history l mx) limit in
  MemoryService.get_conversation_history st limit = recent ∧
  ((1 ≤ limit)%Z → recent = drop (length l - Z.to_nat limit) l ∧
                   length recent = length l `min` Z.to_nat limit) ∧
  (limit = 0%Z → recent = l) ∧
  ((limit < 0)%Z → recent = drop (Z.to_nat (- limit)) l).
Proof.
  intros l recent. subst recent.
  unfold MemoryService.get_conversation_history,
    ConversationHistory.get_recent_entries.
  fold l. cbn [hist_entries]. rewrite recent_window.
  split; [done|]. repeat split.
  - destruct (Z.ltb_spec 0 limit); [done|lia].
  - destruct (Z.ltb_spec 0 limit); [|lia]. rewrite length_drop. lia.
  - intros ->. done.
  - intros Hneg. destruct (Z.ltb_spec 0 limit); [lia|done].
Qed.

(** The message list [get_messages_for_api] hands out is made of the
    recent entries in order, each as a user message followed by an
    assistant message; with the default limit of 10 it is exactly what
    [_build_messages] of the AI service puts between the system prompt
    and the current user message. *)
Theorem get_messages_for_api_spec (h : ConversationHistory) (limit : Z) :
  let recent := ConversationHistory.get_recent_entries h limit in
  let msgs := ConversationHistory.get_messages_for_api h limit in
  msgs = recent ≫= Vocabulary.turn ∧
  length msgs = 2 * length recent ∧
  (∀ i e, recent !! i = Some e →
     msgs !! (2 * i) = Some (AIConversationService.Msg "user" (user_message e)) ∧
     msgs !! (2 * i + 1)
       = Some (AIConversationService.Msg "assistant" (assistant_response e))) ∧
  (limit = 10%Z → ∀ sp um,
     AIConversationService._build_messages sp (Some (hist_entries h)) um
     = AIConversationService.Msg "system" sp :: msgs
         ++ [AIConversationService.Msg "user" um]).
Proof.
  intros recent msgs.
  assert (Hm : msgs = recent ≫= Vocabulary.turn).
  { subst msgs. unfold ConversationHistory.get_messages_for_api.
    by rewrite AIFacts.foldl_append_turn. }
  rewrite Hm. repeat split.
  - apply AIFacts.length_bind_turn.
  - by apply AIFacts.lookup_bind_turn.
  - by apply AIFacts.lookup_bind_turn.
  - intros -> sp um. rewrite AIFacts.build_messages_window.
    subst recent. unfold ConversationHistory.get_recent_entries.
    rewrite recent_window. done.
Qed.

(** ** Histories as dictionaries *)

(** [ConversationHistory.from_dict(h.to_dict())] succeeds and gives back
    [h]: the same entries in the same order and the same [max_entries]. *)
Theorem history_from_dict_to_dict (h : ConversationHistory) :
  Forall (λ e, datetime_ok (timestamp e) = true) (hist_entries h) →
  ConversationHistory.from_dict (ConversationHistory.to_dict h) = Ok h.
Proof.
  intros Hok.
  unfold ConversationHistory.from_dict, ConversationHistory.to_dict, dict_get.
  repeat (rewrite ?lookup_insert_eq; rewrite ?lookup_insert_ne by done).
  cbn [from_option id MemoryService.iterate mbind res_bind].
  rewrite mapM_fmap_Ok.
  - by destruct h.
  - eapply Forall_impl; [exact Hok|]. intros e He. cbn.
    by apply entry_round_trip.
Qed.

Lemma history_from_dict_to_dict_witness :
  Forall (λ e, datetime_ok (timestamp e) = true)
         (hist_entries MoreSamples.short_history) ∧
  ConversationHistory.from_dict (ConversationHistory.to_dict MoreSamples.short_history)
    = Ok MoreSamples.short_history.
Proof.
  assert (H : Forall (λ e, datetime_ok (timestamp e) = true)
                     (hist_entries MoreSamples.short_history))
    by (repeat constructor).
  split; [exact H|].
  exact (history_from_dict_to_dict MoreSamples.short_history H).
Defined.

(** ** Memory entries as dictionaries *)

Lemma memory_type_of_value_value (t : MemoryType) :
  Memory.memory_type_of_value (VStr (Memory.memory_type_value t)) = Ok t.
Proof. by destruct t. Qed.

(** [MemoryEntry.from_dict(e.to_dict())] succeeds and gives back [e],
    whatever the clock reads; and unlike a conversation entry a memory
    entry can be read from the empty dictionary, which gives the entry of
    the defaults, created at the time of the call. *)
Theorem memory_entry_from_dict_to_dict (now : datetime) (e : MemoryEntry) :
  datetime_ok (created_at e) = true →
  datetime_ok now = true →
  Memory.MemoryEntry.from_dict now (Memory.MemoryEntry.to_dict e) = Ok e ∧
  Memory.MemoryEntry.from_dict now ∅ =
    Ok (mk_memory VNone (VStr "") CONVERSATION "default_user" (VFloat 0) now (VDict ∅)).
Proof.
  intros Hok Hnow. split.
  - unfold Memory.MemoryEntry.from_dict, Memory.MemoryEntry.to_dict, dict_get.
    repeat (rewrite ?lookup_insert_eq; rewrite ?lookup_insert_ne by done).
    cbn [from_option id mbind res_bind as_str].
    rewrite memory_type_of_value_value. cbn [from_option id mbind res_bind as_str].
    rewrite fromisoformat_isoformat by done.
    by destruct e.
  - unfold Memory.MemoryEntry.from_dict, dict_get. rewrite !lookup_empty.
    cbn [from_option id mbind res_bind as_str Memory.memory_type_of_value String.eqb
         Ascii.eqb Bool.eqb].
    rewrite fromisoformat_isoformat by done. done.
Qed.

Lemma memory_entry_from_dict_to_dict_witness :
  datetime_ok (created_at MoreSamples.sample_memory) = true ∧
  datetime_ok Samples.noon = true ∧
  Memory.MemoryEntry.from_dict Samples.noon
    (Memory.MemoryEntry.to_dict MoreSamples.sample_memory)
    = Ok MoreSamples.sample_memory.
Proof.
  split; [reflexivity|]. split; [reflexivity|].
  apply (memory_entry_from_dict_to_dict Samples.noon MoreSamples.sample_memory);
    reflexivity.
Defined.

End ConversationFacts.

(* ===================================================================== *)
(** * User profiles *)
(* ===================================================================== *)

Module ProfileFacts.
Import Py Entity PyBuiltins Profile PyFacts ProfileVocabulary.

Lemma personality_of_value_value (p : PersonalityType) :
  personality_of_value (VStr (personality_value p)) = Ok p.
Proof. by destruct p. Qed.

Lemma personality_of_value_Ok (v : pyval) (p : PersonalityType) :
  personality_of_value v = Ok p → v = VStr (personality_value p).
Proof.
  destruct v as [| | | |t| |]; cbn; try done.
  destruct (String.eqb_spec t "caring") as [->|_]; [by intros [= <-]|].
  destruct (String.eqb_spec t "playful") as [->|_]; [by intros [= <-]|].
  destruct (String.eqb_spec t "intellectual") as [->|_]; [by intros [= <-]|].
  destruct (String.eqb_spec t "romantic") as [->|_]; [by intros [= <-]|done].
Qed.

Lemma preference_round_trip (now : datetime) (q : UserPreference) :
  preference_dates_ok q →
  UserPreference.from_dict now (UserPreference.to_dict q) = Ok q.
Proof.
  intros [Hc Hu].
  unfold UserPreference.from_dict, UserPreference.to_dict, subscript, getitem, dict_get.
  repeat (rewrite ?lookup_insert_eq; rewrite ?lookup_insert_ne by done).
  cbn [from_option id mbind res_bind as_str as_float].
  rewrite !fromisoformat_isoformat by done.
  by destruct q.
Qed.

Lemma stats_round_trip (now : datetime) (s : Profile.UserStats) :
  datetime_ok (last_active s) = true →
  UserStats.from_dict now (UserStats.to_dict s) = Ok s.
Proof.
  intros Hok.
  unfold UserStats.from_dict, UserStats.to_dict, subscript, getitem, dict_get.
  repeat (rewrite ?lookup_insert_eq; rewrite ?lookup_insert_ne by done).
  cbn [from_option id].
  assert (Hfp :
    (if truthy (match favorite_personality s with
                | Some p => VStr (personality_value p)
                | None => VNone
                end)
     then Some <$> (Ok (match favorite_personality s with
                        | Some p => VStr (personality_value p)
                        | None => VNone
                        end) ≫= personality_of_value)
     else mret None) = Ok (favorite_personality s)).
  { destruct (favorite_personality s) as [p|]; [|done].
    cbn [mbind res_bind]. rewrite personality_of_value_value. by destruct p. }
  rewrite Hfp. cbn [mbind res_bind as_str AIConversationService.as_int as_float
                    as_str_list].
  rewrite fromisoformat_isoformat by done. cbn [mbind res_bind].
  rewrite ConversationFacts.mapM_fmap_Ok by (by apply Forall_true).
  by destruct s.
Qed.

(** [UserProfile.from_dict(p.to_dict())] succeeds and gives back [p] with
    all its preferences and statistics, whatever the clock reads during
    the call: what is saved to the profile file is what is loaded. *)
Theorem profile_from_dict_to_dict (now : datetime) (p : Profile.UserProfile) :
  profile_dates_ok p →
  UserProfile.from_dict now (UserProfile.to_dict p) = Ok p.
Proof.
  intros (Hc & Hu & Hl & Hp).
  unfold UserProfile.from_dict, UserProfile.to_dict, subscript, getitem, dict_get.
  repeat (rewrite ?lookup_insert_eq; rewrite ?lookup_insert_ne by done).
  cbn [from_option id items mbind res_bind].
  rewrite map_to_list_fmap.
  rewrite (ConversationFacts.mapM_fmap_Ok _ _ (map_to_list (preferences p))).
  - cbn [mbind res_bind]. rewrite personality_of_value_value.
    cbn [mbind res_bind UserProfile.stats_from_value].
    rewrite stats_round_trip by done. cbn [mbind res_bind as_str].
    rewrite !fromisoformat_isoformat by done.
    cbn [mbind res_bind as_str as_dict mret res_ret].
    rewrite list_to_map_to_list. by destruct p.
  - apply Forall_forall. intros [k q] Hkq.
    apply elem_of_map_to_list in Hkq.
    cbn [prod_map fst snd id UserProfile.preference_from_value].
    rewrite preference_round_trip by (by apply (Hp k)). done.
Qed.

Lemma profile_from_dict_to_dict_witness :
  profile_dates_ok MoreSamples.sample_profile ∧
  UserProfile.from_dict Samples.noon (UserProfile.to_dict MoreSamples.sample_profile)
    = Ok MoreSamples.sample_profile.
Proof.
  assert (H : profile_dates_ok MoreSamples.sample_profile).
  { split; [reflexivity|]. split; [reflexivity|]. split; [reflexivity|].
    intros k q Hq.
    unfold MoreSamples.sample_profile, add_preference in Hq.
    cbn [new_profile preferences] in Hq. rewrite lookup_empty in Hq.
    cbn [preferences] in Hq. apply lookup_insert_Some in Hq as [[_ <-]|[_ Hq]].
    - by split.
    - by rewrite lookup_empty in Hq. }
  split; [exact H|].
  exact (profile_from_dict_to_dict Samples.noon MoreSamples.sample_profile H).
Defined.

(** ** [add_preference] *)

Lemma add_preference_lookup (now : nat → datetime) (p : Profile.UserProfile)
    (c v : string) (conf : float) (k : string) :
  preferences (add_preference now p c v conf) !! k =
  if decide (k = preference_key c v) then
    Some (match preferences p !! k with
          | Some old => mk_pref (category old) (value old)
                                (py_max (confidence old) conf)
                                (pref_created_at old) (now 0)
          | None => mk_pref c v conf (now 0) (now 1)
          end)
  else preferences p !! k.
Proof.
  unfold add_preference. fold (preference_key c v).
  destruct (decide (k = preference_key c v)) as [->|Hne].
  - destruct (preferences p !! preference_key c v) as [old|];
      cbn [preferences]; by rewrite lookup_insert_eq.
  - destruct (preferences p !! preference_key c v) as [old|];
      cbn [preferences]; by rewrite lookup_insert_ne.
Qed.

Lemma add_all_snoc (p : Profile.UserProfile) (calls : list addition) (a : addition) :
  add_all p (calls ++ [a]) =
  add_preference (add_clock a) (add_all p calls) (add_category a) (add_value a)
                 (add_confidence a).
Proof. unfold add_all. by rewrite foldl_app. Qed.

(** In a profile that started empty and was filled by [add_preference],
    every preference is stored under the key made of its own category and
    value, there are at most as many preferences as there were calls, and
    a preference, once stored, never loses its category, its value or its
    creation date: a later call with the same key only raises its
    confidence (to the larger of the two) and moves [updated_at]. *)
Theorem add_preference_keyed (now : nat → datetime) (uid : string)
    (pt : PersonalityType) (calls : list addition) (a : addition) :
  let p := add_all (new_profile now uid pt) calls in
  let p' := add_all (new_profile now uid pt) (calls ++ [a]) in
  map_Forall (λ k q, k = preference_key (category q) (value q)) (preferences p) ∧
  size (preferences p) ≤ length calls ∧
  (∀ k old, preferences p !! k = Some old →
     ∃ q, preferences p' !! k = Some q ∧
          category q = category old ∧ value q = value old ∧
          pref_created_at q = pref_created_at old ∧
          (confidence q = confidence old ∨
           (confidence q = add_confidence a ∧
            (confidence old <? add_confidence a)%float = true))).
Proof.
  intros p p'. repeat split.
  - subst p. clear p' a. induction calls as [|b calls IH] using rev_ind.
    + apply map_Forall_empty.
    + rewrite add_all_snoc. intros k q. rewrite add_preference_lookup.
      destruct (decide _) as [->|Hne]; [|by apply IH].
      destruct (preferences _ !! _) as [old|] eqn:Hold.
      * intros [= <-]. cbn [category value]. by apply IH in Hold.
      * by intros [= <-].
  - subst p. clear p' a. induction calls as [|b calls IH] using rev_ind.
    + done.
    + rewrite add_all_snoc, length_app. cbn [length].
      unfold add_preference.
      destruct (preferences _ !! _) as [old|] eqn:Hold; cbn [preferences].
      * rewrite map_size_insert_Some by done. lia.
      * rewrite map_size_insert_None by done. lia.
  - intros k old Hold. subst p'. rewrite add_all_snoc. fold p.
    rewrite add_preference_lookup.
    destruct (decide _) as [->|Hne]; [|by eauto 10].
    rewrite Hold. eexists. split; [done|]. cbn [category value pref_created_at confidence].
    repeat split. unfold py_max. destruct (_ <? _)%float eqn:Hlt; auto.
Qed.

(** A preference that is new to the profile shows up in the listing of
    its category and in no other: after [add_preference(c, v)] with a key
    that was free, [get_preferences_by_category(c')] holds what it held
    before and, for [c' = c], the new preference, once. *)
Theorem add_preference_then_query (now : nat → datetime) (p : Profile.UserProfile)
    (c v : string) (conf : float) :
  preferences p !! preference_key c v = None →
  let p' := add_preference now p c v conf in
  let fresh := mk_pref c v conf (now 0) (now 1) in
  (∀ c' q, q ∈ get_preferences_by_category p' c' ↔
           (c' = c ∧ q = fresh) ∨ q ∈ get_preferences_by_category p c') ∧
  length (get_preferences_by_category p' c)
    = S (length (get_preferences_by_category p c)) ∧
  (∀ c', c' ≠ c → length (get_preferences_by_category p' c')
                  = length (get_preferences_by_category p c')).
Proof.
  intros Hfree p' fresh.
  assert (Hp' : preferences p' = <[preference_key c v := fresh]> (preferences p)).
  { subst p'. unfold add_preference. fold (preference_key c v). by rewrite Hfree. }
  assert (Hperm : ∀ c', get_preferences_by_category p' c' ≡ₚ
                        filter (λ pref, category pref = c')
                               (fresh :: (map_to_list (preferences p)).*2)).
  { intros c'. unfold get_preferences_by_category. rewrite Hp'.
    by rewrite map_to_list_insert by done. }
  repeat split.
  - rewrite Hperm. rewrite list_elem_of_filter, elem_of_cons.
    unfold get_preferences_by_category. rewrite list_elem_of_filter.
    intros [Hc [->|Hq]]; [left|right]; done.
  - rewrite Hperm. rewrite list_elem_of_filter, elem_of_cons.
    unfold get_preferences_by_category. rewrite list_elem_of_filter.
    intros [[-> ->]|[Hc Hq]]; split; auto.
  - rewrite Hperm. by rewrite filter_cons_True by done.
  - intros c' Hne. rewrite Hperm. by rewrite filter_cons_False by (cbn; congruence).
Qed.

Lemma add_preference_then_query_witness :
  preferences (new_profile MoreSamples.ticking "default_user" CARING)
    !! preference_key "food" "pizza" = None ∧
  length (get_preferences_by_category MoreSamples.sample_profile "food") = 1.
Proof.
  split; [done|].
  pose proof (add_preference_then_query MoreSamples.ticking
                (new_profile MoreSamples.ticking "default_user" CARING)
                "food" "pizza" 1%float eq_refl) as (_ & H & _).
  exact H.
Defined.

End ProfileFacts.

(* ===================================================================== *)
(** * The AI service: preferences, models, set-up *)
(* ===================================================================== *)

Module ProviderFacts.
Import Py Entity AIConversationService AIProviders PyFacts Vocabulary AIVocabulary.

(** ** Folds that fill a dictionary *)

Lemma append_eqb (pre a b : string) :
  String.eqb (pre +:+ a) (pre +:+ b) = String.eqb a b.
Proof.
  induction pre as [|c pre IH]; [done|].
  change (String.eqb (String c (pre +:+ a)) (String c (pre +:+ b)) = String.eqb a b).
  cbn [String.eqb]. by rewrite Ascii.eqb_refl.
Qed.

Lemma str_elem_spec (x : string) (l : list string) : str_elem x l = true ↔ x ∈ l.
Proof.
  unfold str_elem. rewrite existsb_exists. split.
  - intros (y & Hy & ->%String.eqb_eq). by apply list_elem_of_In.
  - intros Hx. exists x. split; [by apply list_elem_of_In|apply String.eqb_refl].
Qed.

Lemma existsb_hit_eqb (hit : string → bool) (x : string) (l : list string) :
  existsb (λ y, hit y && String.eqb x y) l = str_elem x l && hit x.
Proof.
  unfold str_elem. induction l as [|y l IH]; [done|]. cbn [existsb].
  rewrite IH. clear IH. generalize (existsb (String.eqb x) l). intros e.
  destruct (String.eqb_spec x y) as [->|]; destruct e;
    repeat match goal with |- context [hit ?z] => destruct (hit z) end; done.
Qed.

Lemma existsb_none {A} (f : A → bool) (l : list A) :
  (∀ x, f x = false) → existsb f l = false.
Proof. intros Hf. induction l as [|x l IH]; [done|]. cbn. by rewrite Hf, IH. Qed.

Lemma foldl_insert_lookup {V} (pre : string) (hit : string → bool) (val : V)
    (l : list string) (m : gmap string V) (k : string) :
  foldl (λ (acc : gmap string V) x, if hit x then <[pre +:+ x := val]> acc else acc) m l !! k
  = if existsb (λ x, hit x && String.eqb k (pre +:+ x)) l then Some val else m !! k.
Proof.
  revert m. induction l as [|x l IH]; intros m; [done|].
  cbn [foldl existsb]. rewrite IH.
  destruct (existsb _ l); [by rewrite orb_true_r|]. rewrite orb_false_r.
  destruct (hit x); [|done]. cbn [andb].
  destruct (String.eqb_spec k (pre +:+ x)) as [->|Hne].
  - by rewrite lookup_insert_eq.
  - by rewrite lookup_insert_ne.
Qed.

Lemma foldl_keep {A B} (c : B → bool) (m : A) (l : list B) :
  foldl (λ (acc : A) x, if c x then acc else acc) m l = m.
Proof. induction l as [|x l IH]; [done|]. cbn [foldl]. by destruct (c x). Qed.

Lemma foldl_hints_lookup (hit : string → bool) (key : string)
    (l : list (string * string)) (m : gmap string string) :
  foldl (λ (acc : gmap string string) '(h, v), if hit h then <[key := v]> acc else acc) m l
    !! key
  = match last (filter (λ hp, hit hp.1 = true) l) with
    | Some hp => Some hp.2
    | None => m !! key
    end.
Proof.
  induction l as [|[h v] l IH] using rev_ind; [done|].
  rewrite foldl_app, filter_app. cbn [foldl].
  destruct (hit h) eqn:Hh.
  - rewrite filter_cons_True by done. rewrite filter_nil, last_snoc.
    by rewrite lookup_insert_eq.
  - rewrite filter_cons_False by (cbn; congruence). rewrite filter_nil, app_nil_r.
    apply IH.
Qed.

Lemma foldl_hints_lookup_ne (hit : string → bool) (key : string)
    (l : list (string * string)) (m : gmap string string) (k : string) :
  k ≠ key →
  foldl (λ (acc : gmap string string) '(h, v), if hit h then <[key := v]> acc else acc) m l
    !! k = m !! k.
Proof.
  intros Hne. revert m. induction l as [|[h v] l IH]; intros m; [done|].
  cbn [foldl]. rewrite IH. destruct (hit h); [|done]. by rewrite lookup_insert_ne.
Qed.

(** ** [extract_preferences] *)

Lemma key_not_food (x : string) : "선호_성격" ≠ "음식_" +:+ x.
Proof. intros Hx. vm_compute in Hx. discriminate Hx. Qed.

Lemma key_not_activity (x : string) : "선호_성격" ≠ "활동_" +:+ x.
Proof. intros Hx. vm_compute in Hx. discriminate Hx. Qed.

Lemma food_not_activity (x y : string) : "음식_" +:+ x ≠ "활동_" +:+ y.
Proof. intros Hx. vm_compute in Hx. discriminate Hx. Qed.

Section WithRuntime.
Context `{Runtime}.

(** The dictionary after the food part of [extract_preferences]. *)
Lemma food_part_lookup (msg k : string) :
  (if any_in ["좋아"; "싫어"; "선호"] msg then
     if any_in foods msg then
       foldl (λ (preferences : gmap string string) food,
                if str_in food msg then
                  if str_in "좋아" msg
                  then <["음식_" +:+ food := "좋아함"]> preferences
                  else if str_in "싫어" msg
                  then <["음식_" +:+ food := "싫어함"]> preferences
                  else preferences
                else preferences) ∅ foods
     else ∅
   else ∅) !! k
  = if existsb (λ x, str_in x msg && String.eqb k ("음식_" +:+ x)) foods then
      if str_in "좋아" msg then Some "좋아함"
      else if str_in "싫어" msg then Some "싫어함" else None
    else None.
Proof.
  assert (Hany : existsb (λ x, str_in x msg && String.eqb k ("음식_" +:+ x)) foods = true →
                 any_in foods msg = true).
  { unfold any_in. rewrite !existsb_exists. intros (x & Hx & Hhit).
    exists x. split; [done|]. by apply andb_true_iff in Hhit as [-> _]. }
  unfold any_in at 1. cbn [existsb]. rewrite orb_false_r.
  destruct (str_in "좋아" msg) eqn:HL; cbn [orb].
  - destruct (any_in foods msg).
    + rewrite (foldl_insert_lookup "음식_" (λ x, str_in x msg) "좋아함").
      by rewrite lookup_empty.
    + rewrite lookup_empty. destruct (existsb _ foods); [|done].
      by specialize (Hany eq_refl).
  - destruct (str_in "싫어" msg) eqn:HD; cbn [orb].
    + destruct (any_in foods msg).
      * rewrite (foldl_insert_lookup "음식_" (λ x, str_in x msg) "싫어함").
        by rewrite lookup_empty.
      * rewrite lookup_empty. destruct (existsb _ foods); [|done].
        by specialize (Hany eq_refl).
    + assert (Hkeep : ∀ b : bool,
        (if b then
           if any_in foods msg then
             foldl (λ (preferences : gmap string string) food,
                      if str_in food msg then preferences else preferences) ∅ foods
           else ∅
         else ∅) !! k = None).
      { intros b. rewrite foldl_keep. by destruct b, (any_in foods msg). }
      rewrite Hkeep. by destruct (existsb _ foods).
Qed.

Lemma extract_preferences_lookup (um k : string) :
  let msg := str_lower um in
  extract_preferences um !! k =
  if String.eqb k "선호_성격" then
    snd <$> last (filter (λ hp, str_in hp.1 msg = true) personality_hints)
  else if any_in ["좋아"; "취미"; "관심"] msg
          && existsb (λ x, str_in x msg && String.eqb k ("활동_" +:+ x)) activities
  then Some "관심있음"
  else if existsb (λ x, str_in x msg && String.eqb k ("음식_" +:+ x)) foods then
    if str_in "좋아" msg then Some "좋아함"
    else if str_in "싫어" msg then Some "싫어함" else None
  else None.
Proof.
  intros msg. unfold extract_preferences. fold msg. cbn zeta.
  set (food_part := if any_in ["좋아"; "싫어"; "선호"] msg then _ else _).
  assert (Hfood : ∀ k, food_part !! k =
            if existsb (λ x, str_in x msg && String.eqb k ("음식_" +:+ x)) foods then
              if str_in "좋아" msg then Some "좋아함"
              else if str_in "싫어" msg then Some "싫어함" else None
            else None) by (intros; apply food_part_lookup).
  clearbody food_part.
  set (act_part := if any_in ["좋아"; "취미"; "관심"] msg then _ else _).
  assert (Hact : ∀ k, act_part !! k =
            if any_in ["좋아"; "취미"; "관심"] msg
               && existsb (λ x, str_in x msg && String.eqb k ("활동_" +:+ x)) activities
            then Some "관심있음" else food_part !! k).
  { intros k'. subst act_part. destruct (any_in ["좋아"; "취미"; "관심"] msg); [|done].
    cbn [andb].
    by rewrite (foldl_insert_lookup "활동_" (λ x, str_in x msg) "관심있음"). }
  clearbody act_part.
  destruct (String.eqb_spec k "선호_성격") as [->|Hne].
  - rewrite (foldl_hints_lookup (λ h, str_in h msg)).
    destruct (last _) as [hp|]; [done|]. cbn [fmap option_fmap option_map].
    rewrite Hact, Hfood.
    rewrite !existsb_none; [by rewrite andb_false_r| |].
    + intros x. apply andb_false_intro2, String.eqb_neq, key_not_food.
    + intros x. apply andb_false_intro2, String.eqb_neq, key_not_activity.
  - rewrite (foldl_hints_lookup_ne (λ h, str_in h msg)) by done.
    by rewrite Hact, Hfood.
Qed.

Lemma hint_values (hp : string * string) :
  hp ∈ personality_hints → ∃ p, hp.2 = personality_value p.
Proof.
  intros Hhp. apply list_elem_of_In in Hhp. cbn in Hhp.
  repeat (destruct Hhp as [<-|Hhp];
          [first [by exists PLAYFUL | by exists CARING
                 | by exists INTELLECTUAL | by exists ROMANTIC]|]).
  done.
Qed.

(** The preferred personality [extract_preferences] reports is decided by
    the last entry of the hint table, in the order the table is written,
    whose keyword occurs in the lowercased message, so that a later entry
    overrides an earlier one; without such a keyword the key is absent.
    Whatever it reports is the value of a member of [PersonalityType]. *)
Theorem extract_preferences_personality (um : string) :
  let hits := filter (λ hp, str_in hp.1 (str_lower um) = true) personality_hints in
  extract_preferences um !! "선호_성격" = snd <$> last hits ∧
  (hits = [] → extract_preferences um !! "선호_성격" = None) ∧
  (∀ v, extract_preferences um !! "선호_성격" = Some v →
        ∃ p, v = personality_value p ∧
             Profile.personality_of_value (VStr v) = Ok p).
Proof.
  intros hits.
  assert (Hl : extract_preferences um !! "선호_성격" = snd <$> last hits).
  { by rewrite extract_preferences_lookup. }
  split; [done|]. split.
  - intros Hnil. by rewrite Hl, Hnil.
  - intros v. rewrite Hl. destruct (last hits) as [hp|] eqn:Hlast; [|done].
    intros [= <-].
    assert (Hin : hp ∈ personality_hints).
    { apply last_Some in Hlast as [l' Hl'].
      assert (Hhp : hp ∈ hits) by (rewrite Hl'; set_solver).
      by apply list_elem_of_filter in Hhp as [_ ?]. }
    destruct (hint_values hp Hin) as [p Hp]. exists p. split; [done|].
    rewrite Hp. apply ProfileFacts.personality_of_value_value.
Qed.

(** The food and activity entries of [extract_preferences].  A listed food
    that occurs in the lowercased message is recorded as liked whenever
    "좋아" occurs anywhere in the message, as disliked only when "싫어" occurs
    and "좋아" does not, and not at all when only "선호" occurs; a listed
    activity that occurs is recorded exactly when one of "좋아", "취미" and
    "관심" occurs.  The dictionary has no other keys than these and the
    personality key. *)
Theorem extract_preferences_food_activity (um : string) :
  let msg := str_lower um in
  let prefs := extract_preferences um in
  (∀ f, prefs !! ("음식_" +:+ f) =
        if str_elem f foods && str_in f msg then
          if str_in "좋아" msg then Some "좋아함"
          else if str_in "싫어" msg then Some "싫어함" else None
        else None) ∧
  (∀ a, prefs !! ("활동_" +:+ a) =
        if str_elem a activities && str_in a msg
           && any_in ["좋아"; "취미"; "관심"] msg
        then Some "관심있음" else None) ∧
  (∀ k, is_Some (prefs !! k) →
        k = "선호_성격" ∨ (∃ f, f ∈ foods ∧ k = "음식_" +:+ f) ∨
        (∃ a, a ∈ activities ∧ k = "활동_" +:+ a)).
Proof.
  intros msg prefs. subst prefs. repeat split.
  - intros f. rewrite extract_preferences_lookup. fold msg.
    destruct (String.eqb_spec ("음식_" +:+ f) "선호_성격") as [Heq|_];
      [by destruct (key_not_food f)|].
    rewrite (existsb_none (λ x, _ && String.eqb _ ("활동_" +:+ x)));
      [|intros x; apply andb_false_intro2, String.eqb_neq, food_not_activity].
    rewrite andb_false_r.
    replace (existsb _ foods) with (str_elem f foods && str_in f msg); [done|].
    (* the prefix cancels by computation *)
    by rewrite <- (existsb_hit_eqb (λ x, str_in x msg)).
  - intros a. rewrite extract_preferences_lookup. fold msg.
    destruct (String.eqb_spec ("활동_" +:+ a) "선호_성격") as [Heq|_];
      [by destruct (key_not_activity a)|].
    replace (existsb _ activities) with (str_elem a activities && str_in a msg).
    + rewrite (existsb_none (λ x, _ && String.eqb _ ("음식_" +:+ x))).
      * rewrite (andb_comm (any_in _ _)). by destruct (_ && _).
      * intros x. apply andb_false_intro2, String.eqb_neq.
        intros Hx. by destruct (food_not_activity x a).
    + by rewrite <- (existsb_hit_eqb (λ x, str_in x msg)).
  - intros k. rewrite extract_preferences_lookup. fold msg.
    destruct (String.eqb_spec k "선호_성격") as [->|_]; [by left|].
    intros Hk. right.
    destruct (existsb (λ x, _ && String.eqb k ("활동_" +:+ x)) activities) eqn:Ha.
    + right. apply existsb_exists in Ha as (a & Ha & Hh).
      apply andb_true_iff in Hh as [_ ->%String.eqb_eq].
      exists a. split; [by apply list_elem_of_In|done].
    + rewrite andb_false_r in Hk.
      destruct (existsb (λ x, _ && String.eqb k ("음식_" +:+ x)) foods) eqn:Hf;
        [|by destruct Hk].
      left. apply existsb_exists in Hf as (f & Hf & Hh).
      apply andb_true_iff in Hh as [_ ->%String.eqb_eq].
      exists f. split; [by apply list_elem_of_In|done].
Qed.

(** ** The fallback texts *)

Lemma str_in_app (n a b : string) : str_in n (a +:+ n +:+ b) = true.
Proof. apply str_in_spec. by exists a, b. Qed.

Lemma append_assoc (a b c : string) : (a +:+ b) +:+ c = a +:+ (b +:+ c).
Proof.
  induction a as [|x a IH]; [done|].
  change (String x ((a +:+ b) +:+ c) = String x (a +:+ (b +:+ c))). by rewrite IH.
Qed.

Lemma str_in_prefix (n1 n2 h : string) :
  str_in (n1 +:+ n2) h = true → str_in n1 h = true.
Proof.
  rewrite !str_in_spec. intros (a & b & ->). exists a, (n2 +:+ b).
  by rewrite append_assoc.
Qed.

Lemma str_in_suffix (n1 n2 h : string) :
  str_in (n1 +:+ n2) h = true → str_in n2 h = true.
Proof.
  rewrite !str_in_spec. intros (a & b & ->). exists (a +:+ n1), b.
  by rewrite !append_assoc.
Qed.

(** A message that says goodbye with "안녕히" is greeted instead: the
    lowercased message then contains "안녕", which the keyword scan of
    [_fallback_response] tests first.  The farewell text is returned only
    for a message whose lowercase form contains "bye", and none of
    "안녕", "hello" and "hi". *)
Theorem fallback_farewell_shadowed (w : World) (um : string) :
  (str_in "안녕히" (str_lower um) = true → _fallback_response w um = greeting_text) ∧
  (_fallback_response w um = farewell_text →
     str_in "bye" (str_lower um) = true ∧
     any_in ["안녕"; "hello"; "hi"] (str_lower um) = false).
Proof.
  assert (Hshadow : str_in "안녕히" (str_lower um) = true →
                    any_in ["안녕"; "hello"; "hi"] (str_lower um) = true).
  { intros Hin. unfold any_in. cbn [existsb].
    by rewrite (str_in_prefix "안녕" "히" _ Hin). }
  split.
  - intros Hin. unfold _fallback_response. by rewrite (Hshadow Hin).
  - unfold _fallback_response.
    destruct (any_in ["안녕"; "hello"; "hi"] (str_lower um)) eqn:H1; [done|].
    destruct (any_in ["슬프"; "우울"; "힘들"] (str_lower um)); [done|].
    destruct (any_in ["기쁘"; "행복"; "좋"] (str_lower um)); [done|].
    destruct (any_in ["고마워"; "감사"] (str_lower um)); [done|].
    destruct (any_in ["안녕히"; "bye"; "goodbye"] (str_lower um)) eqn:H5.
    + intros _. split; [|done]. unfold any_in in H5. cbn [existsb] in H5.
      rewrite orb_false_r in H5.
      apply orb_true_iff in H5 as [Hk|H5].
      { by specialize (Hshadow Hk). }
      apply orb_true_iff in H5 as [Hb|Hg]; [done|].
      by apply (str_in_suffix "good" "bye").
    + destruct (_ || _); [done|].
      pose proof (AIFacts.random_choice_elem (random_index w)) as Hel.
      intros Heq. rewrite Heq in Hel.
      apply list_elem_of_In in Hel. cbn in Hel.
      repeat (destruct Hel as [Hel|Hel]; [discriminate Hel|]). done.
Qed.

(** ** The history window *)

Lemma drop_window_idem {A} (h : list A) (n : nat) :
  drop (length (drop (length h - n) h) - n) (drop (length h - n) h)
  = drop (length h - n) h.
Proof. rewrite length_drop. by replace (_ - _ - n) with 0 by lia. Qed.

Lemma ollama_prompt_window (sp : string) (h : list ConversationEntry) (um : string) :
  ollama_prompt sp (Some h) um =
  foldl (λ prompt entry,
           prompt +:+ "Human: " +:+ user_message entry +:+ nl
                  +:+ "Assistant: " +:+ assistant_response entry +:+ nl +:+ nl)
        ("System: " +:+ sp +:+ nl +:+ nl) (drop (length h - 10) h)
    +:+ "Human: " +:+ um +:+ nl +:+ "Assistant:".
Proof.
  unfold ollama_prompt. destruct h as [|x r]; [done|].
  by rewrite (slice_from_neg 10) by lia.
Qed.

(** Only the last ten entries of the conversation history reach a
    provider: [generate_response] returns the same answer and leaves the
    same state when the history is cut to its last ten entries, and an
    empty history is the same as none. *)
Theorem generate_response_recent_history (cfg : Config.AIProviderConfig) (w : World)
    (st : AIState) (um sp : string) (h : list ConversationEntry)
    (temp : option float) (mt : option Z) :
  generate_response cfg w st um sp (Some h) temp mt =
  generate_response cfg w st um sp (Some (drop (length h - 10) h)) temp mt ∧
  generate_response cfg w st um sp (Some []) temp mt =
  generate_response cfg w st um sp None temp mt ∧
  _build_messages sp (Some h) um
    = _build_messages sp (Some (drop (length h - 10) h)) um ∧
  ollama_prompt sp (Some h) um
    = ollama_prompt sp (Some (drop (length h - 10) h)) um.
Proof.
  assert (Hb : _build_messages sp (Some h) um
               = _build_messages sp (Some (drop (length h - 10) h)) um).
  { by rewrite !AIFacts.build_messages_window, drop_window_idem. }
  assert (Ho : ollama_prompt sp (Some h) um
               = ollama_prompt sp (Some (drop (length h - 10) h)) um).
  { by rewrite !ollama_prompt_window, drop_window_idem. }
  repeat split; try done.
  unfold generate_response, provider_call, _generate_openai_response,
    _generate_openrouter_response, _generate_ollama_response.
  by rewrite <- Hb, <- Ho.
Qed.

(** ** What a response changes *)

Lemma provider_call_frame (w : World) (st : AIState) (um sp : string)
    (hist : option (list ConversationEntry)) (t : float) (m : Z)
    (r : res pyval) (st' : AIState) :
  provider_call w st um sp hist t m = Some (r, st') →
  has_openai_client st' = has_openai_client st ∧
  is_initialized st' = is_initialized st ∧
  current_provider st' = current_provider st ∧
  (total_conversations (conversation_stats st')
     = total_conversations (conversation_stats st) ∨
   total_conversations (conversation_stats st')
     = (total_conversations (conversation_stats st) + 1)%Z).
Proof.
  unfold provider_call, _generate_openai_response, _generate_openrouter_response,
    _generate_ollama_response.
  intros Hcall.
  repeat match type of Hcall with
         | context [match ?x with _ => _ end] => destruct x
         end;
    try discriminate; injection Hcall as <- <-; cbn; auto.
Qed.

(** [generate_response] only ever touches the statistics: the provider,
    the initialised flag and the client stay as they were, the number of
    conversations stays or grows by one, and a service that is not
    initialised is left exactly as it was. *)
Theorem generate_response_frame (cfg : Config.AIProviderConfig) (w : World)
    (st : AIState) (um sp : string) (hist : option (list ConversationEntry))
    (temp : option float) (mt : option Z) :
  let st' := (generate_response cfg w st um sp hist temp mt).2 in
  has_openai_client st' = has_openai_client st ∧
  is_initialized st' = is_initialized st ∧
  current_provider st' = current_provider st ∧
  (total_conversations (conversation_stats st')
     = total_conversations (conversation_stats st) ∨
   total_conversations (conversation_stats st')
     = (total_conversations (conversation_stats st) + 1)%Z) ∧
  (is_initialized st = false → st' = st).
Proof.
  intros st'. subst st'. unfold generate_response.
  destruct (is_initialized st) eqn:Hi; cbn [negb]; [|by auto 10].
  destruct (provider_call _ _ _ _ _ _ _) as [[r st']|] eqn:Hcall.
  - apply provider_call_frame in Hcall as (H1 & H2 & H3 & H4).
    rewrite Hi in H2. destruct r; cbn [snd]; by repeat split.
  - cbn [snd]. by auto 10.
Qed.

End WithRuntime.

(** ** Models *)

(** [set_model] against [get_current_model] and [get_available_models].
    With the provider "openai" it accepts exactly the four models
    [get_available_models] lists; with "openrouter" and "ollama" it
    accepts every name, listed or not; with any other provider it
    accepts nothing.  An accepted model is the current model afterwards;
    a refused one changes nothing; the keys and the models of the other
    providers are never touched. *)
Theorem set_model_spec (ms : ModelSettings) (sw : Setup) (st : AIState)
    (model_name : string) :
  let out := set_model ms st model_name in
  let p := current_provider st in
  (out.1 = true ↔
     (p = "openai" ∧ VStr model_name ∈ get_available_models sw st) ∨
     p = "openrouter" ∨ p = "ollama") ∧
  (out.1 = true → get_current_model out.2 st = model_name) ∧
  (out.1 = false → out.2 = ms) ∧
  openai_api_key out.2 = openai_api_key ms ∧
  openrouter_api_key out.2 = openrouter_api_key ms ∧
  (∀ st', current_provider st' ≠ p →
          get_current_model out.2 st' = get_current_model ms st').
Proof.
  intros out p. subst out.
  unfold set_model, get_current_model, get_available_models. fold p.
  destruct (String.eqb_spec p "openai") as [Hp|Hp1].
  - assert (Hel : str_elem model_name
                    ["gpt-4o-mini"; "gpt-4o"; "gpt-4"; "gpt-3.5-turbo"] = true ↔
                  VStr model_name ∈
                    VStr <$> ["gpt-4o-mini"; "gpt-4o"; "gpt-4"; "gpt-3.5-turbo"]).
    { rewrite str_elem_spec, list_elem_of_fmap. split.
      - intros Hin. by exists model_name.
      - by intros (y & [= ->] & Hy). }
    destruct (str_elem model_name _) eqn:Hv; cbn [fst snd openai_api_key
      openrouter_api_key openai_model openrouter_model ollama_model].
    + repeat split; try done.
      * intros _. left. split; [done|]. by apply Hel.
      * intros st' Hne. rewrite Hp in Hne.
        by destruct (String.eqb_spec (current_provider st') "openai").
    + repeat split; try done.
      intros [[_ Hin]|[Hq|Hq]]; [|congruence..].
      apply Hel in Hin. congruence.
  - destruct (String.eqb_spec p "openrouter") as [Hp|Hp2].
    + cbn [fst snd openai_api_key openrouter_api_key openai_model
           openrouter_model ollama_model].
      repeat split; try done; [by auto|].
      intros st' Hne. rewrite Hp in Hne.
      destruct (String.eqb_spec (current_provider st') "openai"); [done|].
      by destruct (String.eqb_spec (current_provider st') "openrouter").
    + destruct (String.eqb_spec p "ollama") as [Hp|Hp3].
      * cbn [fst snd openai_api_key openrouter_api_key openai_model
             openrouter_model ollama_model].
        repeat split; try done; [by auto|].
        intros st' Hne. rewrite Hp in Hne.
        destruct (String.eqb_spec (current_provider st') "openai"); [done|].
        destruct (String.eqb_spec (current_provider st') "openrouter"); [done|].
        by destruct (String.eqb_spec (current_provider st') "ollama").
      * cbn [fst snd]. repeat split; try done. intros [[? _]|[?|?]]; congruence.
Qed.

(** ** Set-up *)

Lemma initialize_flag (ms : ModelSettings) (sw : Setup) (st : AIState)
    (key : option string) :
  let out := initialize ms sw st key in
  is_initialized out.2 = is_initialized st || out.1 ∧
  current_provider out.2 = current_provider st ∧
  conversation_stats out.2 = conversation_stats st ∧
  (out.1 = false → out.2 = st).
Proof.
  cbn zeta. unfold initialize, _initialize_openai, _initialize_openrouter,
    _initialize_ollama.
  repeat case_match; simplify_eq; cbn; rewrite ?orb_true_r, ?orb_false_r; done.
Qed.

Lemma initialize_true (ms : ModelSettings) (sw : Setup) (st : AIState)
    (key : option string) :
  (initialize ms sw st key).1 = true ↔ can_connect ms sw key (current_provider st).
Proof.
  unfold initialize, can_connect, _initialize_openai, _initialize_openrouter,
    _initialize_ollama.
  destruct (String.eqb_spec (current_provider st) "openai") as [->|Hp1].
  - destruct (openai_importable sw); cbn [negb].
    + destruct (String.eqb_spec (key_or key (openai_api_key ms)) "") as [He|He].
      * cbn. split; [done|]. intros [(_ & _ & ? & _)|[[? _]|[? _]]]; done.
      * destruct (openai_new sw _) as [[]|e]; cbn.
        -- split; [|done]. intros _. left. done.
        -- split; [done|]. intros [(_ & _ & _ & ?)|[[? _]|[? _]]]; done.
    + cbn. split; [done|]. intros [(_ & ? & _)|[[? _]|[? _]]]; done.
  - destruct (String.eqb_spec (current_provider st) "openrouter") as [->|Hp2].
    + destruct (String.eqb_spec (key_or key (openrouter_api_key ms)) "") as [He|He]; cbn.
      * split; [done|]. intros [(? & _)|[[_ ?]|[? _]]]; done.
      * split; [|done]. intros _. right. left. done.
    + destruct (String.eqb_spec (current_provider st) "ollama") as [->|Hp3].
      * destruct (ollama_tags sw) as [r|e]; cbn.
        -- destruct (Z.eqb_spec (status_code r) 200) as [Hs|Hs]; cbn.
           ++ split; [|done]. intros _. right. right. split; [done|]. by exists r.
           ++ split; [done|].
              intros [(? & _)|[[? _]|[_ (r' & [= <-] & ?)]]]; done.
        -- split; [done|]. intros [(? & _)|[[? _]|[_ (r' & ? & _)]]]; done.
      * cbn. split; [done|]. intros [(? & _)|[[? _]|[? _]]]; done.
Qed.

Section WithRuntime.
Context `{Runtime}.

(** Changing the provider and connecting again.  After [set_provider]
    has accepted a provider, [initialize] returns [True] exactly when that
    provider can be connected (a key for OpenAI and OpenRouter, an
    answering server for Ollama), the service is initialised exactly when
    it returned [True], and as long as it returns [False] every answer
    of [generate_response] is a fallback text.  In general a failed
    [initialize] changes nothing, so it never switches off a service that
    was initialised. *)
Theorem initialize_after_set_provider (ms : ModelSettings) (sw : Setup)
    (st : AIState) (p : string) (key : option string) :
  (set_provider st p).1 = true →
  let st1 := (set_provider st p).2 in
  let out := initialize ms sw st1 key in
  current_provider out.2 = p ∧
  is_initialized out.2 = out.1 ∧
  (out.1 = true ↔ can_connect ms sw key p) ∧
  conversation_stats out.2 = conversation_stats st ∧
  (out.1 = false →
     ∀ cfg w um sp hist temp mt,
       generate_response cfg w out.2 um sp hist temp mt
       = (VStr (_fallback_response w um), out.2)) ∧
  (∀ st0, (initialize ms sw st0 key).1 = false → (initialize ms sw st0 key).2 = st0).
Proof.
  intros Hset st1 out.
  assert (Hst1 : current_provider st1 = p ∧ is_initialized st1 = false ∧
                 conversation_stats st1 = conversation_stats st).
  { subst st1. unfold set_provider in *.
    destruct (str_elem p valid_providers); [done|discriminate Hset]. }
  destruct Hst1 as (Hp & Hi & Hs).
  destruct (initialize_flag ms sw st1 key) as (Hflag & Hprov & Hstats & Hsame).
  fold out in Hflag, Hprov, Hstats, Hsame.
  rewrite Hi in Hflag. cbn [orb] in Hflag.
  repeat split.
  - congruence.
  - done.
  - subst out. rewrite initialize_true. by rewrite Hp.
  - subst out. rewrite initialize_true. by rewrite Hp.
  - congruence.
  - intros Hfalse cfg w um sp hist temp mt. unfold generate_response.
    by rewrite Hflag, Hfalse.
  - intros st0. apply initialize_flag.
Qed.

End WithRuntime.

Lemma initialize_after_set_provider_witness :
  (set_provider Samples.openrouter_ready "ollama").1 = true ∧
  let st1 := (set_provider Samples.openrouter_ready "ollama").2 in
  let out := initialize default_models offline st1 None in
  current_provider out.2 = "ollama" ∧ is_initialized out.2 = out.1.
Proof.
  split; [reflexivity|].
  pose proof (initialize_after_set_provider (H := ascii_runtime) default_models
                offline Samples.openrouter_ready "ollama" None eq_refl)
    as (H1 & H2 & _).
  exact (conj H1 H2).
Defined.

End ProviderFacts.

(* ===================================================================== *)
(** * The memory service: stored preferences, searches, histories *)
(* ===================================================================== *)

Module MemoryMoreFacts.
Import Py Entity MemoryService MemoryPreferences PyBuiltins PyFacts MemoryVocabulary.

Lemma mapM_Raise {A B} (f : A → res B) (l : list A) :
  Exists (λ x, is_raise (f x) = true) l → is_raise (mapM f l) = true.
Proof.
  induction l as [|x l IH]; intros Hex; [by apply Exists_nil in Hex|].
  cbn [mapM]. destruct (f x) as [y|e] eqn:Hx; [|done]. cbn [mbind res_bind].
  apply Exists_cons in Hex as [Hex|Hex]; [by rewrite Hx in Hex|].
  specialize (IH Hex). by destruct (mapM f l).
Qed.

Lemma preference_entry_Some (w : World) (st : MemState) (entry : pyval) (me : MemoryEntry) :
  preference_entry w st entry = Ok (Some me) →
  memory_type me = PREFERENCE ∧ mem_user_id me = user_id st ∧
  created_at me = clock_now w ∧
  ∃ d, mem_metadata me = VDict d ∧ d !! "type" = Some (VStr "preference").
Proof.
  unfold preference_entry.
  destruct entry as [| | | | | |d]; try done. cbn [get mbind res_bind].
  destruct (dict_get d "metadata" (VDict ∅)) as [| | | | | |md] eqn:Hmd; try done.
  cbn [get mbind res_bind]. unfold dict_get at 1.
  destruct (md !! "type") as [t|] eqn:Ht; cbn [default from_option id]; [|done].
  destruct t as [| | | |s| |]; try done. cbn [eq_str].
  destruct (String.eqb_spec s "preference") as [->|]; [|done].
  intros [= <-]. cbn. repeat split. by exists md.
Qed.

Lemma omap_id_Forall {A} (P : A → Prop) (l : list (option A)) :
  Forall (λ o, ∀ x, o = Some x → P x) l → Forall P (omap id l).
Proof.
  induction 1 as [|[x|] l Hx _ IH]; cbn; [constructor| |done].
  constructor; auto.
Qed.

Lemma length_omap_le {A B} (f : A → option B) (l : list A) :
  length (omap f l) ≤ length l.
Proof. induction l as [|x l IH]; cbn; [done|]. destruct (f x); cbn; lia. Qed.

(** [get_user_preferences] returns only entries of type [PREFERENCE] that
    belong to the user and whose metadata is tagged "preference", at
    most one per result of the store.  It returns nothing when the
    service is not initialised or the search raises; and one result that
    is not a dictionary is enough to lose all of them. *)
Theorem get_user_preferences_spec (w : World) (st : MemState) :
  let r := get_user_preferences w st in
  Forall (λ me, memory_type me = PREFERENCE ∧ mem_user_id me = user_id st ∧
                created_at me = clock_now w ∧
                ∃ d, mem_metadata me = VDict d ∧
                     d !! "type" = Some (VStr "preference")) r ∧
  (is_initialized st = false → r = []) ∧
  (is_raise (mem0_search w "사용자 선호도" (user_id st) 20) = true → r = []) ∧
  (∀ d rs, mem0_search w "사용자 선호도" (user_id st) 20 = Ok (VDict d) →
           d !! "results" = Some (VList rs) →
           length r ≤ length rs ∧
           (Exists (λ e, ∀ d', e ≠ VDict d') rs → r = [])).
Proof.
  intros r. subst r. unfold get_user_preferences.
  split; [|split; [|split; [|intros d rs Hs Hd; split]]].
  - destruct (is_initialized st); cbn [negb]; [|done].
    destruct (mem0_search _ _ _ _) as [result|]; [|done].
    destruct (collect_preferences w st result) as [prefs|] eqn:Hc; [|done].
    unfold collect_preferences in Hc.
    destruct (has_results result) as [[]|]; cbn [mbind res_bind] in Hc;
      [|by injection Hc as <-|done].
    destruct (getitem result "results" ≫= iterate) as [rs|]; [|done].
    cbn [mbind res_bind] in Hc.
    destruct (mapM (preference_entry w st) rs) as [os|] eqn:Hm; [|done].
    cbn [fmap res_fmap] in Hc. injection Hc as <-.
    apply omap_id_Forall.
    apply ConversationFacts.mapM_Ok_inv in Hm.
    clear -Hm. induction Hm as [|e o rs os He _ IH]; constructor; [|done].
    intros me ->. eapply preference_entry_Some, He.
  - by intros ->.
  - destruct (is_initialized st); cbn [negb]; [|done].
    by destruct (mem0_search _ _ _ _).
  - destruct (is_initialized st); cbn [negb]; [|cbn; lia].
    rewrite Hs. unfold collect_preferences. cbn [has_results mbind res_bind].
    rewrite bool_decide_eq_true_2 by (by rewrite Hd).
    cbn [getitem]. rewrite Hd. cbn [mbind res_bind iterate].
    destruct (mapM (preference_entry w st) rs) as [os|] eqn:Hm; cbn; [|lia].
    rewrite length_omap_le.
    apply ConversationFacts.mapM_Ok_inv, Forall2_length in Hm. lia.
  - intros Hex. destruct (is_initialized st); cbn [negb]; [|done].
    rewrite Hs. unfold collect_preferences. cbn [has_results mbind res_bind].
    rewrite bool_decide_eq_true_2 by (by rewrite Hd).
    cbn [getitem]. rewrite Hd. cbn [mbind res_bind iterate].
    assert (Hr : is_raise (mapM (preference_entry w st) rs) = true).
    { apply mapM_Raise. eapply Exists_impl; [exact Hex|].
      intros e He. destruct e; try done. by destruct (He d0). }
    by destruct (mapM _ rs).
Qed.

Section WithRuntime.
Context `{Runtime}.

Lemma long_term_entry_dict (w : World) (st : MemState) (d : gmap string pyval) :
  long_term_entry w st (VDict d) =
  Ok {| mem_id := dict_get d "id" VNone;
        content := dict_get d "memory" (VStr "");
        memory_type := CONVERSATION;
        mem_user_id := user_id st;
        score := dict_get d "score" (VFloat 0%float);
        created_at := clock_now w;
        mem_metadata := dict_get d "metadata" (VDict ∅) |}.
Proof. done. Qed.

Lemma long_term_entry_Ok (w : World) (st : MemState) (e : pyval) (me : MemoryEntry) :
  long_term_entry w st e = Ok me →
  memory_type me = CONVERSATION ∧ mem_user_id me = user_id st ∧
  created_at me = clock_now w.
Proof. destruct e; try done. rewrite long_term_entry_dict. by intros [= <-]. Qed.

(** When the long-term store answers a search with a dictionary,
    [search_memories] reports what the store returned and nothing else.
    A list of result dictionaries becomes the list of their entries in
    the same order, not cut to [limit]: each entry carries the "id",
    "memory", "score" and "metadata" of its result (or [None], the empty
    text, 0.0 and the empty dictionary where the key is missing), the
    type [CONVERSATION], the user of the service and the time of the
    call.  An answer without "results", or with empty "results", gives no
    entries whatever the session holds.  It falls back to the session
    search when a result in the list is not a dictionary, and when
    "results" is not a list and not empty. *)
Theorem search_memories_store_answers (w : World) (st : MemState) (q : string)
    (limit : Z) (result : gmap string pyval) :
  is_initialized st = true →
  mem0_search w q (user_id st) limit = Ok (VDict result) →
  let r := search_memories w st q limit in
  let entry_of (d : gmap string pyval) :=
    mk_memory (default VNone (d !! "id")) (default (VStr "") (d !! "memory"))
              CONVERSATION (user_id st) (default (VFloat 0%float) (d !! "score"))
              (clock_now w) (default (VDict ∅) (d !! "metadata")) in
  query r = q ∧
  total_count r = Z.of_nat (length (entries r)) ∧
  (result !! "results" = None → entries r = []) ∧
  (∀ ds, result !! "results" = Some (VList (VDict <$> ds)) →
         entries r = entry_of <$> ds) ∧
  (∀ rs, result !! "results" = Some (VList rs) →
     (Forall (λ e, ∃ d, e = VDict d) rs →
        length (entries r) = length rs ∧
        Forall (λ me, memory_type me = CONVERSATION ∧ mem_user_id me = user_id st ∧
                      created_at me = clock_now w) (entries r)) ∧
     (Exists (λ e, ∀ d, e ≠ VDict d) rs →
        entries r = _search_session_memories w st q limit)) ∧
  (result !! "results" = Some (VStr "") ∨ result !! "results" = Some (VDict ∅) →
     entries r = []) ∧
  (∀ v, result !! "results" = Some v →
        (∀ rs, v ≠ VList rs) → v ≠ VStr "" → v ≠ VDict ∅ →
        entries r = _search_session_memories w st q limit).
Proof.
  intros Hi Hs r entry_of. subst r. unfold search_memories. rewrite Hi, Hs. cbn [negb].
  assert (Hc : collect_entries w st (VDict result) =
               match result !! "results" with
               | Some v => iterate v ≫= mapM (long_term_entry w st)
               | None => Ok []
               end).
  { unfold collect_entries. cbn [has_results mbind res_bind].
    destruct (result !! "results") as [v|] eqn:Hv.
    - rewrite bool_decide_eq_true_2 by done. cbn [getitem]. by rewrite Hv.
    - by rewrite bool_decide_eq_false_2 by (by intros [? ?]). }
  rewrite Hc. clear Hc.
  assert (Hdicts : ∀ ds, mapM (long_term_entry w st) (VDict <$> ds)
                         = Ok (entry_of <$> ds)).
  { induction ds as [|d ds IH]; [done|].
    cbn [fmap list_fmap mapM]. rewrite long_term_entry_dict. cbn [mbind res_bind].
    change (list_fmap ?f ?l) with (f <$> l). by rewrite IH. }
  assert (Hbad : ∀ rs, Exists (λ e, ∀ d, e ≠ VDict d) rs →
                       is_raise (mapM (long_term_entry w st) rs) = true).
  { intros rs Hex. apply mapM_Raise. eapply Exists_impl; [exact Hex|].
    intros x Hx. destruct x; try done. by destruct (Hx d). }
  split; [by repeat case_match|]. split; [by repeat case_match|].
  split; [by intros ->|].
  split; [by intros ds ->; cbn [mbind res_bind iterate]; rewrite Hdicts|].
  split.
  { intros rs ->. cbn [mbind res_bind iterate]. split.
    - intros Hall.
      assert (Hds : ∃ ds, rs = VDict <$> ds).
      { clear -Hall. induction Hall as [|x l [d ->] _ [ds ->]]; [by exists []|].
        by exists (d :: ds). }
      destruct Hds as [ds ->]. rewrite Hdicts. cbn [entries search_result].
      rewrite !length_fmap. split; [done|].
      apply Forall_fmap, Forall_true. done.
    - intros Hex. specialize (Hbad rs Hex).
      by destruct (mapM (long_term_entry w st) rs). }
  split; [by intros [-> | ->]|].
  intros v -> Hlist Hstr Hdict.
  destruct v as [| | | |s|rs|d]; try done.
  - destruct s as [|c s]; [done|]. done.
  - by destruct (Hlist rs).
  - cbn [mbind res_bind iterate].
    destruct (map_to_list d) as [|[k x] l] eqn:Hl; [|done].
    by apply map_to_list_empty_iff in Hl as ->.
Qed.

(** The session search looks at the last twenty turns only and returns
    the matching ones oldest first, cut to the first [limit]: at most
    [min(limit, 20)] entries, and when more turns match than [limit]
    allows it is the most recent matches that are left out. *)
Theorem search_session_memories_bound (w : World) (st : MemState) (q : string)
    (limit : Z) :
  (0 ≤ limit)%Z →
  let recent := drop (length (session_memories st) - 20) (session_memories st) in
  let r := _search_session_memories w st q limit in
  r = take (Z.to_nat limit)
        (session_entry w st <$> filter (λ m, session_hit (str_lower q) m = true) recent) ∧
  length r ≤ Z.to_nat limit ∧
  length r ≤ 20.
Proof.
  intros Hlim recent r.
  assert (Hr : r = take (Z.to_nat limit)
                     (session_entry w st <$>
                        filter (λ m, session_hit (str_lower q) m = true) recent)).
  { subst r recent. rewrite MemFacts.search_session_memories_eq.
    rewrite (slice_from_neg 20) by lia.
    unfold slice_to, clamp_index.
    destruct (Z.ltb_spec limit 0) as [|_]; [lia|].
    rewrite length_fmap.
    set (hits := filter _ _).
    destruct (decide (limit ≤ Z.of_nat (length hits))%Z).
    - by rewrite Z.min_l by done.
    - rewrite Z.min_r, Nat2Z.id by lia.
      rewrite !take_ge; [done| |]; rewrite length_fmap; lia. }
  split; [done|]. rewrite Hr, length_take, length_fmap.
  pose proof (length_filter (λ m, session_hit (str_lower q) m = true) recent) as Hf.
  assert (length recent ≤ 20) by (subst recent; rewrite length_drop; lia).
  lia.
Qed.

End WithRuntime.

Lemma search_memories_store_answers_witness :
  is_initialized ready_state = true ∧
  mem0_search (answering (VDict two_results)) "hello" (user_id ready_state) 1
    = Ok (VDict two_results) ∧
  entries (search_memories (H := ascii_runtime) (answering (VDict two_results))
             ready_state "hello" 1)
    = [mk_memory (VStr "m1") (VStr "likes tea") CONVERSATION "default_user"
         (VFloat 0.5%float) Samples.noon (VDict (<["topic" := VStr "drinks"]> ∅));
       mk_memory VNone (VStr "") CONVERSATION "default_user"
         (VFloat 0%float) Samples.noon (VDict ∅)].
Proof.
  split; [reflexivity|]. split; [reflexivity|].
  pose proof (search_memories_store_answers (H := ascii_runtime)
                (answering (VDict two_results)) ready_state "hello" 1 two_results
                eq_refl eq_refl) as (_ & _ & _ & He & _).
  rewrite (He [tea_result; ∅] eq_refl). reflexivity.
Defined.

Lemma search_session_memories_bound_witness :
  (0 ≤ 1)%Z ∧
  length (_search_session_memories (H := ascii_runtime) Samples.quiet_world
            Samples.two_turns "" 1) ≤ 1.
Proof.
  split; [done|].
  pose proof (search_session_memories_bound (H := ascii_runtime) Samples.quiet_world
                Samples.two_turns "" 1 ltac:(done)) as (_ & H & _).
  exact H.
Defined.

(** ** Adding and reading back *)

Lemma add_conversation_session (cfg : Config.MemoryConfig) (w : World)
    (st : MemState) (um ar : string) (md : option (gmap string pyval)) :
  (1 ≤ Config.max_session_memories cfg)%Z →
  let grown := session_memories st
               ++ [mk_entry um ar NEUTRAL (clock_now w) (or_empty md)] in
  session_memories (add_conversation cfg w st um ar md).2 =
  drop (length grown - Z.to_nat (Config.max_session_memories cfg)) grown.
Proof.
  intros Hmax grown. unfold add_conversation.
  destruct (is_initialized st); cbn [negb snd];
    rewrite MemFacts.remember_session by done; [|done].
  by destruct (MemFacts.mem0_add_session w
                 {| stored_messages := [("user", um); ("assistant", ar)];
                    stored_metadata := or_empty md |} st) as (-> & _).
Qed.

(** What [add_conversation] stores is what [get_conversation_history]
    reads back: right after the call, the history of limit 1 is exactly
    the new turn, stored with the sentiment [NEUTRAL], the time of the
    call and the metadata given (or the empty dictionary); and for any
    limit of at least 1 the history is the newest
    [min(limit, max_session_memories)] turns of the old buffer extended
    by the new turn. *)
Theorem add_conversation_then_history (cfg : Config.MemoryConfig) (w : World)
    (st : MemState) (um ar : string) (md : option (gmap string pyval)) (limit : Z) :
  (1 ≤ Config.max_session_memories cfg)%Z →
  (1 ≤ limit)%Z →
  let entry := mk_entry um ar NEUTRAL (clock_now w) (or_empty md) in
  let grown := session_memories st ++ [entry] in
  let st' := (add_conversation cfg w st um ar md).2 in
  let k := Z.to_nat limit `min` Z.to_nat (Config.max_session_memories cfg) in
  get_conversation_history st' 1 = [entry] ∧
  get_conversation_history st' limit = drop (length grown - k) grown ∧
  last (get_conversation_history st' limit) = Some entry.
Proof.
  intros Hmax Hlim entry grown st' k.
  assert (Hs : session_memories st' =
               drop (length grown - Z.to_nat (Config.max_session_memories cfg)) grown).
  { subst st'. by rewrite add_conversation_session. }
  assert (Hg : length grown = S (length (session_memories st)))
    by (subst grown; rewrite length_app; cbn; lia).
  assert (Hh : ∀ lim, (1 ≤ lim)%Z →
            get_conversation_history st' lim =
            drop (length grown
                  - Z.to_nat lim `min` Z.to_nat (Config.max_session_memories cfg)) grown).
  { intros lim Hl. unfold get_conversation_history. rewrite Hs.
    set (b := Z.to_nat (Config.max_session_memories cfg)).
    destruct (drop (length grown - b) grown) as [|x r] eqn:Hd.
    - apply (f_equal length) in Hd. rewrite length_drop in Hd. cbn in Hd. lia.
    - rewrite <- Hd. rewrite slice_from_neg by lia.
      rewrite drop_drop, length_drop. f_equal. lia. }
  repeat split.
  - rewrite Hh by done. subst grown.
    replace (length _ - _) with (length (session_memories st))
      by (rewrite length_app; cbn; lia).
    by rewrite drop_app_length.
  - by apply Hh.
  - rewrite Hh by done. subst grown.
    rewrite drop_app_le by (rewrite length_app; cbn; lia).
    apply last_snoc.
Qed.

Lemma add_conversation_then_history_witness :
  (1 ≤ Config.max_session_memories Samples.keep_two)%Z ∧ (1 ≤ 1)%Z ∧
  get_conversation_history
    (add_conversation Samples.keep_two Samples.quiet_world Samples.two_turns
       "bye" "see you" None).2 1
  = [mk_entry "bye" "see you" NEUTRAL Samples.noon ∅].
Proof.
  split; [done|]. split; [done|].
  pose proof (add_conversation_then_history Samples.keep_two Samples.quiet_world
                Samples.two_turns "bye" "see you" None 1 ltac:(done) ltac:(done))
    as (H & _).
  exact H.
Defined.

(** ** Preferences in the long-term store *)

(** [add_user_preference] answers with the initialised flag and never
    touches the session buffer.  Without a long-term store it returns
    [False] and the preference is kept nowhere; with one it returns
    [True] even when the store refused the item, in which case nothing
    was stored; and what it does store is one item tagged "preference"
    with the category given, the tag by which the loop of
    [get_user_preferences] selects a result carrying that metadata. *)
Theorem add_user_preference_spec (w : World) (st : MemState) (t v : string) :
  let out := add_user_preference w st t v in
  out.1 = is_initialized st ∧
  session_memories out.2 = session_memories st ∧
  is_initialized out.2 = is_initialized st ∧
  (is_initialized st = false ∨ mem0_add_raises w = true → out.2 = st) ∧
  (is_initialized st = true → mem0_add_raises w = false →
     ∃ item, long_term out.2 = long_term st ++ [item] ∧
             stored_metadata item !! "type" = Some (VStr "preference") ∧
             stored_metadata item !! "category" = Some (VStr t) ∧
             ∃ me, preference_entry w out.2
                     (VDict (<["metadata" := VDict (stored_metadata item)]> ∅))
                   = Ok (Some me) ∧
                   mem_metadata me = VDict (stored_metadata item)).
Proof.
  cbn zeta. unfold add_user_preference, mem0_add.
  destruct (is_initialized st) eqn:Hi; cbn [negb fst snd]; [|by repeat split].
  destruct (mem0_add_raises w) eqn:Hr.
  - split; [done|]. split; [done|]. split; [done|]. split; [done|]. by intros _ ?.
  - split; [done|]. split; [done|]. split; [done|]. split; [by intros [|]|].
    intros _ _. eexists. split; [done|]. cbn [stored_metadata].
    split; [done|]. split; [done|]. eexists. split; [reflexivity|done].
Qed.

(** ** Sequences of calls *)

Lemma step_invariants (cfg : Config.MemoryConfig) (st : MemState) (c : World * call) :
  (1 ≤ Config.max_session_memories cfg)%Z →
  let st' := step cfg st c in
  user_id st' = user_id st ∧
  (is_initialized st = true → is_initialized st' = true) ∧
  long_term st `prefix_of` long_term st' ∧
  (length (session_memories st) ≤ Z.to_nat (Config.max_session_memories cfg) →
   length (session_memories st') ≤ Z.to_nat (Config.max_session_memories cfg)) ∧
  (is_initialized st' = false →
   is_initialized st = false ∧ long_term st' = long_term st).
Proof.
  intros Hmax. destruct c as [w [|um ar md|t v|]]; cbn [step].
  - unfold initialize. destruct (mem0_available w); cbn [snd]; by repeat split.
  - cbn zeta. rewrite add_conversation_session by done.
    unfold add_conversation.
    destruct (is_initialized st) eqn:Hi; cbn [negb snd].
    + destruct (MemFacts.remember_other cfg
                  (mk_entry um ar NEUTRAL (clock_now w) (or_empty md))
                  (mem0_add w {| stored_messages := [("user", um); ("assistant", ar)];
                                 stored_metadata := or_empty md |} st))
        as (-> & -> & ->).
      destruct (MemFacts.mem0_add_session w
                  {| stored_messages := [("user", um); ("assistant", ar)];
                     stored_metadata := or_empty md |} st) as (_ & -> & ->).
      rewrite Hi. split; [done|]. split; [done|]. split; [|split; [|done]].
      * unfold mem0_add. destruct (mem0_add_raises w); cbn [long_term set_long_term];
          [done|]. by apply prefix_app_r.
      * intros _. rewrite length_drop, length_app. cbn [length]. lia.
    + destruct (MemFacts.remember_other cfg
                  (mk_entry um ar NEUTRAL (clock_now w) (or_empty md)) st)
        as (-> & -> & ->).
      split; [done|]. split; [done|]. split; [done|]. split; [|done].
      intros _. rewrite length_drop, length_app. cbn [length]. lia.
  - unfold add_user_preference, mem0_add.
    destruct (is_initialized st) eqn:Hi; cbn [negb snd]; [|by repeat split].
    destruct (mem0_add_raises w); cbn [long_term set_long_term user_id
      is_initialized session_memories]; [by rewrite Hi|].
    rewrite Hi. split; [done|]. split; [done|]. split; [|done].
    by apply prefix_app_r.
  - cbn [clear_session_memory snd set_session user_id is_initialized
         session_memories long_term length].
    split; [done|]. split; [done|]. split; [done|]. split; [lia|done].
Qed.

(** Over any sequence of calls of the memory service, with
    [max_session_memories] at least 1: the user stays the same; once
    initialised the service stays initialised; the long-term store only
    grows, and it has not grown at all if the service is not initialised
    at the end; and a session buffer within the bound stays within
    it. *)
Theorem run_invariants (cfg : Config.MemoryConfig) (st : MemState)
    (calls : list (World * call)) :
  (1 ≤ Config.max_session_memories cfg)%Z →
  let st' := run cfg st calls in
  user_id st' = user_id st ∧
  (is_initialized st = true → is_initialized st' = true) ∧
  long_term st `prefix_of` long_term st' ∧
  (length (session_memories st) ≤ Z.to_nat (Config.max_session_memories cfg) →
   length (session_memories st') ≤ Z.to_nat (Config.max_session_memories cfg)) ∧
  (is_initialized st' = false →
   is_initialized st = false ∧ long_term st' = long_term st).
Proof.
  intros Hmax. revert st. induction calls as [|c calls IH]; intros st; cbn zeta.
  - unfold run. cbn [foldl]. by repeat split.
  - destruct (step_invariants cfg st c Hmax) as (H1 & H2 & H3 & H4 & H5).
    destruct (IH (step cfg st c)) as (I1 & I2 & I3 & I4 & I5).
    unfold run in *. cbn [foldl].
    split; [congruence|]. split; [by auto|]. split; [by etrans|].
    split; [by auto|].
    intros Hf. destruct (I5 Hf) as [Hf' ->]. by destruct (H5 Hf').
Qed.

Lemma run_invariants_witness :
  (1 ≤ Config.max_session_memories Samples.keep_two)%Z ∧
  length (session_memories
            (run Samples.keep_two Samples.two_turns
               [(Samples.quiet_world, AddConversation "a" "b" None);
                (Samples.quiet_world, AddConversation "c" "d" None)])) ≤ 2.
Proof.
  split; [done|].
  pose proof (run_invariants Samples.keep_two Samples.two_turns
                [(Samples.quiet_world, AddConversation "a" "b" None);
                 (Samples.quiet_world, AddConversation "c" "d" None)] ltac:(done))
    as (_ & _ & _ & H & _).
  apply H. cbn. lia.
Defined.

End MemoryMoreFacts.

(* ===================================================================== *)
(** * The personality service: context, greetings, prefixes, listings *)
(* ===================================================================== *)

Module PersonalityMoreFacts.
Import Py Entity PersonalityService PersonalityPhrases PyBuiltins PyFacts
       PersonalityVocabulary.

(** ** The interaction count and the context window *)

Lemma step_context (st : PState) (c : call) :
  length (conversation_context st) ≤ 10 →
  let grown := conversation_context st ++ context_item c in
  interaction_count (step st c)
    = (interaction_count st + Z.of_nat (length (context_item c)))%Z ∧
  conversation_context (step st c) = drop (length grown - 10) grown.
Proof.
  intros Hlen. destruct c as [|now um s|p]; cbn [step context_item].
  - rewrite PersonaFacts.get_personality_info_state. cbn zeta.
    rewrite app_nil_r. replace (_ - 10) with 0 by lia.
    case_match; cbn; split; (lia || done).
  - cbn zeta. unfold update_interaction. cbn [interaction_count conversation_context].
    split; [cbn; lia|].
    set (grown := conversation_context st ++ _).
    destruct (Z.gtb_spec (Z.of_nat (length grown)) 10) as [Hgt|Hle].
    + by rewrite (slice_from_neg 10) by lia.
    + by replace (length grown - 10) with 0 by lia.
  - cbn zeta. rewrite app_nil_r. replace (_ - 10) with 0 by lia.
    unfold change_personality. repeat case_match; cbn; split; (lia || done).
Qed.

(** Over any sequence of calls of the personality service, the
    interaction count grows by exactly the number of
    [update_interaction] calls, and the conversation context is exactly
    the last ten of the items it held followed by one item per
    [update_interaction], in order; the other calls touch neither. *)
Theorem run_interactions (st : PState) (calls : list call) :
  length (conversation_context st) ≤ 10 →
  let all := conversation_context st ++ context_items calls in
  interaction_count (run st calls)
    = (interaction_count st + Z.of_nat (length (context_items calls)))%Z ∧
  conversation_context (run st calls) = drop (length all - 10) all ∧
  length (conversation_context (run st calls)) = length all `min` 10.
Proof.
  intros Hlen all.
  assert (Hgen : ∀ calls st, length (conversation_context st) ≤ 10 →
            interaction_count (run st calls)
              = (interaction_count st + Z.of_nat (length (context_items calls)))%Z ∧
            conversation_context (run st calls)
              = drop (length (conversation_context st ++ context_items calls) - 10)
                     (conversation_context st ++ context_items calls)).
  { clear. induction calls as [|c calls IH]; intros st Hlen.
    - unfold run, context_items. cbn [foldl mbind list_bind length].
      rewrite app_nil_r. replace (_ - 10) with 0 by lia. split; [lia|done].
    - destruct (step_context st c Hlen) as [Hc Hx]. cbn zeta in Hx.
      destruct (IH (step st c)) as [IHc IHx].
      { rewrite Hx, length_drop. lia. }
      unfold run in *. cbn [foldl]. unfold context_items in *.
      rewrite bind_cons, length_app. split; [lia|].
      rewrite IHx, Hx, ConversationFacts.drop_drop_window.
      by rewrite <- app_assoc. }
  destruct (Hgen calls st Hlen) as [H1 H2]. fold all in H2.
  split; [done|]. split; [done|]. rewrite H2, length_drop. lia.
Qed.

Lemma run_interactions_witness :
  length (conversation_context (__init__ (Member CARING))) ≤ 10 ∧
  interaction_count (run (__init__ (Member CARING)) Samples.mood_calls) = 4%Z.
Proof.
  split; [cbn; lia|].
  pose proof (run_interactions (__init__ (Member CARING)) Samples.mood_calls
                ltac:(cbn; lia)) as (H & _).
  exact H.
Defined.

(** ** Greetings and prefixes *)

Lemma random_choice_member (draw : nat) (l : list string) :
  l ≠ [] → AIConversationService.random_choice draw l ∈ l.
Proof.
  intros Hl. unfold AIConversationService.random_choice.
  apply list_elem_of_In, nth_In, Nat.mod_upper_bound.
  by destruct l.
Qed.

Lemma choice_elem (draw : nat) (l : list string) :
  l ≠ [] → ∃ g, choice draw l = Ok g ∧ g ∈ l.
Proof.
  intros Hl. exists (AIConversationService.random_choice draw l).
  split; [by destruct l|by apply random_choice_member].
Qed.

Lemma traits_of_member (p : PersonalityType) :
  traits_of (Member p) =
  Ok match p with
     | CARING => caring_traits
     | PLAYFUL => playful_traits
     | INTELLECTUAL => intellectual_traits
     | ROMANTIC => romantic_traits
     end.
Proof. by destruct p. Qed.

Lemma greetings_nonempty (p : PersonalityType) (t : Traits) :
  traits_of (Member p) = Ok t →
  greeting_phrases t ≠ [] ∧ Forall (λ g, g ≠ "") (greeting_phrases t).
Proof.
  rewrite traits_of_member. intros [= <-].
  destruct p; (split; [done|repeat constructor; done]).
Qed.

(** [get_greeting] of a service whose personality is one of the four
    members returns one of the three greetings of that personality, which
    is not empty, and this stays so after any sequence of calls; with any
    other value as the personality it raises [KeyError]. *)
Theorem get_greeting_spec (draw : nat) (st : PState) :
  (∀ p, personality_type st = Member p →
        ∃ t g, traits_of (Member p) = Ok t ∧ get_greeting draw st = Ok g ∧
               g ∈ greeting_phrases t ∧ g ≠ "") ∧
  (∀ s, personality_type st = Foreign s → get_greeting draw st = Raise KeyError) ∧
  (∀ calls draw', in_traits (personality_type st) = true →
        ∃ g, get_greeting draw' (run st calls) = Ok g ∧ g ≠ "").
Proof.
  assert (Hmem : ∀ d st p, personality_type st = Member p →
            ∃ t g, traits_of (Member p) = Ok t ∧ get_greeting d st = Ok g ∧
                   g ∈ greeting_phrases t ∧ g ≠ "").
  { clear. intros d st p Hp. unfold get_greeting. rewrite Hp.
    destruct (traits_of (Member p)) as [t|] eqn:Ht;
      [|by rewrite traits_of_member in Ht].
    destruct (greetings_nonempty p t Ht) as [Hne Hall].
    destruct (choice_elem d (greeting_phrases t) Hne) as (g & Hg & Hin).
    exists t, g. cbn [mbind res_bind]. repeat split; try done.
    rewrite Forall_forall in Hall. by apply Hall. }
  split; [by apply Hmem|]. split.
  - intros s Hs. unfold get_greeting. by rewrite Hs.
  - intros calls d Hdef. apply (PersonaFacts.run_keeps_defined _ calls) in Hdef.
    destruct (personality_type (run st calls)) as [p|s] eqn:Hp; [|done].
    destruct (Hmem d _ p Hp) as (t & g & _ & Hg & _ & Hne). by exists g.
Qed.

Section WithRuntime.
Context `{Runtime}.

Lemma phrases_nonempty (p : PersonalityType) (t : Traits) (key : string) :
  traits_of (Member p) = Ok t →
  phrases t key ≠ [] ∧
  (key ∈ (phrase_lists t).*1 → Forall (λ g, g ≠ "") (phrases t key)).
Proof.
  rewrite traits_of_member. intros [= <-]. unfold phrases.
  destruct p; cbn [phrase_lists caring_traits playful_traits intellectual_traits
                   romantic_traits list_find fst snd];
    repeat (case_decide; cbn [fmap option_fmap option_map fst snd];
            [split; [done|intros _; repeat constructor; done]|]);
    (split; [done|]); intros Hin; apply list_elem_of_In in Hin; cbn in Hin;
    intuition congruence.
Qed.

(** When [get_contextual_response_prefix] says something.  For a caring,
    playful or romantic companion the prefix is not empty exactly when
    the lowercased message contains a word of sadness or of joy, and
    words of a question never produce one; for the intellectual companion
    it is not empty exactly when the message contains a question word and
    no word of sadness or joy.  Words of sadness are tested first, so a
    message with both is answered as a sad one. *)
Theorem contextual_prefix_spec (draw : nat) (st : PState) (um : string)
    (p : PersonalityType) :
  personality_type st = Member p →
  let msg := str_lower um in
  let sad := any_in sad_words msg in
  let happy := any_in happy_words msg in
  let asks := any_in question_words msg in
  ∃ g, get_contextual_response_prefix draw st um = Ok g ∧
       (g ≠ "" ↔ if decide (p = INTELLECTUAL)
                 then negb sad && negb happy && asks = true
                 else sad || happy = true) ∧
       (sad = true → p = CARING →
          g ∈ phrases caring_traits "empathy_responses") ∧
       (sad = false → happy = true → p = CARING →
          g ∈ phrases caring_traits "encouragement").
Proof.
  intros Hp msg sad happy asks.
  unfold get_contextual_response_prefix. rewrite Hp, traits_of_member.
  cbn [mbind res_bind]. fold msg.
  change (any_in ["슬프"; "우울"; "힘들"; "괴로"] msg) with sad.
  change (any_in ["기쁘"; "행복"; "좋"; "성공"] msg) with happy.
  change (any_in ["질문"; "궁금"; "알고싶"; "설명"] msg) with asks.
  assert (Hch : ∀ q key, key ∈ (phrase_lists
                   match q with
                   | CARING => caring_traits
                   | PLAYFUL => playful_traits
                   | INTELLECTUAL => intellectual_traits
                   | ROMANTIC => romantic_traits
                   end).*1 →
            ∃ g, choice draw (phrases match q with
                                      | CARING => caring_traits
                                      | PLAYFUL => playful_traits
                                      | INTELLECTUAL => intellectual_traits
                                      | ROMANTIC => romantic_traits
                                      end key) = Ok g ∧
                 g ∈ phrases match q with
                             | CARING => caring_traits
                             | PLAYFUL => playful_traits
                             | INTELLECTUAL => intellectual_traits
                             | ROMANTIC => romantic_traits
                             end key ∧ g ≠ "").
  { intros q key Hkey.
    destruct (phrases_nonempty q _ key (traits_of_member q)) as [Hne Hall].
    destruct (choice_elem draw _ Hne) as (g & Hg & Hin).
    exists g. repeat split; try done.
    specialize (Hall Hkey). rewrite Forall_forall in Hall. by apply Hall. }
  destruct sad, happy, asks, p; cbn [is_member bool_decide decide_rel negb andb orb];
    repeat (case_bool_decide; try done);
    try (eexists; split; [reflexivity|];
         split; [by case_decide|]; split; by intros);
    match goal with
    | |- context [choice draw (phrases ?t ?key)] =>
        let q := match t with
                 | caring_traits => constr:(CARING)
                 | playful_traits => constr:(PLAYFUL)
                 | intellectual_traits => constr:(INTELLECTUAL)
                 | romantic_traits => constr:(ROMANTIC)
                 end in
        destruct (Hch q key) as (g & Hg & Hin & Hne);
          [apply list_elem_of_In; cbn; tauto|];
          cbn match in Hg, Hin; exists g; split; [exact Hg|];
          split; [by case_decide|]; split; by intros
    end.
Qed.

End WithRuntime.

Lemma contextual_prefix_spec_witness :
  personality_type (__init__ (Member INTELLECTUAL)) = Member INTELLECTUAL ∧
  ∃ g, get_contextual_response_prefix (H := ascii_runtime) 0
         (__init__ (Member INTELLECTUAL)) "설명" = Ok g ∧ g ≠ "".
Proof.
  split; [reflexivity|].
  destruct (contextual_prefix_spec (H := ascii_runtime) 0
              (__init__ (Member INTELLECTUAL)) "설명" INTELLECTUAL eq_refl)
    as (g & Hg & Hne & _).
  exists g. split; [exact Hg|]. apply Hne. reflexivity.
Defined.

(** ** The listing of personalities *)

(** Every entry of [get_available_personalities] can be chosen: its
    "type" is the value of a member of [PersonalityType],
    [change_personality] accepts that member in a service whose
    personality is defined, and [get_personality_info] then reports the
    type, name and description of the entry.  The listing has one entry
    for each of the four members. *)
Theorem available_personalities_spec :
  (∀ entry, entry ∈ get_available_personalities →
     ∃ p t, entry = [("type", personality_value p); ("name", name t);
                     ("description", description t)] ∧
            Profile.personality_of_value (VStr (personality_value p)) = Ok p ∧
            ∀ st, in_traits (personality_type st) = true →
                  change_personality st (Member p)
                    = (Ok true, set_personality st (Member p)) ∧
                  get_personality_info (set_personality st (Member p))
                    = (Ok (info_of p t), set_personality st (Member p))) ∧
  (∀ p, ∃ entry, entry ∈ get_available_personalities ∧
                 entry !! 0 = Some ("type", personality_value p)) ∧
  length get_available_personalities = 4.
Proof.
  split; [|split; [|done]].
  - intros entry Hin. apply list_elem_of_In in Hin. cbn in Hin.
    assert (Hst : ∀ p st, in_traits (personality_type st) = true →
              change_personality st (Member p)
                = (Ok true, set_personality st (Member p))).
    { intros p st Hdef. unfold change_personality.
      rewrite PersonaFacts.in_traits_member.
      destruct (personality_type st); [done|discriminate Hdef]. }
    destruct Hin as [<-|[<-|[<-|[<-|[]]]]].
    + exists CARING, caring_traits. repeat split; try done. by apply Hst.
    + exists PLAYFUL, playful_traits. repeat split; try done. by apply Hst.
    + exists INTELLECTUAL, intellectual_traits. repeat split; try done. by apply Hst.
    + exists ROMANTIC, romantic_traits. repeat split; try done. by apply Hst.
  - intros p.
    exists [("type", personality_value p);
            ("name", name match p with
                          | CARING => caring_traits
                          | PLAYFUL => playful_traits
                          | INTELLECTUAL => intellectual_traits
                          | ROMANTIC => romantic_traits
                          end);
            ("description", description match p with
                                        | CARING => caring_traits
                                        | PLAYFUL => playful_traits
                                        | INTELLECTUAL => intellectual_traits
                                        | ROMANTIC => romantic_traits
                                        end)].
    split; [|done]. apply list_elem_of_In. destruct p; cbn; tauto.
Qed.

(** ** A personality that is not a member *)

(** Of the operations that read the traits, only [get_personality_info]
    is protected against a personality that is not a member of the
    enumeration (such as a bare string): it resets the personality to
    [CARING] and answers with the caring traits, leaving mood, count and
    context alone, while [get_response_style], [get_greeting] and
    [get_personality_stats] raise.  After that reset they all answer. *)
Theorem get_personality_info_heals (st : PState) (s : string) :
  personality_type st = Foreign s →
  get_response_style st = Raise KeyError ∧
  (∀ draw, get_greeting draw st = Raise KeyError) ∧
  get_personality_stats st = Raise AttributeError ∧
  let out := get_personality_info st in
  out.1 = Ok (info_of CARING caring_traits) ∧
  out.2 = set_personality st (Member CARING) ∧
  get_response_style out.2 = Ok (response_style caring_traits) ∧
  (∀ draw, ∃ g, get_greeting draw out.2 = Ok g ∧ g ∈ greeting_phrases caring_traits) ∧
  (∃ ps, get_personality_stats out.2 = Ok ps ∧ current_personality ps = "caring" ∧
         stats_mood_level ps = mood_level st ∧
         stats_interaction_count ps = interaction_count st).
Proof.
  intros Hs.
  split; [by unfold get_response_style; rewrite Hs|].
  split; [by intros draw; unfold get_greeting; rewrite Hs|].
  split; [by unfold get_personality_stats; rewrite Hs|].
  cbn zeta. unfold get_personality_info. rewrite Hs. cbn [in_traits].
  cbn [set_personality personality_type].
  change (traits_of (Member CARING)) with (Ok caring_traits).
  cbn [fst snd]. split; [done|]. split; [done|]. split; [done|]. split.
  - intros draw. unfold get_greeting. cbn [personality_type set_personality].
    change (traits_of (Member CARING)) with (Ok caring_traits).
    cbn [mbind res_bind]. by apply choice_elem.
  - eexists. split; [reflexivity|]. done.
Qed.

Lemma get_personality_info_heals_witness :
  personality_type (__init__ (Foreign "playful")) = Foreign "playful" ∧
  get_response_style (__init__ (Foreign "playful")) = Raise KeyError ∧
  (get_personality_info (__init__ (Foreign "playful"))).2 = __init__ (Member CARING).
Proof.
  split; [reflexivity|].
  pose proof (get_personality_info_heals (__init__ (Foreign "playful")) "playful" eq_refl)
    as (H1 & _ & _ & _ & H2 & _).
  split; [exact H1|exact H2].
Defined.

End PersonalityMoreFacts.

(* ===================================================================== *)
(** * Validation of the configuration *)
(* ===================================================================== *)

Module ConfigFacts.
Import Py Entity AppConfig AIConversationService AIProviders AIVocabulary.

Lemma personality_of_string (s : string) :
  str_elem s ["caring"; "playful"; "intellectual"; "romantic"] = true ↔
  ∃ p, Profile.personality_of_value (VStr s) = Ok p.
Proof.
  unfold str_elem, Profile.personality_of_value. cbn [existsb].
  destruct (String.eqb s "caring"); [by split; eauto|].
  destruct (String.eqb s "playful"); [by split; eauto|].
  destruct (String.eqb s "intellectual"); [by split; eauto|].
  destruct (String.eqb s "romantic"); [by split; eauto|].
  split; [done|]. by intros [p Hp].
Qed.

Lemma validate_lookup (c : Settings) :
  validate c !! "personality"
    = Some (str_elem (default_personality c)
              ["caring"; "playful"; "intellectual"; "romantic"]) ∧
  validate c !! "ai_provider" = Some (str_elem (ai_provider c) valid_providers) ∧
  validate c !! "log_directory" = Some (log_dir_exists c) ∧
  validate c !! "api_key" =
    if String.eqb (ai_provider c) "openai" then Some (nonempty (ai_openai_api_key c))
    else if String.eqb (ai_provider c) "openrouter"
    then Some (nonempty (ai_openrouter_api_key c))
    else if String.eqb (ai_provider c) "ollama" then Some true
    else None.
Proof.
  unfold validate. cbn zeta.
  split; [|split; [|split]];
    repeat first [rewrite lookup_insert_eq | rewrite lookup_insert_ne by done];
    try done.
  repeat case_match;
    repeat first [rewrite lookup_insert_eq | rewrite lookup_insert_ne by done];
    done.
Qed.

(** [validate] agrees with what the services accept.  Its "personality"
    entry is true exactly when [PersonalityType(default_personality)],
    which the controller evaluates at start-up, does not raise; its
    "ai_provider" entry is true exactly when [set_provider] accepts the
    provider, and exactly then there is an "api_key" entry at all; for
    OpenRouter the "api_key" entry is true exactly when [initialize]
    without an explicit key succeeds.  The entries "personality",
    "ai_provider" and "log_directory" are always present. *)
Theorem validate_spec (c : Settings) :
  let v := validate c in
  (v !! "personality" = Some true ↔
     ∃ p, Profile.personality_of_value (VStr (default_personality c)) = Ok p) ∧
  (v !! "ai_provider" = Some true ↔
     ∀ st, (set_provider st (ai_provider c)).1 = true) ∧
  (v !! "ai_provider" = Some true ↔ is_Some (v !! "api_key")) ∧
  (ai_provider c = "openrouter" →
   ∀ ms sw st, openrouter_api_key ms = ai_openrouter_api_key c →
               current_provider st = "openrouter" →
               ((initialize ms sw st None).1 = true ↔ v !! "api_key" = Some true)) ∧
  is_Some (v !! "personality") ∧ is_Some (v !! "ai_provider") ∧
  v !! "log_directory" = Some (log_dir_exists c).
Proof.
  intros v. subst v.
  destruct (validate_lookup c) as (Hp & Ha & Hl & Hk).
  rewrite Hp, Ha, Hl, Hk.
  split; [|split; [|split; [|split; [|by eauto]]]].
  - destruct (personality_of_string (default_personality c)) as [H1 H2].
    split; [intros [= Hs]; by apply H1|intros Hex; by rewrite (H2 Hex)].
  - unfold set_provider.
    destruct (str_elem (ai_provider c) valid_providers); cbn [fst].
    + split; done.
    + split; [done|]. intros Hall. by specialize (Hall Samples.openrouter_ready).
  - unfold str_elem, valid_providers. cbn [existsb].
    destruct (String.eqb (ai_provider c) "openai"); [cbn; split; eauto|].
    destruct (String.eqb (ai_provider c) "openrouter"); [cbn; split; eauto|].
    destruct (String.eqb (ai_provider c) "ollama"); [cbn; split; eauto|].
    cbn. split; [done|]. by intros [? ?].
  - intros Hq ms sw st Hkey Hcur. rewrite Hq. cbn [String.eqb Ascii.eqb Bool.eqb].
    rewrite ProviderFacts.initialize_true, Hcur. unfold can_connect, nonempty.
    cbn [key_or]. rewrite Hkey.
    destruct (String.eqb_spec (ai_openrouter_api_key c) "") as [He|He]; cbn [negb].
    + split; [|done]. intros [(? & _)|[[_ ?]|[? _]]]; done.
    + split; [done|]. intros _. right. left. done.
Qed.

End ConfigFacts.

(* ===================================================================== *)
(** * The system prompt and the controller *)
(* ===================================================================== *)

Module PromptFacts.
Import Py Entity PersonalityService PersonalityPhrases PyBuiltins PyFacts
       SystemPrompt CompanionController.









Section WithFormatting.
Context `{Formatting}.

Lemma generate_system_prompt_returns (st : PState) (un : string)
    (ms : option (list pyval)) (prefs : option (list (string * pyval))) :
  (∀ s, personality_type st = Foreign s →
        generate_system_prompt st un ms prefs = Raise KeyError) ∧
  (∀ p, personality_type st = Member p →
        ∃ prompt, generate_system_prompt st un ms prefs = Ok prompt).
Proof.
  split.
  - intros s Hs. unfold generate_system_prompt. by rewrite Hs.
  - intros p Hp.
    destruct (traits_of (Member p)) as [t|] eqn:Ht;
      [|by rewrite PersonalityMoreFacts.traits_of_member in Ht].
    unfold generate_system_prompt. rewrite Hp, Ht. cbn [mbind res_bind mret res_ret].
    eexists. reflexivity.
Qed.


Section WithRuntime.
Context `{Runtime}.

Lemma py_or_truthy (v : pyval) (s : string) :
  s ≠ "" → truthy (py_or v (VStr s)) = true.
Proof.
  intros Hs. unfold py_or. destruct (truthy v) eqn:Hv; [done|].
  cbn [truthy]. by destruct (String.eqb_spec s "").
Qed.

(** [generate_ai_response] of the controller never hands back an empty
    answer.  With a personality that is one of the four members it
    returns what [generate_response] answered when that is a value Python
    takes for true, and the apology text otherwise, in particular when
    the AI service answered [None] (a request answered with an error
    status) or the empty string; so the result is never [None] and never
    empty, and when the AI service is not initialised it is the fallback
    text.  The profile, the memory service and the personality service
    are left as they were.  With any other personality the [KeyError] of
    the system prompt escapes. *)
Theorem generate_ai_response_spec (cfg_ai : Config.AIProviderConfig)
    (cfg_memory : Config.MemoryConfig) (wm : MemoryService.World)
    (wa : AIConversationService.World) (c : Controller) (um : string) :
  (∀ s, PersonalityService.personality_type (personality_service c) = Foreign s →
        generate_ai_response cfg_ai cfg_memory wm wa c um = Raise KeyError) ∧
  (∀ p, PersonalityService.personality_type (personality_service c) = Member p →
     ∃ sp v c',
       generate_ai_response cfg_ai cfg_memory wm wa c um = Ok (v, c') ∧
       let out := AIConversationService.generate_response cfg_ai wa (ai_service c)
                    um sp
                    (Some (MemoryService.get_conversation_history (memory_service c) 5))
                    None None in
       v = py_or out.1 (VStr apology) ∧
       ai_service c' = out.2 ∧
       truthy v = true ∧ v ≠ VNone ∧ v ≠ VStr "" ∧
       (truthy out.1 = true → v = out.1) ∧
       (out.1 = VNone ∨ out.1 = VStr "" → v = VStr apology) ∧
       (AIConversationService.is_initialized (ai_service c) = false →
          v = VStr (AIConversationService._fallback_response wa um) ∧
          ai_service c' = ai_service c) ∧
       user_profile c' = user_profile c ∧
       memory_service c' = memory_service c ∧
       personality_service c' = personality_service c).
Proof.
  split.
  - intros s Hs. unfold generate_ai_response.
    destruct (generate_system_prompt_returns (personality_service c)
                (Profile.profile_name (user_profile c))
                (Some (content <$> entries
                         (MemoryService.search_memories wm (memory_service c) um
                            (Config.search_limit cfg_memory))))
                (Some ((λ '(key, pref), (key, VStr (Profile.value pref)))
                         <$> map_to_list (Profile.preferences (user_profile c)))))
      as [Hraise _].
    by rewrite (Hraise s Hs).
  - intros p Hp. unfold generate_ai_response.
    destruct (generate_system_prompt_returns (personality_service c)
                (Profile.profile_name (user_profile c))
                (Some (content <$> entries
                         (MemoryService.search_memories wm (memory_service c) um
                            (Config.search_limit cfg_memory))))
                (Some ((λ '(key, pref), (key, VStr (Profile.value pref)))
                         <$> map_to_list (Profile.preferences (user_profile c)))))
      as [_ Hok].
    destruct (Hok p Hp) as (sp & Hsp).
    rewrite Hsp. cbn [mbind res_bind].
    exists sp.
    destruct (AIConversationService.generate_response cfg_ai wa (ai_service c) um sp
                (Some (MemoryService.get_conversation_history (memory_service c) 5))
                None None) as [response ai] eqn:Hgen.
    eexists. eexists. split; [reflexivity|]. cbn [fst snd ai_service user_profile
      memory_service personality_service].
    assert (Htruthy : truthy (py_or response (VStr apology)) = true)
      by (by apply py_or_truthy).
    split; [done|]. split; [done|]. split; [done|].
    split; [by intros Heq; rewrite Heq in Htruthy|].
    split; [by intros Heq; rewrite Heq in Htruthy|].
    split; [by intros Ht; unfold py_or; rewrite Ht|].
    split; [by intros [->| ->]|].
    split; [|done].
    intros Hi. unfold AIConversationService.generate_response in Hgen.
    rewrite Hi in Hgen. cbn [negb] in Hgen. injection Hgen as <- <-.
    split; [|done]. unfold py_or. cbn [truthy].
    pose proof (AIFacts.fallback_response_nonempty wa um) as Hne.
    by destruct (String.eqb_spec (AIConversationService._fallback_response wa um) "").
Qed.

End WithRuntime.
End WithFormatting.

End PromptFacts.
